(** * gnes: trainable-component base class and word2vec encoder

    A shallow embedding of

    - [src/nes/base/__init__.py]: the metaclass [TrainableType] (capture of
      the constructor arguments, the wrapper around [train]) and the base
      class [TrainableBase] (trained-state guard, pickling hooks, dump to and
      load from a YAML mapping);
    - [gnes/encoder/w2v.py]: [Word2VecEncoder] (loading of the vector table,
      [encode], pickling hook).

    Python objects are modelled by their instance dictionary, a finite map
    from attribute names to values.  Methods that mutate [self] or may raise
    live in a small state-and-exception monad: a raised exception keeps the
    mutations made before it, as in Python.

    What stands outside the model: the profiling wrapper installed under
    [NES_PROFILING] and the class attribute [init_from_yaml], which no code
    of the two files reads; the text of a YAML document and the bytes of a
    pickle (for plain data both denote the mapping that was written); the
    wall-clock times formatted into the log messages of [encode]; the
    rounding of [float32].  numpy is taken at a version that refuses to
    build an array from rows of different lengths. *)

From Stdlib Require Import ZArith QArith String Ascii List Lia.
From stdpp Require Import base option list gmap strings fin_maps.

Set Warnings "-register-all".

Local Open Scope string_scope.
Local Open Scope Z_scope.

(** ** Exceptions and results *)

(** The exception classes the two source files can raise.
    [UnsupportedConfiguration] is a name used by the specification only: no
    path of the source constructs it. *)
Inductive pyexn : Type :=
| AttributeError (attr : string)
| IOError (path : string)
| KeyError (key : string)
| TypeError (msg : string)
| ValueError (msg : string)
| RuntimeError (msg : string)
| UnsupportedConfiguration.

Inductive result (A : Type) : Type :=
| Ok (a : A)
| Raise (e : pyexn).
Arguments Ok {A} a.
Arguments Raise {A} e.

Definition is_ok {A} (r : result A) : bool :=
  match r with Ok _ => true | Raise _ => false end.

Definition rbind {A B} (r : result A) (k : A -> result B) : result B :=
  match r with
  | Ok a => k a
  | Raise e => Raise e
  end.

Notation "'let?' x ':=' r 'in' k" := (rbind r (fun x => k))
  (at level 10, x name, r at level 100, k at level 200).

(** ** Plain-data values *)

(** The values held by attributes, constructor arguments and YAML mappings.
    [VEmpty] is [inspect.Parameter.empty], the default of a parameter that
    declares none.  [VLogger] and [VCache] are the two runtime handles built
    by [set_logger(name, verbose)] and [MemoryCache(cache_path=...)] of the
    helper module.  [VArray] is a one-dimensional numpy array and [VNaN] the
    scalar [nan]; array entries are rationals kept in lowest terms: the
    rounding of [float32] is not modelled. *)
Inductive pyval : Type :=
| VNone
| VBool (b : bool)
| VInt (z : Z)
| VStr (s : string)
| VTuple (l : list pyval)
| VDict (d : gmap string pyval)
| VEmpty
| VLogger (name : string) (verbose : pyval)
| VCache (path : string)
| VArray (a : list Q)
| VNaN.

(** Python truthiness, as used by [if self.is_trained], [if args] and
    [if getattr(self, '_init_kwargs_dict', None)].  No array is ever the
    operand of a condition in the two files. *)
Definition truthy (v : pyval) : bool :=
  match v with
  | VNone => false
  | VBool b => b
  | VInt z => negb (z =? 0)
  | VStr s => negb (String.eqb s "")
  | VTuple l => match l with [] => false | _ => true end
  | VDict d => negb (bool_decide (d = ∅))
  | VEmpty | VLogger _ _ | VCache _ | VArray _ | VNaN => true
  end.

(** Python [==] with an atom on one side: [True == 1] and [False == 0] hold,
    [None] equals only itself.  The source compares attribute values with the
    declared defaults [False] and [None] only, so a container on both sides
    never occurs; a container and an atom are different. *)
Definition py_eq (x y : pyval) : bool :=
  match x, y with
  | VNone, VNone => true
  | VBool a, VBool b => Bool.eqb a b
  | VInt a, VInt b => a =? b
  | VBool a, VInt b => Z.b2z a =? b
  | VInt a, VBool b => a =? Z.b2z b
  | VStr a, VStr b => String.eqb a b
  | VEmpty, VEmpty => true
  | _, _ => false
  end.

Definition py_ne (x y : pyval) : bool := negb (py_eq x y).

(** ** Objects and the method monad *)

Inductive level : Type := INFO | WARNING.

(** What a logger call hands to the log sink. *)
Record log_record : Type := LogRecord {
  rec_level : level;
  rec_logger : string;
  rec_msg : string
}.

(** An instance under execution: its class name ([self.__class__.__name__]),
    the class attribute [store_args_kwargs] it inherits, its [__dict__], and
    the records emitted so far. *)
Record world : Type := World {
  class_name : string;
  store_args_kwargs : bool;
  dict : gmap string pyval;
  emitted : list log_record
}.

Definition with_dict (w : world) (d : gmap string pyval) : world :=
  World (class_name w) (store_args_kwargs w) d (emitted w).

Definition with_emitted (w : world) (l : list log_record) : world :=
  World (class_name w) (store_args_kwargs w) (dict w) l.

Definition M (A : Type) : Type := world -> result A * world.

Definition ret {A} (a : A) : M A := fun w => (Ok a, w).
Definition throw {A} (e : pyexn) : M A := fun w => (Raise e, w).
Definition lift {A} (r : result A) : M A := fun w => (r, w).
Definition bind {A B} (m : M A) (k : A -> M B) : M B :=
  fun w => match m w with
           | (Ok a, w') => k a w'
           | (Raise e, w') => (Raise e, w')
           end.

Declare Scope py_scope.
Delimit Scope py_scope with py.
Notation "'let!' x ':=' m 'in' k" := (bind m (fun x => k))
  (at level 10, x name, m at level 100, k at level 200) : py_scope.
Notation "'run!' m 'in' k" := (bind m (fun _ => k))
  (at level 10, m at level 100, k at level 200) : py_scope.
Local Open Scope py_scope.

(** [self.k] *)
Definition getattr (k : string) : M pyval :=
  fun w => match dict w !! k with
           | Some v => (Ok v, w)
           | None => (Raise (AttributeError k), w)
           end.

(** [self.k = v] *)
Definition setattr (k : string) (v : pyval) : M unit :=
  fun w => (Ok tt, with_dict w (<[k := v]> (dict w))).

(** [self.logger.<level>(msg)]: the attribute must exist and be a logger. *)
Definition logger_emit (lv : level) (msg : string) : M unit :=
  let! l := getattr "logger" in
  match l with
  | VLogger n _ =>
      fun w => (Ok tt, with_emitted w (emitted w ++ [LogRecord lv n msg]))
  | _ => throw (AttributeError match lv with INFO => "info" | WARNING => "warning" end)
  end.

Definition dquote : string := String (ascii_of_nat 34) EmptyString.

(** ** [TrainableType._as_train_func] and [TrainableBase._train_required] *)

Module Base.

(** A method body: receives the positional and keyword arguments, runs on
    [self]. *)
Definition method (A : Type) : Type :=
  list pyval -> gmap string pyval -> M A.

Definition train_warning (cls : string) : string :=
  dquote ++ cls ++ dquote ++
  " has been trained already, training it again will override the previous training".

(** [_as_train_func(func)]: warn when already trained, run [func], then set
    the flag. *)
Definition _as_train_func {A} (func : method A) : method A :=
  fun args kwargs =>
    let! t := getattr "is_trained" in
    run! (if truthy t
          then (fun w => logger_emit WARNING (train_warning (class_name w)) w)
          else ret tt) in
    let! f := func args kwargs in
    run! setattr "is_trained" (VBool true) in
    ret f.

Definition training_required (fname : string) : string :=
  "training is required before calling " ++ dquote ++ fname ++ dquote.

(** [_train_required(func)]; [fname] is [func.__name__]. *)
Definition _train_required {A} (fname : string) (func : method A) : method A :=
  fun args kwargs =>
    let! t := getattr "is_trained" in
    if truthy t
    then func args kwargs
    else throw (RuntimeError (training_required fname)).

(** [TrainableBase.train]: [pass]. *)
Definition train : method pyval := fun _ _ => ret VNone.

(** ** [TrainableType._store_init_kwargs] *)

(** [inspect.signature(func).parameters]: the declared parameters in order,
    each with its default ([VEmpty] when it has none); [self], [*args] and
    [**kwargs] are entries of it like the others. *)
Definition signature : Type := list (string * pyval).

Definition taboo : list string := ["self"; "args"; "kwargs"].

Definition declared (sig : signature) : signature :=
  filter (fun p => p.1 ∉ taboo) sig.

(** [for k, v in zip(tmp_list, args): tmp[k] = v] *)
Definition set_args (tmp_list : list string) (args : list pyval)
    (tmp : gmap string pyval) : gmap string pyval :=
  foldl (fun t kv => <[kv.1 := kv.2]> t) tmp (zip tmp_list args).

(** [for k, v in kwargs.items(): if k in tmp: tmp[k] = v] *)
Definition set_kwargs (kwargs tmp : gmap string pyval) : gmap string pyval :=
  map_imap (fun k v => Some (default v (kwargs !! k))) tmp.

(** The dictionary [tmp] the wrapper builds before it stores it. *)
Definition captured (store : bool) (sig : signature)
    (args : list pyval) (kwargs : gmap string pyval) : gmap string pyval :=
  let tmp : gmap string pyval := list_to_map (declared sig) in
  let tmp_list := (declared sig).*1 in
  let tmp := set_args tmp_list args tmp in
  let tmp := set_kwargs kwargs tmp in
  if store then
    let tmp := if truthy (VTuple args) then <["args" := VTuple args]> tmp else tmp in
    if truthy (VDict kwargs) then <["kwargs" := VDict kwargs]> tmp else tmp
  else tmp.

(** [_store_init_kwargs(func)]; [sig] is [inspect.signature(func)]. *)
Definition _store_init_kwargs (sig : signature) (func : method unit) : method unit :=
  fun args kwargs =>
    let! tmp := (fun w => ret (captured (store_args_kwargs w) sig args kwargs) w) in
    let! old := (fun w => ret (default VNone (dict w !! "_init_kwargs_dict")) w) in
    run! (if truthy old
          then match old with
               | VDict d => setattr "_init_kwargs_dict" (VDict (tmp ∪ d))
               | _ => throw (AttributeError "update")
               end
          else setattr "_init_kwargs_dict" (VDict tmp)) in
    func args kwargs.

(** ** Classes and [TrainableType.__call__] *)

(** A class built by the metaclass: its name, its own value of
    [store_args_kwargs], the signature of its [__init__] and the body of
    that [__init__] as written (undecorated). *)
Record pyclass : Type := PyClass {
  cls_name : string;
  cls_store_args_kwargs : bool;
  all_pars : signature;
  init_body : method unit
}.

(** [cls.__init__] after [TrainableType.__new__] has wrapped it. *)
Definition wrapped_init (cls : pyclass) : method unit :=
  _store_init_kwargs (all_pars cls) (init_body cls).

Definition default_property : list (string * pyval) :=
  [("is_trained", VBool false); ("batch_size", VNone)].

(** [for k, v in default_property.items(): if not hasattr(obj, k): setattr(obj, k, v)] *)
Definition set_default_property : M unit :=
  fun w => (Ok tt,
            with_dict w
              (foldl (fun d kv => match d !! kv.1 with
                                  | Some _ => d
                                  | None => <[kv.1 := kv.2]> d
                                  end)
                     (dict w) default_property)).

(** A freshly allocated instance of [cls], before [__init__] runs; the log
    holds the records emitted on behalf of the instance. *)
Definition fresh (cls : pyclass) : world :=
  World (cls_name cls) (cls_store_args_kwargs cls) ∅ [].

(** [TrainableType.__call__(cls, *args, **kwargs)]: the new object, or the
    exception of the constructor. *)
Definition __call__ (cls : pyclass) (args : list pyval)
    (kwargs : gmap string pyval) : result world :=
  match (run! wrapped_init cls args kwargs in set_default_property)
          (fresh cls) with
  | (Ok _, w) => Ok w
  | (Raise e, _) => Raise e
  end.

(** ** [TrainableBase] *)

Definition set_logger (name : string) (verbose : pyval) : pyval :=
  VLogger name verbose.

Definition MemoryCache (cache_path : string) : pyval := VCache cache_path.

(** [TrainableBase.__init__(self, *args, **kwargs)] *)
Definition TrainableBase_init : method unit :=
  fun args kwargs =>
    run! setattr "is_trained" (VBool false) in
    run! setattr "verbose" (match kwargs !! "verbose" with
                            | Some v => v
                            | None => VBool false
                            end) in
    let! v := getattr "verbose" in
    run! (fun w => setattr "logger" (set_logger (class_name w) v) w) in
    setattr "memcached" (MemoryCache ".nes_cache").

Definition TrainableBase_sig : signature :=
  [("self", VEmpty); ("args", VEmpty); ("kwargs", VEmpty)].

Definition TrainableBase : pyclass :=
  PyClass "TrainableBase" false TrainableBase_sig TrainableBase_init.

(** [super().__init__( *args, **kwargs)] of a direct subclass: the wrapped
    constructor of [TrainableBase]. *)
Definition super_init : method unit := wrapped_init TrainableBase.

(** [del d[k]] *)
Definition del (k : string) (d : gmap string pyval) : result (gmap string pyval) :=
  match d !! k with
  | Some _ => Ok (delete k d)
  | None => Raise (KeyError k)
  end.

(** [TrainableBase.__getstate__]: on a copy of [__dict__]. *)
Definition __getstate__ (w : world) : result (gmap string pyval) :=
  match del "logger" (dict w) with
  | Ok d => del "memcached" d
  | Raise e => Raise e
  end.

(** [TrainableBase.__setstate__(self, d)] *)
Definition __setstate__ (d : gmap string pyval) : M unit :=
  run! (fun w => (Ok tt, with_dict w (d ∪ dict w))) in
  let! v := getattr "verbose" in
  run! (fun w => setattr "logger" (set_logger (class_name w) v) w) in
  setattr "memcached" (MemoryCache ".nes_cache").

(** Binding of the call [func(self, *args, **kwargs)] to a signature
    [(self, p1, ..., pn, *args, **kwargs)]: the values of [p1 ... pn], the
    positional arguments left for [*args] and the keyword arguments left for
    [**kwargs]; [TypeError] as Python raises it. *)
Fixpoint bind_args (pars : signature) (args : list pyval)
    (kwargs : gmap string pyval)
  : result (gmap string pyval * list pyval * gmap string pyval) :=
  match pars with
  | [] => Ok (∅, args, kwargs)
  | (k, dflt) :: pars' =>
      match args with
      | a :: args' =>
          match kwargs !! k with
          | Some _ => Raise (TypeError "got multiple values for argument")
          | None =>
              let? r := bind_args pars' args' kwargs in
              Ok (<[k := a]> r.1.1, r.1.2, r.2)
          end
      | [] =>
          match kwargs !! k with
          | Some v =>
              let? r := bind_args pars' [] (delete k kwargs) in
              Ok (<[k := v]> r.1.1, r.1.2, r.2)
          | None =>
              match dflt with
              | VEmpty => Raise (TypeError "missing required positional argument")
              | _ =>
                  let? r := bind_args pars' [] kwargs in
                  Ok (<[k := dflt]> r.1.1, r.1.2, r.2)
              end
          end
      end
  end.

(** ** Structured (YAML) dump and load *)

(** [{k: getattr(data, k) for k, v in props.items() if getattr(data, k) != v}] *)
Fixpoint non_default (d : gmap string pyval) (props : list (string * pyval))
  : result (gmap string pyval) :=
  match props with
  | [] => Ok ∅
  | (k, v) :: props' =>
      match d !! k with
      | None => Raise (AttributeError k)
      | Some x =>
          let? p := non_default d props' in
          Ok (if py_ne x v then <[k := x]> p else p)
      end
  end.

(** [TrainableBase._dump_instance_to_yaml(data)]: the mapping that [to_yaml]
    hands to the representer. *)
Definition _dump_instance_to_yaml (data : world) : result (gmap string pyval) :=
  let? p := non_default (dict data) default_property in
  match dict data !! "_init_kwargs_dict" with
  | None => Raise (AttributeError "_init_kwargs_dict")
  | Some (VDict a) =>
      let r : gmap string pyval := ∅ in
      let r := if truthy (VDict a) then <["parameter" := VDict a]> r else r in
      let r := if truthy (VDict p) then <["property" := VDict p]> r else r in
      Ok r
  | Some _ => Raise (AttributeError "items")
  end.

(** [data.get(k, {})], which the source then uses as a mapping. *)
Definition get_mapping (k : string) (data : gmap string pyval)
  : result (gmap string pyval) :=
  match data !! k with
  | None => Ok ∅
  | Some (VDict d) => Ok d
  | Some _ => Raise (TypeError "argument after ** must be a mapping")
  end.

(** [TrainableBase._get_instance_from_yaml(cls, constructor, node)], on the
    mapping [data] constructed from the node; the first component of the
    pair it returns. *)
Definition _get_instance_from_yaml (cls : pyclass) (data : gmap string pyval)
  : result world :=
  let? p := get_mapping "parameter" data in
  let? obj :=
    if cls_store_args_kwargs cls then
      let? a := match p !! "args" with
                | None => Ok []
                | Some (VTuple l) => Ok l
                | Some _ => Raise (TypeError "argument after * must be an iterable")
                end in
      let? k := get_mapping "kwargs" p in
      let p := delete "kwargs" (delete "args" p) in
      __call__ cls a (p ∪ k)
    else __call__ cls [] p in
  let? props := get_mapping "property" data in
  Ok (with_dict obj (props ∪ dict obj)).

(** [dump_yaml] followed by [load_yaml]: for plain data the YAML text
    denotes the mapping that was dumped, and its tag selects the class. *)
Definition dump_structured (c : world) : result (gmap string pyval) :=
  _dump_instance_to_yaml c.

Definition load_structured (cls : pyclass) (doc : gmap string pyval)
  : result world :=
  _get_instance_from_yaml cls doc.

Definition roundtrip (cls : pyclass) (c : world) : result world :=
  let? doc := dump_structured c in
  load_structured cls doc.

(** The captured constructor configuration and the non-default whitelist
    properties of a component. *)
Definition config (c : world) : option pyval := dict c !! "_init_kwargs_dict".

Definition overrides (c : world) : result (gmap string pyval) :=
  non_default (dict c) default_property.

End Base.

(** ** [Word2VecEncoder] *)

Module W2V.

Import Base.

Definition Word2VecEncoder_sig : signature :=
  [("self", VEmpty); ("model_dir", VEmpty); ("skiprows", VInt 1);
   ("batch_size", VInt 64); ("dimension", VInt 300);
   ("pooling_strategy", VStr "REDUCE_MEAN");
   ("args", VEmpty); ("kwargs", VEmpty)].

Definition arg (b : gmap string pyval) (k : string) : pyval :=
  default VEmpty (b !! k).

(** Modelled from the spec: the class [BaseEncoder] that [Word2VecEncoder]
    extends is not among the sources; the specification makes the trainable
    base class the single base of every encoder, so [super().__init__] is
    the wrapped constructor of [TrainableBase].

    [Word2VecEncoder.__init__]. *)
Definition Word2VecEncoder_init : method unit :=
  fun args kwargs =>
    match bind_args (declared Word2VecEncoder_sig) args kwargs with
    | Raise e => throw e
    | Ok (b, rest, rest_kw) =>
        run! super_init rest rest_kw in
        run! setattr "model_dir" (arg b "model_dir") in
        run! setattr "skiprows" (arg b "skiprows") in
        run! setattr "batch_size" (arg b "batch_size") in
        run! setattr "pooling_strategy" (arg b "pooling_strategy") in
        run! setattr "is_trained" (VBool true) in
        setattr "dimension" (arg b "dimension")
    end.

Definition Word2VecEncoder : pyclass :=
  PyClass "Word2VecEncoder" false Word2VecEncoder_sig Word2VecEncoder_init.

(** *** Text of the vector file *)

(** Whitespace of [str.strip()] among the ASCII characters. *)
Definition is_space (c : ascii) : bool :=
  let n := nat_of_ascii c in
  ((9 <=? n)%nat && (n <=? 13)%nat) || ((28 <=? n)%nat && (n <=? 32)%nat).

Fixpoint lstrip (s : string) : string :=
  match s with
  | EmptyString => EmptyString
  | String c s' => if is_space c then lstrip s' else s
  end.

Fixpoint rstrip (s : string) : string :=
  match s with
  | EmptyString => EmptyString
  | String c s' =>
      match rstrip s' with
      | EmptyString => if is_space c then EmptyString else String c EmptyString
      | r => String c r
      end
  end.

Definition strip (s : string) : string := rstrip (lstrip s).

(** [s.split(' ')]: every single space separates two fields. *)
Fixpoint split_space (s : string) : list string :=
  match s with
  | EmptyString => [EmptyString]
  | String c s' =>
      if Ascii.eqb c " "%char then EmptyString :: split_space s'
      else match split_space s' with
           | [] => [String c EmptyString]
           | f :: fs => String c f :: fs
           end
  end.

(** [line.strip().split(' ')] *)
Definition fields (line : string) : list string := split_space (strip line).

(** An attribute used as an integer operand of [<] or [>]. *)
Definition as_int (v : pyval) : result Z :=
  match v with
  | VInt z => Ok z
  | VBool b => Ok (Z.b2z b)
  | _ => Raise (TypeError "not supported between instances")
  end.

Section Loading.

(** The file system as [open(path, 'r').readlines()] sees it ([None]: the
    path cannot be read), and [float(s)] ([None]: [ValueError]). *)
Variable readlines : string -> option (list string).
Variable py_float : string -> option Q.

(** [[float(i) for i in line[1:]]] *)
Fixpoint floats (l : list string) : result (list Q) :=
  match l with
  | [] => Ok []
  | i :: l' =>
      match py_float i with
      | None => Raise (ValueError "could not convert string to float")
      | Some x => let? xs := floats l' in Ok (x :: xs)
      end
  end.

(** [self.word2vec_df[key] = value] *)
Definition table_set (key : string) (value : pyval) : M unit :=
  let! df := getattr "word2vec_df" in
  match df with
  | VDict t => setattr "word2vec_df" (VDict (<[key := value]> t))
  | _ => throw (TypeError "object does not support item assignment")
  end.

(** The loop over [f.readlines()], with the local [count]. *)
Fixpoint load_lines (lines : list string) (count : Z) : M unit :=
  match lines with
  | [] => ret tt
  | l :: rest =>
      let line := fields l in
      let! skiprows := (let! v := getattr "skiprows" in lift (as_int v)) in
      if count <? skiprows then load_lines rest (count + 1)
      else
        let! dimension := (let! v := getattr "dimension" in lift (as_int v)) in
        run! (if Z.of_nat (length line) >? dimension
              then let! a := lift (floats (tail line)) in
                   table_set (hd EmptyString line) (VArray a)
              else ret tt) in
        load_lines rest count
  end.

(** [np.zeros([n])] *)
Definition np_zeros (n : pyval) : result pyval :=
  match n with
  | VInt z => if z <? 0 then Raise (ValueError "negative dimensions are not allowed")
              else Ok (VArray (repeat 0%Q (Z.to_nat z)))
  | VBool b => Ok (VArray (repeat 0%Q (Z.to_nat (Z.b2z b))))
  | _ => Raise (TypeError "cannot be interpreted as an integer")
  end.

(** [Word2VecEncoder._post_init] *)
Definition _post_init : M unit :=
  run! setattr "word2vec_df" (VDict ∅) in
  let! path := getattr "model_dir" in
  let! lines := match path with
                | VStr p => match readlines p with
                            | Some ls => ret ls
                            | None => throw (IOError p)
                            end
                | _ => throw (TypeError "expected str, bytes or os.PathLike object")
                end in
  run! load_lines lines 0 in
  let! d := getattr "dimension" in
  let! z := lift (np_zeros d) in
  setattr "empty" z.

End Loading.

(** *** [encode] *)

Fixpoint mapM {A B} (f : A -> M B) (l : list A) : M (list B) :=
  match l with
  | [] => ret []
  | a :: l' => let! b := f a in let! bs := mapM f l' in ret (b :: bs)
  end.

Fixpoint mapR {A B} (f : A -> result B) (l : list A) : result (list B) :=
  match l with
  | [] => Ok []
  | a :: l' => let? b := f a in let? bs := mapR f l' in Ok (b :: bs)
  end.

(** The rows of a list of one-dimensional arrays. *)
Fixpoint as_rows (pool : list pyval) : result (list (list Q)) :=
  match pool with
  | [] => Ok []
  | VArray a :: pool' => let? rs := as_rows pool' in Ok (a :: rs)
  | _ :: _ => Raise (TypeError "unsupported operand type")
  end.

Definition vadd (a b : list Q) : list Q := zip_with Qplus a b.

(** [np.mean(_pool, axis=0)]: the mean of an empty list is the scalar [nan]
    (numpy only warns); rows of different lengths do not form an array. *)
Definition np_mean_axis0 (pool : list pyval) : result pyval :=
  let? rows := as_rows pool in
  match rows with
  | [] => Ok VNaN
  | v :: vs =>
      if forallb (fun u => (length u =? length v)%nat) vs
      then Ok (VArray (map (fun s => Qred (s / inject_Z (Z.of_nat (length rows))))
                           (foldl vadd v vs)))
      else Raise (ValueError "inhomogeneous shape")
  end.

(** The shape of an element of [pooled_data]: [None] for a scalar. *)
Definition shape (v : pyval) : option nat :=
  match v with
  | VArray a => Some (length a)
  | _ => None
  end.

(** [np.array(pooled_data)]: the elements must have one shape. *)
Definition np_array (pooled : list pyval) : result (list pyval) :=
  match pooled with
  | [] => Ok []
  | v :: vs =>
      if forallb (fun u => bool_decide (shape u = shape v)) vs
      then Ok pooled
      else Raise (ValueError "inhomogeneous shape")
  end.

Section Encoding.

(** [cn_tokenizer.tokenize] of the helper module. *)
Variable tokenize : string -> list string.

(** [self.word2vec_df.get(token, self.empty)] *)
Definition lookup_token (token : string) : M pyval :=
  let! df := getattr "word2vec_df" in
  match df with
  | VDict t => let! e := getattr "empty" in ret (default e (t !! token))
  | _ => throw (AttributeError "get")
  end.

(** [encode] up to and including the pooling: the value of [pooled_data]
    when the [return] statement is reached.  The elapsed times formatted
    into the log messages are not modelled. *)
Definition encode_pooled (text : list string) : M (list pyval) :=
  run! logger_emit INFO "debugging serious performance error" in
  let batch_tokens := map tokenize text in
  run! logger_emit INFO "debugging: segment takes {}" in
  let! pooled_data := mapM (fun tokens => mapM lookup_token tokens) batch_tokens in
  run! logger_emit INFO "debugging: dic takes {}" in
  let! pooled_data := lift (mapR np_mean_axis0 pooled_data) in
  run! logger_emit INFO "debugging: pooling takes {}" in
  ret pooled_data.

(** [Word2VecEncoder.encode]: [np.array(pooled_data).astye(np.float32)];
    an ndarray has no attribute [astye]. *)
Definition encode (text : list string) : M (list pyval) :=
  let! pooled_data := encode_pooled text in
  let! _a := lift (np_array pooled_data) in
  throw (AttributeError "astye").

End Encoding.

(** [Word2VecEncoder.__getstate__] *)
Definition __getstate__ (w : world) : result (gmap string pyval) :=
  let? d := Base.__getstate__ w in
  let? d := del "word2vec_df" d in
  del "empty" d.

End W2V.

(** ** Worlds and components used in the statements *)

Import Base W2V.

(** The world after [self.is_trained = True]. *)
Definition trained (w : world) : world :=
  with_dict w (<["is_trained" := VBool true]> (dict w)).

(** The world after [self.logger.warning(...)] of the train wrapper, for a
    logger named [n]. *)
Definition warned (w : world) (n : string) : world :=
  with_emitted w (emitted w ++ [LogRecord WARNING n (train_warning (class_name w))]).

Definition guard_error (fname : string) : pyexn :=
  RuntimeError (training_required fname).

(** A component made by the base constructor alone. *)
Definition base_obj : world :=
  match __call__ TrainableBase [] ∅ with
  | Ok w => w
  | Raise _ => fresh TrainableBase
  end.

Definition w2v_kwargs : gmap string pyval := {[ "model_dir" := VStr "vectors.txt" ]}.

(** A [Word2VecEncoder] as its constructor leaves it. *)
Definition w2v_obj : world :=
  match __call__ W2V.Word2VecEncoder [] w2v_kwargs with
  | Ok w => w
  | Raise _ => fresh W2V.Word2VecEncoder
  end.

(** A constructor body keeps the captured configuration when it leaves the
    attribute [_init_kwargs_dict] as the wrapper set it. *)
Definition keeps_config (body : method unit) : Prop :=
  forall args kwargs w w' D,
    store_args_kwargs w = false ->
    dict w !! "_init_kwargs_dict" = Some (VDict D) ->
    body args kwargs w = (Ok tt, w') ->
    store_args_kwargs w' = false
    /\ dict w' !! "_init_kwargs_dict" = Some (VDict D).

(** A [Word2VecEncoder] after [c.is_trained = False]. *)
Definition untrained_w2v : world :=
  with_dict w2v_obj (<["is_trained" := VBool false]> (dict w2v_obj)).

Definition force (r : result world) : world :=
  match r with
  | Ok w => w
  | Raise _ => fresh TrainableBase
  end.

(** The configuration captured for [w2v_obj]. *)
Definition w2v_config : gmap string pyval :=
  match config w2v_obj with
  | Some (VDict D) => D
  | _ => ∅
  end.

Definition verbose_kwargs : gmap string pyval := {[ "verbose" := VBool true ]}.

(** [TrainableBase(verbose=True)] *)
Definition verbose_obj : world := force (__call__ TrainableBase [] verbose_kwargs).

(** A sample class that keeps the raw arguments:
    [store_args_kwargs = True] and
    [def __init__(self, a, *args, **kwargs): super().__init__( *args, **kwargs); self.a = a]. *)
Definition Stored_sig : signature :=
  [("self", VEmpty); ("a", VEmpty); ("args", VEmpty); ("kwargs", VEmpty)].

Definition Stored_init : method unit :=
  fun args kwargs =>
    match bind_args (declared Stored_sig) args kwargs with
    | Raise e => throw e
    | Ok (b, rest, rest_kw) =>
        run! super_init rest rest_kw in
        setattr "a" (arg b "a")
    end.

Definition Stored : pyclass := PyClass "Stored" true Stored_sig Stored_init.

(** Two sample classes whose constructors chain, neither keeping the raw
    arguments: [class Mid(TrainableBase)] with
    [def __init__(self, lang='en', *args, **kwargs): super().__init__( *args, **kwargs); self.lang = lang]
    and [class Sub(Mid)] with
    [def __init__(self, y, *args, **kwargs): super().__init__( *args, **kwargs); self.y = y].
    The metaclass wraps the [__init__] of each class, so [super().__init__]
    in [Sub] is the wrapped constructor of [Mid]. *)
Definition Mid_sig : signature :=
  [("self", VEmpty); ("lang", VStr "en"); ("args", VEmpty); ("kwargs", VEmpty)].

Definition Mid_init : method unit :=
  fun args kwargs =>
    match bind_args (declared Mid_sig) args kwargs with
    | Raise e => throw e
    | Ok (b, rest, rest_kw) =>
        run! super_init rest rest_kw in
        setattr "lang" (arg b "lang")
    end.

Definition Mid : pyclass := PyClass "Mid" false Mid_sig Mid_init.

Definition Sub_sig : signature :=
  [("self", VEmpty); ("y", VEmpty); ("args", VEmpty); ("kwargs", VEmpty)].

Definition Sub_init : method unit :=
  fun args kwargs =>
    match bind_args (declared Sub_sig) args kwargs with
    | Raise e => throw e
    | Ok (b, rest, rest_kw) =>
        run! wrapped_init Mid rest rest_kw in
        setattr "y" (arg b "y")
    end.

Definition Sub : pyclass := PyClass "Sub" false Sub_sig Sub_init.

Definition sub_kwargs : gmap string pyval :=
  <["lang" := VStr "zh"]> {[ "y" := VInt 1 ]}.

(** [Sub(y=1, lang='zh')] *)
Definition sub_obj : world := force (__call__ Sub [] sub_kwargs).

(** The instance pickle allocates before it calls [__setstate__]: of the
    class of [w], with an empty [__dict__]. *)
Definition blank (w : world) : world := with_dict w ∅.

Definition handles : list string := ["logger"; "memcached"].

Definition encoder_excluded : list string :=
  ["logger"; "memcached"; "word2vec_df"; "empty"].

(** *** The table built from the rows of the file *)

(** The rows that are kept: more than [D] fields. *)
Definition retained (D : Z) (rows : list (list string)) : list (list string) :=
  filter (fun row => D < Z.of_nat (length row)) rows.

(** The rows after the header: the first [s] lines are skipped. *)
Definition body_rows (s : Z) (lines : list string) : list (list string) :=
  map fields (drop (Z.to_nat s) lines).

(** The table the loop builds from the rows after the header. *)
Fixpoint build (py_float : string -> option Q) (D : Z) (rows : list (list string)) (T : gmap string pyval)
  : result (gmap string pyval) :=
  match rows with
  | [] => Ok T
  | row :: rest =>
      if Z.of_nat (length row) >? D
      then let? a := floats py_float (tail row) in
           build py_float D rest (<[hd EmptyString row := VArray a]> T)
      else build py_float D rest T
  end.

Definition set_table (w : world) (T : gmap string pyval) : world :=
  with_dict w (<["word2vec_df" := VDict T]> (dict w)).

(** *** A sample file system and number parser *)

Definition nl : string := String (ascii_of_nat 10) EmptyString.

Definition digit (c : ascii) : option Z :=
  let n := nat_of_ascii c in
  if ((48 <=? n)%nat && (n <=? 57)%nat)%bool then Some (Z.of_nat (n - 48)) else None.

Fixpoint digits (s : string) (acc : Z) : option Z :=
  match s with
  | EmptyString => Some acc
  | String c s' =>
      match digit c with
      | Some d => digits s' (10 * acc + d)
      | None => None
      end
  end.

(** [float] on unsigned decimal integer literals; nothing else parses. *)
Definition sample_float (s : string) : option Q :=
  match s with
  | EmptyString => None
  | _ => option_map inject_Z (digits s 0)
  end.

Definition sample_readlines (path : string) : option (list string) :=
  if String.eqb path "vectors.txt"
  then Some ["3 2" ++ nl; "a 1 0" ++ nl; "b 3 0" ++ nl; "short 7" ++ nl]
  else if String.eqb path "ragged.txt"
  then Some ["2 2" ++ nl; "a 1 2 3" ++ nl; "a 4 5 6" ++ nl]
  else None.

(** [Word2VecEncoder(model_dir=path, dimension=2)] *)
Definition w2v_at (path : string) : world :=
  force (__call__ Word2VecEncoder []
           (<["dimension" := VInt 2]> {[ "model_dir" := VStr path ]})).

(** The table of the encoder [w]. *)
Definition table_of (w : world) : gmap string pyval :=
  match dict w !! "word2vec_df" with
  | Some (VDict T) => T
  | _ => ∅
  end.

Definition sample_lines : list string :=
  ["3 2" ++ nl; "a 1 0" ++ nl; "b 3 0" ++ nl; "short 7" ++ nl].

(** The sample encoder after [_post_init]. *)
Definition loaded_w2v : world :=
  (_post_init sample_readlines sample_float (w2v_at "vectors.txt")).2.

(** A sample tokenizer: the non-empty fields between spaces. *)
Definition sample_tokenize (s : string) : list string :=
  filter (fun t => t <> EmptyString) (split_space s).

(** *** The elementwise mean, in the words of the specification *)

(** The vector looked up for a token: its entry in the table, the fallback
    vector [e] for a token the table does not hold. *)
Definition row_of (T : gmap string pyval) (e : list Q) (token : string) : list Q :=
  match T !! token with
  | Some (VArray a) => a
  | _ => e
  end.

Definition column (i : nat) (rows : list (list Q)) : list Q :=
  map (fun r => nth i r 0%Q) rows.

Definition Qsum (l : list Q) : Q := foldr Qplus 0%Q l.

(** The arithmetic mean, position by position, of rows of length [D]. *)
Definition elementwise_mean (D : nat) (rows : list (list Q)) : list Q :=
  map (fun i => Qred (Qsum (column i rows) / inject_Z (Z.of_nat (length rows))))
      (seq 0 D).

(** Two instances that differ at most in the attribute [k]. *)
Definition same_but (k : string) (w1 w2 : world) : Prop :=
  class_name w1 = class_name w2
  /\ store_args_kwargs w1 = store_args_kwargs w2
  /\ emitted w1 = emitted w2
  /\ forall j, j <> k -> dict w1 !! j = dict w2 !! j.

(** A computation that neither reads nor writes the attribute [k]. *)
Definition ignores {A} (k : string) (m : M A) : Prop :=
  forall w1 w2, same_but k w1 w2 ->
    (m w1).1 = (m w2).1 /\ same_but k (m w1).2 (m w2).2.

(** A computation that never raises the specification's
    [UnsupportedConfiguration]. *)
Definition quiet {A} (m : M A) : Prop :=
  forall w, (m w).1 <> Raise UnsupportedConfiguration.

(** The world after [self.pooling_strategy = v]. *)
Definition with_pooling (w : world) (v : pyval) : world :=
  with_dict w (<["pooling_strategy" := v]> (dict w)).

(** ** Further definitions *)

(** A constructor as Python runs it: the call is first bound to the
    declared parameters, then the body runs on the bound values and on what
    is left for [*args] and [**kwargs]. *)
Definition python_init (sig : signature)
    (body : gmap string pyval -> list pyval -> gmap string pyval -> M unit)
  : method unit :=
  fun args kwargs =>
    match bind_args (declared sig) args kwargs with
    | Raise e => throw e
    | Ok r => body r.1.1 r.1.2 r.2
    end.

(** The statements of [Word2VecEncoder.__init__] after the binding of the
    call. *)
Definition Word2VecEncoder_body (b : gmap string pyval) (rest : list pyval)
    (rest_kw : gmap string pyval) : M unit :=
  run! super_init rest rest_kw in
  run! setattr "model_dir" (arg b "model_dir") in
  run! setattr "skiprows" (arg b "skiprows") in
  run! setattr "batch_size" (arg b "batch_size") in
  run! setattr "pooling_strategy" (arg b "pooling_strategy") in
  run! setattr "is_trained" (VBool true) in
  setattr "dimension" (arg b "dimension").

(** A sample class that keeps the raw arguments and has no constructor of
    its own: [class RawStored(TrainableBase): store_args_kwargs = True].  Its
    [__init__] is the wrapped constructor it inherits, which
    [TrainableType.__new__] wraps once more; through [functools.wraps],
    [inspect.signature] still sees the signature of the base constructor. *)
Definition RawStored : pyclass :=
  PyClass "RawStored" true TrainableBase_sig super_init.

(** [RawStored(1, 'x', verbose=True)] *)
Definition raw_obj : world :=
  force (__call__ RawStored [VInt 1; VStr "x"] {[ "verbose" := VBool true ]}).

(** The exception of [float()] on a string that is no number. *)
Definition bad_number : pyexn :=
  ValueError "could not convert string to float".

(** The encoder after a completed [_post_init] that built the table [T]. *)
Definition loaded (w : world) (T : gmap string pyval) (D : Z) : world :=
  with_dict w
    (<["empty" := VArray (repeat 0%Q (Z.to_nat D))]>
       (<["word2vec_df" := VDict T]> (dict w))).

(** The lines of the sample file [ragged.txt]: a word listed twice, with
    more numbers than the dimension. *)
Definition ragged_lines : list string :=
  ["2 2" ++ nl; "a 1 2 3" ++ nl; "a 4 5 6" ++ nl].

(** A computation that changes no attribute outside [ks] and emits nothing. *)
Definition touches (ks : list string) {A} (m : M A) : Prop :=
  forall w,
    class_name (m w).2 = class_name w
    /\ store_args_kwargs (m w).2 = store_args_kwargs w
    /\ emitted (m w).2 = emitted w
    /\ forall k, k ∉ ks -> dict (m w).2 !! k = dict w !! k.

(** A computation that changes no attribute and emits only [INFO] records. *)
Definition reads_only {A} (m : M A) : Prop :=
  forall w,
    class_name (m w).2 = class_name w
    /\ store_args_kwargs (m w).2 = store_args_kwargs w
    /\ dict (m w).2 = dict w
    /\ exists l, emitted (m w).2 = (emitted w ++ l)%list
                 /\ Forall (fun r => rec_level r = INFO) l.

(** A computation that removes no attribute. *)
Definition keeps_attrs {A} (m : M A) : Prop :=
  forall w k, is_Some (dict w !! k) -> is_Some (dict (m w).2 !! k).

(** * Properties *)

(** ** The trained-state guard and the train wrapper *)

Ltac run_monad :=
  unfold _train_required, _as_train_func, logger_emit, bind, getattr, setattr,
    ret, throw, lift; simpl.



(** The base constructor never raises. *)
Lemma base_call_ok (args : list pyval) (kwargs : gmap string pyval) :
  exists w, __call__ TrainableBase args kwargs = Ok w
            /\ dict w !! "is_trained" = Some (VBool false)
            /\ dict w !! "logger"
               = Some (set_logger "TrainableBase"
                         (default (VBool false) (kwargs !! "verbose")))
            /\ dict w !! "memcached" = Some (MemoryCache ".nes_cache")
            /\ class_name w = "TrainableBase" /\ emitted w = [].
Proof.
  eexists. split; [reflexivity|].
  repeat split; vm_compute; destruct (kwargs !! "verbose"); reflexivity.
Qed.

Lemma w2v_call_ok : __call__ Word2VecEncoder [] w2v_kwargs = Ok w2v_obj.
Proof. vm_compute. reflexivity. Qed.

(** C7, as stated, fails: the constructor of [Word2VecEncoder] returns a
    component whose trained flag is already true. *)
Lemma trained_flag_after_construction_counterexample :
  ~ (forall cls args kwargs w,
       __call__ cls args kwargs = Ok w ->
       dict w !! "is_trained" = Some (VBool false)).
Proof.
  intros Hall.
  specialize (Hall Word2VecEncoder [] w2v_kwargs w2v_obj w2v_call_ok).
  vm_compute in Hall. discriminate Hall.
Qed.

(** A completed call of the train wrapper: the body completed with the same
    result, and the flag was set last. *)
Lemma as_train_func_completed {A} (func : method A)
    (args : list pyval) (kwargs : gmap string pyval) (w w' : world) (r : A) :
  _as_train_func func args kwargs w = (Ok r, w') ->
  dict w' !! "is_trained" = Some (VBool true)
  /\ exists w0 w1, func args kwargs w0 = (Ok r, w1) /\ w' = trained w1.
Proof.
  run_monad.
  destruct (dict w !! "is_trained") as [t|]; [|discriminate]; simpl.
  destruct (truthy t); simpl.
  - destruct (dict w !! "logger") as [[]|]; simpl; try discriminate.
    match goal with |- context [func args kwargs ?w0] =>
      destruct (func args kwargs w0) as [[r1|e1] w1] eqn:Hf end;
      [|discriminate].
    intros [= <- <-]. split; [apply lookup_insert_eq|]. eauto.
  - destruct (func args kwargs w) as [[r1|e1] w1] eqn:Hf; [|discriminate].
    intros [= <- <-]. split; [apply lookup_insert_eq|]. eauto.
Qed.

(** A further call of the train wrapper on a component that a completed
    call left behind. *)
Lemma train_again {A} (func : method A)
    (a1 a2 : list pyval) (k1 k2 : gmap string pyval)
    (w w1 w2 : world) (r1 r2 : A) (n : string) (v : pyval) :
  _as_train_func func a1 k1 w = (Ok r1, w1) ->
  dict w1 !! "logger" = Some (VLogger n v) ->
  func a2 k2 (warned w1 n) = (Ok r2, w2) ->
  dict w1 !! "is_trained" = Some (VBool true)
  /\ _as_train_func func a2 k2 w1 = (Ok r2, trained w2)
  /\ dict (trained w2) !! "is_trained" = Some (VBool true)
  /\ last (emitted (warned w1 n))
     = Some (LogRecord WARNING n (train_warning (class_name w1))).
Proof.
  intros H1 Hlog H2.
  assert (Ht : dict w1 !! "is_trained" = Some (VBool true)).
  { now destruct (as_train_func_completed func a1 k1 w w1 r1 H1). }
  split; [exact Ht|]. split; [|split].
  - run_monad. rewrite Ht; simpl. rewrite Hlog; simpl.
    unfold warned in H2. now rewrite H2.
  - apply lookup_insert_eq.
  - unfold warned; simpl. apply last_snoc.
Qed.

(** [train] of the base class (its body is [pass]) on a newly constructed
    component, twice. *)
Lemma base_train_twice (args a1 a2 : list pyval)
    (kwargs k1 k2 : gmap string pyval) (w : world) :
  __call__ TrainableBase args kwargs = Ok w ->
  exists w1 w2,
    _as_train_func train a1 k1 w = (Ok VNone, w1)
    /\ emitted w1 = []
    /\ _as_train_func train a2 k2 w1 = (Ok VNone, w2)
    /\ dict w2 !! "is_trained" = Some (VBool true)
    /\ emitted w2 = [LogRecord WARNING "TrainableBase"
                       (train_warning "TrainableBase")].
Proof.
  intros Hcall.
  destruct (base_call_ok args kwargs) as (w0 & Hw0 & Ht & Hlog & _ & Hcls & Hem).
  assert (w0 = w) by congruence. subst w0.
  exists (trained w), (trained (warned (trained w) "TrainableBase")).
  assert (H1 : _as_train_func train a1 k1 w = (Ok VNone, trained w)).
  { run_monad. now rewrite Ht. }
  split; [exact H1|]. split; [exact Hem|].
  destruct (train_again train a1 a2 k1 k2 w (trained w)
              (warned (trained w) "TrainableBase") VNone VNone
              "TrainableBase" (default (VBool false) (kwargs !! "verbose")) H1)
    as (_ & H2 & H3 & _).
  - simpl. now rewrite lookup_insert_ne.
  - reflexivity.
  - split; [exact H2|]. split; [exact H3|].
    simpl. now rewrite Hem, Hcls.
Qed.

(** C8: after a call to [train] has completed, the component is trained; a
    second call then emits the warning record and runs the body again, and
    when the body completes the call completes with the body's result and
    leaves the component trained.  For [train] as the base class defines it,
    both of two successive calls on a newly constructed component complete,
    and the second one emits the warning. *)
Theorem train_twice {A} (func : method A)
    (a1 a2 : list pyval) (k1 k2 : gmap string pyval) :
  (forall (w w1 w2 : world) (r1 r2 : A) (n : string) (v : pyval),
     _as_train_func func a1 k1 w = (Ok r1, w1) ->
     dict w1 !! "logger" = Some (VLogger n v) ->
     func a2 k2 (warned w1 n) = (Ok r2, w2) ->
     dict w1 !! "is_trained" = Some (VBool true)
     /\ _as_train_func func a2 k2 w1 = (Ok r2, trained w2)
     /\ dict (trained w2) !! "is_trained" = Some (VBool true)
     /\ last (emitted (warned w1 n))
        = Some (LogRecord WARNING n (train_warning (class_name w1))))
  /\ (forall args kwargs w,
        __call__ TrainableBase args kwargs = Ok w ->
        exists w1 w2,
          _as_train_func train a1 k1 w = (Ok VNone, w1)
          /\ emitted w1 = []
          /\ _as_train_func train a2 k2 w1 = (Ok VNone, w2)
          /\ dict w2 !! "is_trained" = Some (VBool true)
          /\ emitted w2 = [LogRecord WARNING "TrainableBase"
                             (train_warning "TrainableBase")]).
Proof.
  split.
  - intros w w1 w2 r1 r2 n v. apply train_again.
  - intros args kwargs w. apply base_train_twice.
Qed.

(** The base class's own [train], called again on a component it has
    trained. *)
Lemma train_twice_witness :
  dict (trained base_obj) !! "is_trained" = Some (VBool true)
  /\ _as_train_func train [] ∅ (trained base_obj)
     = (Ok VNone, trained (warned (trained base_obj) "TrainableBase"))
  /\ dict (trained (warned (trained base_obj) "TrainableBase")) !! "is_trained"
     = Some (VBool true)
  /\ last (emitted (warned (trained base_obj) "TrainableBase"))
     = Some (LogRecord WARNING "TrainableBase"
               (train_warning (class_name (trained base_obj)))).
Proof.
  apply (proj1 (train_twice train [] [] ∅ ∅) base_obj (trained base_obj)
           (warned (trained base_obj) "TrainableBase")
           VNone VNone "TrainableBase" (VBool false));
    reflexivity.
Defined.

(** ** Capture of the constructor arguments *)

Lemma set_args_lookup_notin (names : list string) (args : list pyval)
    (tmp : gmap string pyval) (k : string) :
  k ∉ names -> set_args names args tmp !! k = tmp !! k.
Proof.
  unfold set_args. revert args tmp.
  induction names as [|n names IH]; intros args tmp Hk; [reflexivity|].
  destruct args as [|a args]; [reflexivity|]. simpl.
  rewrite IH by (intros Hin; apply Hk; now right).
  apply lookup_insert_ne. intros ->. apply Hk. now left.
Qed.

Lemma set_kwargs_lookup (kwargs tmp : gmap string pyval) (k : string) :
  set_kwargs kwargs tmp !! k
  = match tmp !! k with
    | Some v => Some (default v (kwargs !! k))
    | None => None
    end.
Proof.
  unfold set_kwargs. rewrite map_lookup_imap. now destruct (tmp !! k).
Qed.

(** Without [store_args_kwargs], a name that is not a declared parameter is
    not a key of the captured dictionary. *)
Lemma captured_undeclared (sig : signature) (args : list pyval)
    (kwargs : gmap string pyval) (k : string) :
  k ∉ (declared sig).*1 -> captured false sig args kwargs !! k = None.
Proof.
  intros Hk. unfold captured. rewrite set_kwargs_lookup.
  rewrite set_args_lookup_notin by exact Hk.
  now rewrite (not_elem_of_list_to_map_1 _ _ Hk).
Qed.

(** Called with exactly its declared parameters as keyword arguments, the
    wrapper captures those keyword arguments. *)
Lemma captured_same (sig : signature) (D : gmap string pyval) :
  (forall k, is_Some (D !! k) <-> k ∈ (declared sig).*1) ->
  captured false sig [] D = D.
Proof.
  intros Hdom. apply map_eq. intros k. unfold captured.
  rewrite set_kwargs_lookup. unfold set_args.
  replace (zip (declared sig).*1 []) with (@nil (string * pyval))
    by (now destruct ((declared sig).*1)).
  simpl.
  destruct (list_to_map (declared sig) !! k) as [v|] eqn:Hl.
  - assert (Hin : k ∈ (declared sig).*1).
    { destruct (decide (k ∈ (declared sig).*1)) as [|Hn]; [assumption|].
      rewrite (not_elem_of_list_to_map_1 _ _ Hn) in Hl. discriminate. }
    apply Hdom in Hin. destruct Hin as [x Hx]. now rewrite Hx.
  - apply not_elem_of_list_to_map in Hl.
    destruct (D !! k) eqn:HD; [|reflexivity].
    exfalso. apply Hl, Hdom. eauto.
Qed.

Lemma set_default_property_config (w : world) :
  dict (set_default_property w).2 !! "_init_kwargs_dict"
  = dict w !! "_init_kwargs_dict".
Proof.
  unfold set_default_property, default_property. simpl.
  repeat match goal with
         | |- context [match ?d !! ?k with _ => _ end] => destruct (d !! k)
         end;
    rewrite ?lookup_insert_ne by discriminate; reflexivity.
Qed.

Lemma set_default_property_has (w : world) (k : string) (v : pyval) :
  (k, v) ∈ default_property ->
  is_Some (dict (set_default_property w).2 !! k).
Proof.
  unfold set_default_property, default_property. simpl.
  intros Hin.
  assert (Hk : k = "is_trained" \/ k = "batch_size").
  { apply elem_of_cons in Hin as [[= -> _]|Hin]; [now left|].
    apply elem_of_cons in Hin as [[= -> _]|Hin]; [now right|].
    now apply elem_of_nil in Hin. }
  destruct (dict w !! "is_trained") eqn:E1;
    match goal with
    | |- context [match ?d !! "batch_size" with _ => _ end] =>
        destruct (d !! "batch_size") eqn:E2
    end;
    destruct Hk as [-> | ->]; simplify_map_eq; eauto.
Qed.

(** What [__call__] does, step by step. *)
Lemma call_inv (cls : pyclass) (args : list pyval) (kwargs : gmap string pyval)
    (obj : world) :
  __call__ cls args kwargs = Ok obj ->
  exists w',
    init_body cls args kwargs
      (with_dict (fresh cls)
         {[ "_init_kwargs_dict" :=
              VDict (captured (cls_store_args_kwargs cls) (all_pars cls) args kwargs) ]})
    = (Ok tt, w')
    /\ obj = (set_default_property w').2.
Proof.
  unfold __call__, wrapped_init, _store_init_kwargs, bind, ret, setattr. simpl.
  rewrite lookup_empty. simpl. rewrite insert_empty.
  match goal with |- context [init_body cls args kwargs ?w0] =>
    destruct (init_body cls args kwargs w0) as [[[]|e] w'] eqn:Hb end;
    [|discriminate].
  intros [= <-]. eauto.
Qed.

Lemma call_config (cls : pyclass) (args : list pyval) (kwargs : gmap string pyval)
    (obj : world) :
  cls_store_args_kwargs cls = false ->
  keeps_config (init_body cls) ->
  __call__ cls args kwargs = Ok obj ->
  config obj = Some (VDict (captured false (all_pars cls) args kwargs))
  /\ forall kv, kv ∈ default_property -> is_Some (dict obj !! kv.1).
Proof.
  intros Hst Hkeep Hcall. apply call_inv in Hcall as (w' & Hb & ->).
  rewrite Hst in Hb. split.
  - unfold config. rewrite set_default_property_config.
    eapply Hkeep; [| |exact Hb]; [exact Hst|]. apply lookup_insert_eq.
  - intros [k v] Hin. now apply (set_default_property_has w' k v).
Qed.

Lemma set_default_property_keeps (w : world) (k : string) (x : pyval) :
  dict w !! k = Some x -> dict (set_default_property w).2 !! k = Some x.
Proof.
  intros Hk. unfold set_default_property, default_property. simpl.
  destruct (dict w !! "is_trained") eqn:E1;
    match goal with
    | |- context [match ?d !! "batch_size" with _ => _ end] =>
        destruct (d !! "batch_size") eqn:E2
    end;
    destruct (decide (k = "is_trained")); destruct (decide (k = "batch_size"));
    simplify_map_eq; done.
Qed.

(** Whatever arguments it accepts, the constructor of [Word2VecEncoder]
    returns a component whose trained flag is true. *)
Lemma w2v_call_trained (args : list pyval) (kwargs : gmap string pyval)
    (w : world) :
  __call__ Word2VecEncoder args kwargs = Ok w ->
  dict w !! "is_trained" = Some (VBool true).
Proof.
  intros Hcall. apply call_inv in Hcall as (w' & Hb & ->).
  apply set_default_property_keeps.
  simpl in Hb. unfold Word2VecEncoder_init in Hb.
  destruct (bind_args _ args kwargs) as [[[b rest] rest_kw]|e]; [|discriminate].
  unfold bind at 1 in Hb.
  destruct (super_init rest rest_kw _) as [[[]|e] w0]; [|discriminate].
  unfold bind, setattr in Hb; simpl in Hb. injection Hb as <-. simpl.
  now rewrite lookup_insert_ne, lookup_insert_eq.
Qed.

(** C7 (amended): the base constructor always returns a component whose
    trained flag is false, the constructor of [Word2VecEncoder] one whose
    flag is true; whenever a call to [train] completes, the flag is true
    afterwards and the rest of the component is as the body of [train] left
    it; when the body of [train] raises, the call raises the same exception
    and the wrapper does not touch the flag. *)
Theorem trained_flag_lifecycle {A} (func : method A)
    (args : list pyval) (kwargs : gmap string pyval) :
  (exists w, __call__ TrainableBase args kwargs = Ok w
             /\ dict w !! "is_trained" = Some (VBool false))
  /\ (forall w, __call__ Word2VecEncoder args kwargs = Ok w ->
        dict w !! "is_trained" = Some (VBool true))
  /\ (forall w r w',
        _as_train_func func args kwargs w = (Ok r, w') ->
        dict w' !! "is_trained" = Some (VBool true)
        /\ exists w0 w1, func args kwargs w0 = (Ok r, w1) /\ w' = trained w1)
  /\ (forall w t e w',
        dict w !! "is_trained" = Some t -> truthy t = false ->
        func args kwargs w = (Raise e, w') ->
        _as_train_func func args kwargs w = (Raise e, w'))
  /\ (forall w t n v e w',
        dict w !! "is_trained" = Some t -> truthy t = true ->
        dict w !! "logger" = Some (VLogger n v) ->
        func args kwargs (warned w n) = (Raise e, w') ->
        _as_train_func func args kwargs w = (Raise e, w')).
Proof.
  split; [|split; [|split; [|split]]].
  - destruct (base_call_ok args kwargs) as (w & Hw & Ht & _). eauto.
  - intros w. apply w2v_call_trained.
  - intros w r w'. apply as_train_func_completed.
  - intros w t e w' Ht Hf Hr. run_monad. rewrite Ht; simpl. rewrite Hf; simpl.
    now rewrite Hr.
  - intros w t n v e w' Ht Hf Hlog Hr. run_monad. rewrite Ht; simpl.
    rewrite Hf; simpl. rewrite Hlog; simpl.
    unfold warned in Hr. now rewrite Hr.
Qed.

Lemma trained_flag_lifecycle_witness :
  _as_train_func (A:=pyval) (fun _ _ => throw (ValueError "no data")) [] ∅ base_obj
  = (Raise (ValueError "no data"), base_obj).
Proof.
  apply (proj1 (proj2 (proj2 (proj2 (trained_flag_lifecycle
                         (fun _ _ => throw (A:=pyval) (ValueError "no data")) [] ∅))))
           base_obj (VBool false)); reflexivity.
Defined.

(** ** Structured dump and load *)

(** The non-default properties are the whitelisted attributes whose value
    differs from the declared default. *)
Lemma non_default_lookup (d : gmap string pyval) (props : list (string * pyval))
    (p : gmap string pyval) (k : string) (x : pyval) :
  non_default d props = Ok p ->
  p !! k = Some x
  <-> d !! k = Some x /\ exists v, (k, v) ∈ props /\ py_ne x v = true.
Proof.
  revert p. induction props as [|[k0 v0] props IH]; intros p; simpl.
  - intros [= <-]. rewrite lookup_empty. split; [discriminate|].
    intros (_ & v & Hin & _). now apply elem_of_nil in Hin.
  - destruct (d !! k0) as [x0|] eqn:Hk0; [|discriminate].
    destruct (non_default d props) as [p'|] eqn:Hp'; [|discriminate]. simpl.
    specialize (IH p' eq_refl). intros [= <-].
    destruct (py_ne x0 v0) eqn:Hne.
    + destruct (decide (k0 = k)) as [->|Hkk].
      * rewrite lookup_insert_eq. split.
        -- intros [= ->]. split; [assumption|]. exists v0. split; [left|assumption].
        -- intros (Hd & _). congruence.
      * rewrite lookup_insert_ne by assumption. rewrite IH. split.
        -- intros (Hd & v & Hin & Hv). split; [assumption|].
           exists v. split; [now right|assumption].
        -- intros (Hd & v & Hin & Hv). split; [assumption|].
           exists v. split; [|assumption].
           apply elem_of_cons in Hin as [[= ]|Hin]; [congruence|assumption].
    + rewrite IH. split.
      * intros (Hd & v & Hin & Hv). split; [assumption|].
        exists v. split; [now right|assumption].
      * intros (Hd & v & Hin & Hv). split; [assumption|].
        apply elem_of_cons in Hin as [[= -> ->]|Hin].
        -- congruence.
        -- eauto.
Qed.

Lemma non_default_ok (d : gmap string pyval) (props : list (string * pyval)) :
  (forall kv, kv ∈ props -> is_Some (d !! kv.1)) ->
  exists p, non_default d props = Ok p.
Proof.
  induction props as [|[k0 v0] props IH]; intros Hall; simpl; [eauto|].
  destruct (Hall (k0, v0)) as [x0 Hx0]; [left|]. simpl in Hx0. rewrite Hx0.
  destruct IH as [p' Hp']; [intros kv Hkv; apply Hall; now right|].
  rewrite Hp'. simpl. eauto.
Qed.

Lemma non_default_config (d p : gmap string pyval) :
  non_default d default_property = Ok p -> p !! "_init_kwargs_dict" = None.
Proof.
  intros Hp. destruct (p !! "_init_kwargs_dict") as [x|] eqn:Hx; [|reflexivity].
  apply (non_default_lookup _ _ _ _ _ Hp) in Hx as (_ & v & Hin & _).
  unfold default_property in Hin.
  apply elem_of_cons in Hin as [[=]|Hin].
  apply elem_of_cons in Hin as [[=]|Hin]. now apply elem_of_nil in Hin.
Qed.

(** The dumped mapping read back by [data.get]. *)
Lemma dump_get (c : world) (D p : gmap string pyval) :
  config c = Some (VDict D) ->
  overrides c = Ok p ->
  exists doc, dump_structured c = Ok doc
              /\ get_mapping "parameter" doc = Ok D
              /\ get_mapping "property" doc = Ok p
              /\ forall P, doc !! "parameter" = Some (VDict P) -> P = D.
Proof.
  unfold config, overrides, dump_structured, _dump_instance_to_yaml.
  intros HD Hp. rewrite Hp. simpl. rewrite HD. eexists. split; [reflexivity|].
  unfold get_mapping, truthy.
  destruct (bool_decide (D = ∅)) eqn:ED; destruct (bool_decide (p = ∅)) eqn:Ep;
    simpl; simplify_map_eq;
    try (apply bool_decide_eq_true in ED); try (apply bool_decide_eq_true in Ep);
    subst; repeat split; try reflexivity; intros P HP; simplify_map_eq;
    congruence.
Qed.

(** One dump followed by one load, without [store_args_kwargs]: construct
    from the stored configuration, then assign the stored properties. *)
Lemma roundtrip_unfold (cls : pyclass) (c : world) (D p : gmap string pyval) :
  cls_store_args_kwargs cls = false ->
  config c = Some (VDict D) ->
  overrides c = Ok p ->
  roundtrip cls c
  = let? obj := __call__ cls [] D in Ok (with_dict obj (p ∪ dict obj)).
Proof.
  intros Hst HD Hp. destruct (dump_get c D p HD Hp) as (doc & Hdoc & Hpar & Hprop & _).
  unfold roundtrip. rewrite Hdoc. simpl.
  unfold load_structured, _get_instance_from_yaml. rewrite Hpar, Hst. simpl.
  destruct (__call__ cls [] D); simpl; [|reflexivity]. now rewrite Hprop.
Qed.

(** Assigning the non-default properties of a component over a given
    object twice is the same as doing it once. *)
Lemma overrides_idempotent (dc O p p1 : gmap string pyval) :
  non_default dc default_property = Ok p ->
  non_default (p ∪ O) default_property = Ok p1 ->
  p1 ∪ O = p ∪ O.
Proof.
  intros Hp Hp1. apply map_eq. intros k.
  destruct (p1 !! k) as [z|] eqn:Hz.
  - rewrite (lookup_union_Some_l _ _ _ _ Hz).
    apply (non_default_lookup _ _ _ _ _ Hp1) in Hz as (Hz & _). now rewrite Hz.
  - rewrite (lookup_union_r p1 O k Hz).
    destruct (p !! k) as [x|] eqn:Hx; [|now rewrite lookup_union_r].
    exfalso.
    pose proof Hx as Hx'.
    apply (non_default_lookup _ _ _ _ _ Hp) in Hx' as (_ & v & Hin & Hne).
    assert (Hin1 : p1 !! k = Some x).
    { apply (non_default_lookup _ _ _ _ _ Hp1). split; [|eauto].
      now apply lookup_union_Some_l. }
    congruence.
Qed.

(** The wrapped constructor of [TrainableBase], run as [super().__init__],
    leaves a captured configuration in place. *)
Lemma super_init_keeps_config : keeps_config super_init.
Proof.
  intros args kwargs w w' D Hst HD.
  unfold super_init, wrapped_init, _store_init_kwargs; simpl.
  unfold bind at 1. unfold ret at 1. rewrite Hst.
  assert (Hcap : captured false TrainableBase_sig args kwargs = ∅).
  { apply map_eq. intros k. rewrite lookup_empty.
    apply captured_undeclared. vm_compute. apply not_elem_of_nil. }
  rewrite Hcap. unfold bind at 1. unfold ret at 1. rewrite HD. simpl.
  rewrite (left_id_L ∅ (∪) D).
  assert (Hsame : (if negb (bool_decide (D = ∅))
                   then setattr "_init_kwargs_dict" (VDict D)
                   else setattr "_init_kwargs_dict" (VDict ∅))
                  = setattr "_init_kwargs_dict" (VDict D)).
  { destruct (bool_decide (D = ∅)) eqn:E; [|reflexivity].
    apply bool_decide_eq_true in E. now subst. }
  rewrite Hsame.
  unfold TrainableBase_init, bind, setattr, getattr; simpl.
  rewrite lookup_insert_eq. simpl.
  intros [= <-]. simpl. split; [assumption|].
  rewrite !lookup_insert_ne by discriminate. apply lookup_insert_eq.
Qed.


Lemma Word2VecEncoder_keeps_config : keeps_config (init_body Word2VecEncoder).
Proof.
  intros args kwargs w w' D Hst HD. simpl. unfold Word2VecEncoder_init.
  destruct (bind_args _ args kwargs) as [[[b rest] rest_kw]|e]; [|discriminate].
  unfold bind at 1.
  destruct (super_init rest rest_kw w) as [[[]|e] w0] eqn:Hsup; [|discriminate].
  destruct (super_init_keeps_config _ _ _ _ _ Hst HD Hsup) as [Hst0 HD0].
  unfold bind, setattr; simpl. intros [= <-]. simpl. split; [assumption|].
  now rewrite !lookup_insert_ne by discriminate.
Qed.

(** ** C1: the structured round trip *)

(** C1, as stated, fails: a [Word2VecEncoder] whose trained flag has been
    reset to its default is dumped without that property, and the constructor
    run by the load sets the flag again; the non-default properties after
    two round trips differ from the original ones. *)
Lemma structured_roundtrip_counterexample :
  ~ (forall cls c c1 c2,
       roundtrip cls c = Ok c1 -> roundtrip cls c1 = Ok c2 ->
       config c2 = config c /\ overrides c2 = overrides c).
Proof.
  intros Hall.
  destruct (Hall Word2VecEncoder untrained_w2v
              (force (roundtrip Word2VecEncoder untrained_w2v))
              (force (roundtrip Word2VecEncoder
                        (force (roundtrip Word2VecEncoder untrained_w2v)))))
    as [_ Hov].
  - vm_compute. reflexivity.
  - vm_compute. reflexivity.
  - apply (f_equal (fun r => match r with
                             | Ok p => p !! "is_trained"
                             | Raise _ => None
                             end)) in Hov.
    vm_compute in Hov. discriminate Hov.
Qed.

(** C1 (amended): for a class without [store_args_kwargs] whose constructor
    body leaves the captured configuration in place, and a component whose
    configuration holds exactly the declared parameters, if the constructor
    accepts that configuration then both round trips succeed; the result has
    the configuration of the original; every whitelist property that is not
    at its default on the original has the same value on the result, and one
    that is at its default has the value the constructor gives it; the
    second round trip returns the component the first one returned. *)
Theorem structured_roundtrip_twice (cls : pyclass) (c obj : world)
    (D : gmap string pyval) :
  cls_store_args_kwargs cls = false ->
  keeps_config (init_body cls) ->
  config c = Some (VDict D) ->
  (forall k, is_Some (D !! k) <-> k ∈ (declared (all_pars cls)).*1) ->
  (forall kv, kv ∈ default_property -> is_Some (dict c !! kv.1)) ->
  __call__ cls [] D = Ok obj ->
  exists c1 c2,
    roundtrip cls c = Ok c1 /\ roundtrip cls c1 = Ok c2
    /\ config c2 = config c
    /\ (forall k v x, (k, v) ∈ default_property -> dict c !! k = Some x ->
          dict c2 !! k = if py_ne x v then Some x else dict obj !! k)
    /\ c2 = c1.
Proof.
  intros Hst Hkeep HD Hdom Hprops Hcall.
  destruct (non_default_ok (dict c) default_property Hprops) as [p Hp].
  destruct (call_config cls [] D obj Hst Hkeep Hcall) as [Hcfg Hhas].
  rewrite (captured_same _ _ Hdom) in Hcfg.
  set (c1 := with_dict obj (p ∪ dict obj)).
  assert (Hc1 : roundtrip cls c = Ok c1).
  { rewrite (roundtrip_unfold cls c D p Hst HD Hp), Hcall. reflexivity. }
  assert (Hcfg1 : config c1 = Some (VDict D)).
  { unfold config, c1; simpl.
    rewrite lookup_union_r by (eapply non_default_config; exact Hp).
    exact Hcfg. }
  assert (Hprops1 : forall kv, kv ∈ default_property -> is_Some (dict c1 !! kv.1)).
  { intros kv Hkv. unfold c1; simpl.
    destruct (Hhas kv Hkv) as [y Hy].
    destruct (p !! kv.1) as [x|] eqn:Hx.
    - exists x. now apply lookup_union_Some_l.
    - exists y. now rewrite lookup_union_r. }
  destruct (non_default_ok (dict c1) default_property Hprops1) as [p1 Hp1].
  assert (Hsame : p1 ∪ dict obj = p ∪ dict obj)
    by (eapply overrides_idempotent; [exact Hp|exact Hp1]).
  assert (Hc2 : roundtrip cls c1 = Ok c1).
  { rewrite (roundtrip_unfold cls c1 D p1 Hst Hcfg1 Hp1), Hcall. simpl.
    unfold c1. now rewrite Hsame. }
  exists c1, c1. split; [exact Hc1|]. split; [exact Hc2|].
  split; [now rewrite Hcfg1, HD|]. split; [|reflexivity].
  intros k v x Hin Hx. unfold c1; simpl.
  destruct (py_ne x v) eqn:Hne.
  - apply lookup_union_Some_l.
    apply (non_default_lookup _ _ _ _ _ Hp). split; [assumption|]. eauto.
  - apply lookup_union_r.
    destruct (p !! k) as [x'|] eqn:Hx'; [|reflexivity]. exfalso.
    apply (non_default_lookup _ _ _ _ _ Hp) in Hx' as (Hd & v' & Hin' & Hne').
    assert (x' = x) by congruence. subst x'.
    assert (v' = v); [|congruence].
    unfold default_property in Hin, Hin'.
    repeat match goal with
           | H : _ ∈ _ :: _ |- _ => apply elem_of_cons in H as [H|H]
           | H : _ ∈ [] |- _ => now apply elem_of_nil in H
           end; congruence.
Qed.

Lemma w2v_config_declared (k : string) :
  is_Some (w2v_config !! k) <-> k ∈ (declared (all_pars Word2VecEncoder)).*1.
Proof.
  rewrite <- elem_of_dom.
  replace (dom w2v_config)
    with (list_to_set (C:=gset string) (declared (all_pars Word2VecEncoder)).*1)
    by (vm_compute; reflexivity).
  now rewrite elem_of_list_to_set.
Qed.

Lemma structured_roundtrip_twice_witness :
  exists c1 c2,
    roundtrip Word2VecEncoder untrained_w2v = Ok c1
    /\ roundtrip Word2VecEncoder c1 = Ok c2
    /\ config c2 = config untrained_w2v
    /\ (forall k v x, (k, v) ∈ default_property ->
          dict untrained_w2v !! k = Some x ->
          dict c2 !! k = if py_ne x v then Some x else dict w2v_obj !! k)
    /\ c2 = c1.
Proof.
  apply (structured_roundtrip_twice Word2VecEncoder untrained_w2v w2v_obj
           w2v_config).
  - reflexivity.
  - exact Word2VecEncoder_keeps_config.
  - vm_compute. reflexivity.
  - exact w2v_config_declared.
  - intros kv Hkv. unfold default_property in Hkv.
    apply elem_of_cons in Hkv as [->|Hkv]; [vm_compute; eauto|].
    apply elem_of_cons in Hkv as [->|Hkv]; [vm_compute; eauto|].
    now apply elem_of_nil in Hkv.
  - vm_compute. reflexivity.
Defined.

(** With [store_args_kwargs] enabled the load passes a declared parameter
    both positionally (from the stored [args]) and by keyword (from the
    stored configuration), and the constructor refuses the call. *)
Example stored_roundtrip_raises :
  is_ok (__call__ Stored [VInt 1] ∅) = true
  /\ roundtrip Stored (force (__call__ Stored [VInt 1] ∅))
     = Raise (TypeError "got multiple values for argument").
Proof. split; vm_compute; reflexivity. Qed.

(** ** C10: keyword arguments that are not declared parameters *)


(** The keyword argument that [Sub] does not declare is in the structured
    dump of the component, and the round trip returns the very component,
    [lang] included. *)
Example undeclared_kwarg_survives :
  dump_structured sub_obj
  = Ok {[ "parameter" := VDict (<["lang" := VStr "zh"]> {[ "y" := VInt 1 ]}) ]}
  /\ roundtrip Sub sub_obj = Ok sub_obj
  /\ dict sub_obj !! "lang" = Some (VStr "zh").
Proof. repeat split; vm_compute; reflexivity. Qed.

(** The constructor body of [Sub] does not leave the configuration as its
    own wrapper set it. *)
Example Sub_changes_config : ~ keeps_config (init_body Sub).
Proof.
  intros Hkeep.
  set (w := with_dict (fresh Sub)
              {[ "_init_kwargs_dict" := VDict {[ "y" := VInt 1 ]} ]}).
  destruct (Hkeep [] sub_kwargs w (init_body Sub [] sub_kwargs w).2
              {[ "y" := VInt 1 ]}) as [_ Hcfg].
  - reflexivity.
  - vm_compute. reflexivity.
  - vm_compute. reflexivity.
  - vm_compute in Hcfg. discriminate Hcfg.
Qed.



(** The keyword argument did reach the constructor, and its effect is gone
    after one structured round trip. *)
Example verbose_lost :
  dict verbose_obj !! "verbose" = Some (VBool true)
  /\ dict (force (roundtrip TrainableBase verbose_obj)) !! "verbose"
     = Some (VBool false).
Proof. split; vm_compute; reflexivity. Qed.

(** ** C9: the pickled state *)

Lemma del_ok (k : string) (d : gmap string pyval) :
  is_Some (d !! k) -> del k d = Ok (delete k d).
Proof. intros [x Hx]. unfold del. now rewrite Hx. Qed.

Lemma base_getstate_ok (w : world) :
  is_Some (dict w !! "logger") -> is_Some (dict w !! "memcached") ->
  Base.__getstate__ w = Ok (delete "memcached" (delete "logger" (dict w))).
Proof.
  intros Hl Hm. unfold Base.__getstate__. rewrite (del_ok _ _ Hl).
  apply del_ok. now rewrite lookup_delete_ne.
Qed.

Lemma lookup_delete_list (ks : list string) (d : gmap string pyval) (k : string) :
  foldr delete d ks !! k = if bool_decide (k ∈ ks) then None else d !! k.
Proof.
  induction ks as [|k0 ks IH].
  - case_bool_decide as Hin; [now apply elem_of_nil in Hin|reflexivity].
  - cbn [foldr]. destruct (decide (k0 = k)) as [->|Hne].
    + rewrite lookup_delete_eq. clear IH.
      case_bool_decide as Hin; [reflexivity|]. exfalso. apply Hin. now left.
    + rewrite lookup_delete_ne by assumption. rewrite IH. clear IH.
      repeat case_bool_decide; try reflexivity.
      * exfalso. match goal with H : k ∉ _ :: _ |- _ => apply H end. now right.
      * exfalso.
        match goal with H : k ∈ _ :: _ |- _ =>
          apply elem_of_cons in H as [->|H] end; tauto.
Qed.

(** C9: the state pickled for a component is its [__dict__] without the two
    runtime handles [logger] and [memcached] (for the encoder, also without
    [word2vec_df] and [empty]); every other attribute is in it unchanged.
    Loading that state into a newly allocated instance restores those
    attributes and creates the two handles by the calls the constructor makes:
    [set_logger] on the class name and the [verbose] attribute, and
    [MemoryCache] on [.nes_cache]. *)
Theorem pickled_state (w : world) (v : pyval) :
  is_Some (dict w !! "logger") ->
  is_Some (dict w !! "memcached") ->
  dict w !! "verbose" = Some v ->
  exists d,
    Base.__getstate__ w = Ok d
    /\ (forall k, d !! k = if bool_decide (k ∈ handles) then None else dict w !! k)
    /\ (is_Some (dict w !! "word2vec_df") -> is_Some (dict w !! "empty") ->
        exists d', W2V.__getstate__ w = Ok d'
          /\ forall k, d' !! k = if bool_decide (k ∈ encoder_excluded) then None
                                 else dict w !! k)
    /\ (exists w', __setstate__ d (blank w) = (Ok tt, w')
          /\ dict w' !! "logger" = Some (set_logger (class_name w) v)
          /\ dict w' !! "memcached" = Some (MemoryCache ".nes_cache")
          /\ forall k, k ∉ handles -> dict w' !! k = dict w !! k)
    /\ (forall args kwargs w0,
          exists w1 v0, TrainableBase_init args kwargs w0 = (Ok tt, w1)
            /\ dict w1 !! "verbose" = Some v0
            /\ dict w1 !! "logger" = Some (set_logger (class_name w0) v0)
            /\ dict w1 !! "memcached" = Some (MemoryCache ".nes_cache")).
Proof.
  intros Hl Hm Hv.
  exists (delete "memcached" (delete "logger" (dict w))).
  split; [now apply base_getstate_ok|].
  split.
  { intros k.
    rewrite (bool_decide_ext (k ∈ handles) (k ∈ ["memcached"; "logger"]))
      by (unfold handles; rewrite !elem_of_cons, !elem_of_nil; tauto).
    apply (lookup_delete_list ["memcached"; "logger"] (dict w) k). }
  split; [|split].
  - intros Hdf He. unfold W2V.__getstate__.
    rewrite (base_getstate_ok w Hl Hm). simpl.
    rewrite del_ok by (now rewrite !lookup_delete_ne). simpl.
    rewrite del_ok by (now rewrite !lookup_delete_ne).
    eexists. split; [reflexivity|]. intros k.
    rewrite (bool_decide_ext (k ∈ encoder_excluded)
               (k ∈ ["empty"; "word2vec_df"; "memcached"; "logger"]))
      by (unfold encoder_excluded; rewrite !elem_of_cons, !elem_of_nil; tauto).
    apply (lookup_delete_list ["empty"; "word2vec_df"; "memcached"; "logger"]
             (dict w) k).
  - unfold __setstate__, blank, bind, getattr, setattr; simpl.
    rewrite (right_id_L ∅ (∪)).
    rewrite !lookup_delete_ne by discriminate. rewrite Hv. simpl.
    eexists. split; [reflexivity|]. simpl.
    split; [now rewrite lookup_insert_ne, lookup_insert_eq|].
    split; [apply lookup_insert_eq|].
    intros k Hk.
    assert (Hne : "logger" <> k /\ "memcached" <> k).
    { split; intros <-; apply Hk; unfold handles;
        rewrite !elem_of_cons; tauto. }
    destruct Hne as [Hne1 Hne2].
    now rewrite !lookup_insert_ne, !lookup_delete_ne by assumption.
  - intros args kwargs w0.
    unfold TrainableBase_init, bind, getattr, setattr; simpl.
    rewrite lookup_insert_eq. simpl. eexists. eexists.
    split; [reflexivity|]. simpl.
    split; [now rewrite !lookup_insert_ne, lookup_insert_eq by discriminate|].
    split; [now rewrite lookup_insert_ne, lookup_insert_eq|].
    apply lookup_insert_eq.
Qed.

(** ** C4: loading the vector table *)

Section LoadingProps.

Variable readlines : string -> option (list string).
Variable py_float : string -> option Q.

Lemma load_lines_build (lines : list string) (c s D : Z) (w : world)
    (T T' : gmap string pyval) :
  dict w !! "skiprows" = Some (VInt s) ->
  dict w !! "dimension" = Some (VInt D) ->
  dict w !! "word2vec_df" = Some (VDict T) ->
  build py_float D (body_rows (s - c) lines) T = Ok T' ->
  load_lines py_float lines c w = (Ok tt, set_table w T').
Proof.
  revert c w T. induction lines as [|l lines IH]; intros c w T Hs HD HT.
  - unfold body_rows. rewrite drop_nil. simpl. intros [= <-].
    unfold ret, set_table. f_equal. destruct w; unfold with_dict; simpl in *.
    f_equal. symmetry. now apply insert_id.
  - intros Hb. cbn [load_lines].
    unfold bind at 1. unfold bind at 1. unfold getattr at 1. rewrite Hs.
    unfold lift at 1. cbn [as_int].
    destruct (c <? s) eqn:Hc.
    + apply Z.ltb_lt in Hc. apply (IH (c + 1) w T Hs HD HT).
      unfold body_rows in *.
      replace (Z.to_nat (s - c)) with (S (Z.to_nat (s - (c + 1)))) in Hb by lia.
      exact Hb.
    + apply Z.ltb_ge in Hc. unfold body_rows in Hb.
      replace (Z.to_nat (s - c)) with 0%nat in Hb by lia.
      rewrite drop_0 in Hb. cbn [map build] in Hb.
      unfold bind at 1. unfold bind at 1. unfold getattr at 1. rewrite HD.
      unfold lift at 1. cbn [as_int].
      destruct (Z.of_nat (length (fields l)) >? D) eqn:Hlen.
      * destruct (floats py_float (tail (fields l))) as [a|e] eqn:Hfl;
          [|discriminate]. simpl in Hb.
        unfold bind at 1. unfold bind at 1. unfold lift at 1.
        unfold table_set, bind, getattr. rewrite HT. unfold setattr.
        set (w1 := with_dict w _).
        assert (Hrows : build py_float D (body_rows (s - c) lines)
                          (<[hd EmptyString (fields l) := VArray a]> T) = Ok T').
        { unfold body_rows. replace (Z.to_nat (s - c)) with 0%nat by lia.
          now rewrite drop_0. }
        rewrite (IH c w1 (<[hd EmptyString (fields l) := VArray a]> T));
          [| | | |exact Hrows].
        -- f_equal. unfold set_table, w1, with_dict; simpl.
           now rewrite insert_insert_eq.
        -- unfold w1; simpl. now rewrite lookup_insert_ne.
        -- unfold w1; simpl. now rewrite lookup_insert_ne.
        -- unfold w1; simpl. apply lookup_insert_eq.
      * unfold bind at 1. unfold ret at 1.
        apply (IH c w T Hs HD HT).
        unfold body_rows. replace (Z.to_nat (s - c)) with 0%nat by lia.
        now rewrite drop_0.
Qed.

Lemma floats_length (l : list string) (a : list Q) :
  floats py_float l = Ok a -> length a = length l.
Proof.
  revert a. induction l as [|i l IH]; intros a; simpl.
  - now intros [= <-].
  - destruct (py_float i); [|discriminate].
    destruct (floats py_float l) as [xs|]; [|discriminate]. simpl.
    intros [= <-]. simpl. f_equal. now apply IH.
Qed.

Lemma floats_ok (l : list string) :
  (forall f, f ∈ l -> is_Some (py_float f)) ->
  exists a, floats py_float l = Ok a.
Proof.
  induction l as [|i l IH]; intros Hall; simpl; [eauto|].
  destruct (Hall i) as [x Hx]; [left|]. rewrite Hx.
  destruct IH as [xs Hxs]; [intros f Hf; apply Hall; now right|].
  rewrite Hxs. simpl. eauto.
Qed.

Lemma retained_cons (D : Z) (row : list string) (rows : list (list string)) :
  retained D (row :: rows)
  = if Z.of_nat (length row) >? D then row :: retained D rows
    else retained D rows.
Proof.
  unfold retained. destruct (Z.of_nat (length row) >? D) eqn:E.
  - apply filter_cons_True. lia.
  - apply filter_cons_False. lia.
Qed.

Lemma build_ok (D : Z) (rows : list (list string)) (T : gmap string pyval) :
  (forall row, row ∈ retained D rows ->
     forall f, f ∈ tail row -> is_Some (py_float f)) ->
  exists T', build py_float D rows T = Ok T'.
Proof.
  revert T. induction rows as [|row rows IH]; intros T Hall; simpl; [eauto|].
  rewrite retained_cons in Hall.
  destruct (Z.of_nat (length row) >? D).
  - destruct (floats_ok (tail row)) as [a Ha];
      [apply Hall; now left|].
    rewrite Ha. simpl. apply IH. intros r Hr. apply Hall. now right.
  - now apply IH.
Qed.

Lemma build_lookup (D : Z) (rows : list (list string))
    (T T' : gmap string pyval) (tok : string) (v : pyval) :
  build py_float D rows T = Ok T' ->
  T' !! tok = Some v ->
  T !! tok = Some v
  \/ exists row a, row ∈ retained D rows /\ hd EmptyString row = tok
                   /\ floats py_float (tail row) = Ok a /\ v = VArray a.
Proof.
  revert T. induction rows as [|row rows IH]; intros T; simpl.
  - intros [= <-]. now left.
  - rewrite retained_cons. destruct (Z.of_nat (length row) >? D).
    + destruct (floats py_float (tail row)) as [a|] eqn:Ha; [|discriminate].
      simpl. intros Hb Hv. destruct (IH _ Hb Hv) as [Hin|(r & a' & Hr & H')].
      * destruct (decide (hd EmptyString row = tok)) as [<-|Hne].
        -- rewrite lookup_insert_eq in Hin. injection Hin as <-.
           right. exists row, a. split; [now left|]. auto.
        -- rewrite lookup_insert_ne in Hin by assumption. now left.
      * right. exists r, a'. split; [now right|assumption].
    + intros Hb Hv. apply (IH _ Hb Hv).
Qed.

Lemma build_dom (D : Z) (rows : list (list string)) (T T' : gmap string pyval) :
  build py_float D rows T = Ok T' ->
  dom T' = dom T ∪ list_to_set (map (hd EmptyString) (retained D rows)).
Proof.
  revert T. induction rows as [|row rows IH]; intros T; simpl.
  - intros [= <-]. change (retained D []) with (@nil (list string)). simpl.
    now rewrite (right_id_L ∅ (∪)).
  - rewrite retained_cons. destruct (Z.of_nat (length row) >? D).
    + destruct (floats py_float (tail row)) as [a|] eqn:Ha; [|discriminate].
      simpl. intros Hb. rewrite (IH _ Hb), dom_insert_L.
      rewrite (comm_L (∪) {[hd EmptyString row]} (dom T)).
      now rewrite (assoc_L (∪)).
    + apply IH.
Qed.

End LoadingProps.

(** C4, as stated, fails: with [dimension = 2], the rows [a 1 2 3] and
    [a 4 5 6] both have at least three fields, yet the table holds one entry,
    and its vector has length three. *)
Lemma load_table_counterexample :
  exists w' : world,
    _post_init sample_readlines sample_float (w2v_at "ragged.txt") = (Ok tt, w')
    /\ dict w' !! "dimension" = Some (VInt 2)
    /\ retained 2 (body_rows 1 ["2 2" ++ nl; "a 1 2 3" ++ nl; "a 4 5 6" ++ nl])
       = [["a"; "1"; "2"; "3"]; ["a"; "4"; "5"; "6"]]
    /\ table_of w' = {[ "a" := VArray [4%Q; 5%Q; 6%Q] ]}
    /\ size (table_of w') <> 2%nat
    /\ length [4%Q; 5%Q; 6%Q] <> 2%nat.
Proof.
  eexists. split; [vm_compute; reflexivity|].
  split; [vm_compute; reflexivity|].
  split; [vm_compute; reflexivity|].
  split; [vm_compute; reflexivity|].
  split; [vm_compute|simpl]; lia.
Qed.

(** C4 (amended): when the file can be read and every field after the first
    of every kept row parses as a number, [_post_init] completes; a row after
    the first [skiprows] lines is kept when it has more than [dimension]
    fields; every entry of the table is the first field of a kept row mapped
    to the numbers of that row's other fields, so its vector has at least
    [dimension] elements, and exactly [dimension] when every kept row has
    [dimension + 1] fields; the keys of the table are the first fields of the
    kept rows, so there are as many entries as kept rows when those first
    fields are pairwise different. *)
Theorem load_table (readlines : string -> option (list string))
    (py_float : string -> option Q) (w : world) (path : string)
    (lines : list string) (s D : Z) :
  dict w !! "model_dir" = Some (VStr path) ->
  readlines path = Some lines ->
  dict w !! "skiprows" = Some (VInt s) ->
  dict w !! "dimension" = Some (VInt D) ->
  0 <= D ->
  (forall row, row ∈ retained D (body_rows s lines) ->
     forall f, f ∈ tail row -> is_Some (py_float f)) ->
  exists w' T,
    _post_init readlines py_float w = (Ok tt, w')
    /\ dict w' !! "word2vec_df" = Some (VDict T)
    /\ dict w' !! "empty" = Some (VArray (repeat 0%Q (Z.to_nat D)))
    /\ (forall tok v, T !! tok = Some v ->
          exists row a, row ∈ retained D (body_rows s lines)
            /\ hd EmptyString row = tok /\ v = VArray a
            /\ floats py_float (tail row) = Ok a
            /\ length a = (length row - 1)%nat /\ D <= Z.of_nat (length a))
    /\ dom T = list_to_set (map (hd EmptyString) (retained D (body_rows s lines)))
    /\ ((forall row, row ∈ retained D (body_rows s lines) ->
           Z.of_nat (length row) = D + 1) ->
        forall tok a, T !! tok = Some (VArray a) -> Z.of_nat (length a) = D)
    /\ (NoDup (map (hd EmptyString) (retained D (body_rows s lines))) ->
        size T = length (retained D (body_rows s lines))).
Proof.
  intros Hpath Hread Hs HD HD0 Hparse.
  destruct (build_ok py_float D (body_rows s lines) ∅ Hparse) as [T HT].
  set (w1 := with_dict w (<["word2vec_df" := VDict ∅]> (dict w))).
  assert (Hload : load_lines py_float lines 0 w1 = (Ok tt, set_table w1 T)).
  { apply (load_lines_build py_float lines 0 s D w1 ∅ T); unfold w1; simpl.
    - now rewrite lookup_insert_ne.
    - now rewrite lookup_insert_ne.
    - apply lookup_insert_eq.
    - now rewrite Z.sub_0_r. }
  assert (Hentries : forall tok v, T !! tok = Some v ->
            exists row a, row ∈ retained D (body_rows s lines)
              /\ hd EmptyString row = tok /\ v = VArray a
              /\ floats py_float (tail row) = Ok a
              /\ length a = (length row - 1)%nat /\ D <= Z.of_nat (length a)).
  { intros tok v Hv.
    destruct (build_lookup py_float D _ _ _ tok v HT Hv)
      as [Hemp|(row & a & Hrow & Hhd & Hfl & ->)];
      [rewrite lookup_empty in Hemp; discriminate|].
    exists row, a. repeat split; try assumption.
    - rewrite (floats_length py_float _ _ Hfl). destruct row; simpl; lia.
    - rewrite (floats_length py_float _ _ Hfl).
      apply list_elem_of_filter in Hrow as [Hlen _].
      destruct row; simpl in *; lia. }
  assert (Hdom : dom T = list_to_set (map (hd EmptyString)
                                         (retained D (body_rows s lines)))).
  { rewrite (build_dom py_float D _ _ _ HT), dom_empty_L.
    now rewrite (left_id_L ∅ (∪)). }
  exists (with_dict (set_table w1 T)
            (<["empty" := VArray (repeat 0%Q (Z.to_nat D))]>
               (dict (set_table w1 T)))), T.
  split.
  { unfold _post_init. unfold bind at 1. unfold setattr at 1. fold w1.
    unfold bind at 1. unfold getattr at 1.
    replace (dict w1 !! "model_dir") with (Some (VStr path))
      by (unfold w1; simpl; now rewrite lookup_insert_ne).
    unfold bind at 1. rewrite Hread. unfold ret at 1.
    unfold bind at 1. rewrite Hload.
    unfold bind at 1. unfold getattr at 1.
    replace (dict (set_table w1 T) !! "dimension") with (Some (VInt D))
      by (unfold w1; simpl; now rewrite !lookup_insert_ne).
    unfold bind, lift, np_zeros, setattr.
    replace (D <? 0) with false by (symmetry; apply Z.ltb_ge; lia).
    reflexivity. }
  split; [simpl; now rewrite lookup_insert_ne, lookup_insert_eq|].
  split; [simpl; apply lookup_insert_eq|].
  split; [exact Hentries|]. split; [exact Hdom|]. split.
  - intros Hexact tok a Ha.
    destruct (Hentries tok _ Ha) as (row & a' & Hrow & _ & [= <-] & _ & Hlen & _).
    specialize (Hexact row Hrow). lia.
  - intros Hnodup. rewrite <- size_dom, Hdom.
    rewrite size_list_to_set by exact Hnodup. now rewrite length_map.
Qed.

Lemma sample_rows :
  retained 2 (body_rows 1 sample_lines) = [["a"; "1"; "0"]; ["b"; "3"; "0"]].
Proof. vm_compute. reflexivity. Qed.

Lemma load_table_witness :
  exists w' T,
    _post_init sample_readlines sample_float (w2v_at "vectors.txt") = (Ok tt, w')
    /\ dict w' !! "word2vec_df" = Some (VDict T)
    /\ dict w' !! "empty" = Some (VArray (repeat 0%Q (Z.to_nat 2)))
    /\ (forall tok v, T !! tok = Some v ->
          exists row a, row ∈ retained 2 (body_rows 1 sample_lines)
            /\ hd EmptyString row = tok /\ v = VArray a
            /\ floats sample_float (tail row) = Ok a
            /\ length a = (length row - 1)%nat /\ 2 <= Z.of_nat (length a))
    /\ dom T = list_to_set (map (hd EmptyString)
                              (retained 2 (body_rows 1 sample_lines)))
    /\ ((forall row, row ∈ retained 2 (body_rows 1 sample_lines) ->
           Z.of_nat (length row) = 2 + 1) ->
        forall tok a, T !! tok = Some (VArray a) -> Z.of_nat (length a) = 2)
    /\ (NoDup (map (hd EmptyString) (retained 2 (body_rows 1 sample_lines))) ->
        size T = length (retained 2 (body_rows 1 sample_lines))).
Proof.
  apply (load_table sample_readlines sample_float (w2v_at "vectors.txt")
           "vectors.txt" sample_lines 1 2).
  - vm_compute. reflexivity.
  - vm_compute. reflexivity.
  - vm_compute. reflexivity.
  - vm_compute. reflexivity.
  - lia.
  - rewrite sample_rows. intros row Hrow f Hf.
    repeat match goal with
           | H : _ ∈ _ :: _ |- _ => apply elem_of_cons in H as [->|H]; simpl in *
           | H : _ ∈ [] |- _ => now apply elem_of_nil in H
           end; vm_compute; eauto.
Defined.

Lemma pickled_state_witness :
  exists d,
    Base.__getstate__ loaded_w2v = Ok d
    /\ (forall k, d !! k = if bool_decide (k ∈ handles) then None
                           else dict loaded_w2v !! k)
    /\ (is_Some (dict loaded_w2v !! "word2vec_df") ->
        is_Some (dict loaded_w2v !! "empty") ->
        exists d', W2V.__getstate__ loaded_w2v = Ok d'
          /\ forall k, d' !! k = if bool_decide (k ∈ encoder_excluded) then None
                                 else dict loaded_w2v !! k)
    /\ (exists w', __setstate__ d (blank loaded_w2v) = (Ok tt, w')
          /\ dict w' !! "logger"
             = Some (set_logger (class_name loaded_w2v) (VBool false))
          /\ dict w' !! "memcached" = Some (MemoryCache ".nes_cache")
          /\ forall k, k ∉ handles -> dict w' !! k = dict loaded_w2v !! k)
    /\ (forall args kwargs w0,
          exists w1 v0, TrainableBase_init args kwargs w0 = (Ok tt, w1)
            /\ dict w1 !! "verbose" = Some v0
            /\ dict w1 !! "logger" = Some (set_logger (class_name w0) v0)
            /\ dict w1 !! "memcached" = Some (MemoryCache ".nes_cache")).
Proof.
  apply (pickled_state loaded_w2v (VBool false)).
  - vm_compute. eauto.
  - vm_compute. eauto.
  - vm_compute. reflexivity.
Defined.

(** The encoder as pickle restores it has no table: it must be loaded
    again before [encode] can look a token up. *)
Example unpickled_encoder_has_no_table :
  match W2V.__getstate__ loaded_w2v with
  | Ok d =>
      let r := __setstate__ d (blank loaded_w2v) in
      r.1 = Ok tt
      /\ dict r.2 !! "word2vec_df" = None /\ dict r.2 !! "empty" = None
      /\ dict r.2 !! "model_dir" = Some (VStr "vectors.txt")
  | Raise _ => False
  end.
Proof. vm_compute. repeat split. Qed.

(** A freshly constructed encoder, whose table has not been loaded, cannot
    be pickled: [del d['word2vec_df']] raises. *)
Example fresh_encoder_getstate :
  W2V.__getstate__ w2v_obj = Raise (KeyError "word2vec_df").
Proof. vm_compute. reflexivity. Qed.

(** ** C2, C3, C5: [encode] *)

(** Whatever the input, [encode] raises. *)
Lemma encode_raises (tokenize : string -> list string) (text : list string)
    (w : world) :
  exists e, (encode tokenize text w).1 = Raise e.
Proof.
  unfold encode, bind, lift, throw.
  destruct (encode_pooled tokenize text w) as [[pooled|e] w']; simpl; [|eauto].
  destruct (np_array pooled); simpl; eauto.
Qed.

(** *** The pooled data *)

Lemma vadd_lookup (a b : list Q) (i : nat) :
  vadd a b !! i
  = match a !! i, b !! i with
    | Some x, Some y => Some (x + y)%Q
    | _, _ => None
    end.
Proof.
  unfold vadd. rewrite lookup_zip_with.
  destruct (a !! i); simpl; [|reflexivity]. now destruct (b !! i).
Qed.

Lemma vadd_length (a b : list Q) (D : nat) :
  length a = D -> length b = D -> length (vadd a b) = D.
Proof. intros Ha Hb. unfold vadd. rewrite length_zip_with. lia. Qed.

Lemma fold_vadd_length (D : nat) (vs : list (list Q)) (v : list Q) :
  length v = D -> Forall (fun r => length r = D) vs ->
  length (foldl vadd v vs) = D.
Proof.
  revert v. induction vs as [|u vs IH]; intros v Hv Hvs; [exact Hv|].
  simpl. apply Forall_cons in Hvs as [Hu Hvs].
  apply IH; [now apply vadd_length|exact Hvs].
Qed.

Lemma fold_vadd_lookup (D : nat) (vs : list (list Q)) (v : list Q) (i : nat) :
  length v = D -> Forall (fun r => length r = D) vs -> (i < D)%nat ->
  exists x, foldl vadd v vs !! i = Some x
            /\ (x == nth i v 0 + Qsum (column i vs))%Q.
Proof.
  revert v. induction vs as [|u vs IH]; intros v Hv Hvs Hi.
  - simpl. destruct (lookup_lt_is_Some_2 v i) as [x Hx]; [lia|].
    exists x. split; [exact Hx|].
    rewrite (nth_lookup_Some _ _ _ _ Hx). unfold Qsum, column. simpl. ring.
  - apply Forall_cons in Hvs as [Hu Hvs]. simpl.
    destruct (IH (vadd v u) (vadd_length _ _ _ Hv Hu) Hvs Hi) as (x & Hx & Hq).
    exists x. split; [exact Hx|]. rewrite Hq.
    destruct (lookup_lt_is_Some_2 v i) as [a Ha]; [lia|].
    destruct (lookup_lt_is_Some_2 u i) as [b Hb]; [lia|].
    assert (Hab : vadd v u !! i = Some (a + b)%Q)
      by (now rewrite vadd_lookup, Ha, Hb).
    rewrite (nth_lookup_Some _ _ _ _ Hab), (nth_lookup_Some _ _ _ _ Ha).
    unfold Qsum, column. simpl. rewrite (nth_lookup_Some _ _ _ _ Hb). ring.
Qed.

Lemma as_rows_arrays (rows : list (list Q)) :
  as_rows (map VArray rows) = Ok rows.
Proof.
  induction rows as [|r rows IH]; simpl; [reflexivity|]. now rewrite IH.
Qed.

(** On rows of one length, [np.mean(_, axis=0)] is the elementwise
    arithmetic mean. *)
Lemma np_mean_is_mean (D : nat) (rows : list (list Q)) :
  rows <> [] -> Forall (fun r => length r = D) rows ->
  np_mean_axis0 (map VArray rows) = Ok (VArray (elementwise_mean D rows)).
Proof.
  intros Hne Hall. unfold np_mean_axis0. rewrite as_rows_arrays. simpl.
  destruct rows as [|v vs]; [congruence|].
  apply Forall_cons in Hall as [Hv Hvs].
  replace (forallb (fun u => (length u =? length v)%nat) vs) with true.
  2:{ symmetry. apply forallb_forall. intros u Hu.
      apply Nat.eqb_eq. rewrite Hv.
      rewrite Forall_forall in Hvs. apply Hvs. now apply list_elem_of_In. }
  f_equal. f_equal. unfold elementwise_mean. apply list_eq. intros i.
  rewrite !list_lookup_fmap.
  destruct (decide (i < D)%nat) as [Hi|Hi].
  - destruct (fold_vadd_lookup D vs v i Hv Hvs Hi) as (x & Hx & Hq).
    rewrite Hx, (lookup_seq_lt 0 D i Hi). simpl. f_equal.
    apply Qred_complete. rewrite Hq. unfold Qsum, column. simpl. reflexivity.
  - rewrite (lookup_ge_None_2 (foldl vadd v vs) i)
      by (rewrite (fold_vadd_length D) by assumption; lia).
    rewrite (lookup_ge_None_2 (seq 0 D) i) by (rewrite length_seq; lia).
    reflexivity.
Qed.

Lemma logger_emit_ok (lv : level) (msg : string) (w : world) (n : string)
    (v : pyval) :
  dict w !! "logger" = Some (VLogger n v) ->
  logger_emit lv msg w
  = (Ok tt, with_emitted w (emitted w ++ [LogRecord lv n msg])).
Proof.
  intros Hlog. unfold logger_emit, bind, getattr. now rewrite Hlog.
Qed.

Lemma lookup_tokens_ok (tokens : list string) (w : world)
    (T : gmap string pyval) (e : pyval) :
  dict w !! "word2vec_df" = Some (VDict T) ->
  dict w !! "empty" = Some e ->
  mapM lookup_token tokens w
  = (Ok (map (fun token => default e (T !! token)) tokens), w).
Proof.
  intros HT He. induction tokens as [|t tokens IH]; [reflexivity|].
  simpl. unfold bind at 1. unfold lookup_token at 1.
  unfold bind at 1. unfold getattr at 1. rewrite HT.
  unfold bind at 1. unfold getattr at 1. rewrite He. unfold ret at 1.
  unfold bind. rewrite IH. reflexivity.
Qed.

Lemma lookup_batch_ok (batch : list (list string)) (w : world)
    (T : gmap string pyval) (e : pyval) :
  dict w !! "word2vec_df" = Some (VDict T) ->
  dict w !! "empty" = Some e ->
  mapM (fun tokens => mapM lookup_token tokens) batch w
  = (Ok (map (map (fun token => default e (T !! token))) batch), w).
Proof.
  intros HT He. induction batch as [|tokens batch IH]; [reflexivity|].
  simpl. unfold bind at 1. rewrite (lookup_tokens_ok tokens w T e HT He).
  unfold bind. rewrite IH. reflexivity.
Qed.

(** X19: the pooled data of [encode]: when every vector of the table and the
    fallback vector have length [D] and every string has at least one token,
    the pooling yields, for each input string in order, the elementwise
    arithmetic mean of the vectors of its tokens, the fallback vector
    standing for a token the table does not hold. *)
Lemma encode_pooled_is_mean (tokenize : string -> list string)
    (text : list string) (w : world) (T : gmap string pyval) (e : list Q)
    (n : string) (v : pyval) (D : nat) :
  dict w !! "logger" = Some (VLogger n v) ->
  dict w !! "word2vec_df" = Some (VDict T) ->
  dict w !! "empty" = Some (VArray e) ->
  length e = D ->
  (forall token x, T !! token = Some x -> exists a, x = VArray a /\ length a = D) ->
  (forall s, s ∈ text -> tokenize s <> []) ->
  (encode_pooled tokenize text w).1
  = Ok (map (fun s => VArray (elementwise_mean D (map (row_of T e) (tokenize s))))
            text).
Proof.
  intros Hlog HT He HD Huni Htok.
  assert (Hrow : forall token,
            default (VArray e) (T !! token) = VArray (row_of T e token)
            /\ length (row_of T e token) = D).
  { intros token. unfold row_of. destruct (T !! token) as [x|] eqn:Hx; [|auto].
    destruct (Huni token x Hx) as (a & -> & Ha). auto. }
  assert (Hmean : mapR np_mean_axis0
                    (map (map (fun token => default (VArray e) (T !! token)))
                         (map tokenize text))
                  = Ok (map (fun s => VArray (elementwise_mean D
                                        (map (row_of T e) (tokenize s)))) text)).
  { induction text as [|s text IH]; [reflexivity|]. simpl.
    replace (map (fun token => default (VArray e) (T !! token)) (tokenize s))
      with (map VArray (map (row_of T e) (tokenize s))).
    2:{ rewrite map_map. apply map_ext. intros token.
        symmetry. apply (Hrow token). }
    rewrite (np_mean_is_mean D).
    - simpl. rewrite IH; [reflexivity|]. intros s' Hs'. apply Htok. now right.
    - intros Hnil. apply (Htok s); [now left|].
      now destruct (tokenize s).
    - apply Forall_forall. intros r Hr.
      apply list_elem_of_fmap in Hr as (token & -> & _).
      apply (Hrow token). }
  unfold encode_pooled.
  unfold bind at 1. rewrite (logger_emit_ok _ _ _ n v Hlog).
  unfold bind at 1. rewrite (logger_emit_ok _ _ _ n v) by exact Hlog.
  unfold bind at 1.
  rewrite (lookup_batch_ok _ _ T (VArray e)) by assumption.
  unfold bind at 1. rewrite (logger_emit_ok _ _ _ n v) by exact Hlog.
  unfold bind at 1. unfold lift at 1. rewrite Hmean.
  unfold bind at 1. rewrite (logger_emit_ok _ _ _ n v) by exact Hlog.
  reflexivity.
Qed.

(** An unknown token alone yields the fallback vector, in lowest terms. *)
Example unknown_token_pooled :
  (encode_pooled sample_tokenize ["unknown_token_xyz"] loaded_w2v).1
  = Ok [VArray [0%Q; 0%Q]].
Proof. vm_compute. reflexivity. Qed.

(** C2 (the code at a failing input): for the string [a b], whose tokens have
    the vectors [1, 0] and [3, 0], the pooling computes the mean [2, 0], but
    the [return] statement then raises [AttributeError]; and [encode] returns
    a value for no input at all. *)
Theorem encode_mean_then_raises :
  table_of loaded_w2v
  = {[ "a" := VArray [1%Q; 0%Q]; "b" := VArray [3%Q; 0%Q] ]}
  /\ sample_tokenize "a b" = ["a"; "b"]
  /\ (encode_pooled sample_tokenize ["a b"] loaded_w2v).1
     = Ok [VArray [2%Q; 0%Q]]
  /\ (encode sample_tokenize ["a b"] loaded_w2v).1
     = Raise (AttributeError "astye")
  /\ forall tokenize text w, is_ok (encode tokenize text w).1 = false.
Proof.
  split; [vm_compute; reflexivity|].
  split; [vm_compute; reflexivity|].
  split; [vm_compute; reflexivity|].
  split; [vm_compute; reflexivity|].
  intros tokenize text w.
  destruct (encode_raises tokenize text w) as [e He]. now rewrite He.
Qed.

(** C3 (the code at a failing input): for a string without tokens the pooled
    value is the scalar [nan], not a zero vector, and [encode] raises. *)
Theorem encode_empty_tokens (tokenize : string -> list string) (s : string)
    (w : world) (n : string) (v : pyval) :
  tokenize s = [] ->
  dict w !! "logger" = Some (VLogger n v) ->
  (encode_pooled tokenize [s] w).1 = Ok [VNaN]
  /\ (encode tokenize [s] w).1 = Raise (AttributeError "astye").
Proof.
  intros Htok Hlog.
  assert (Hp : (encode_pooled tokenize [s] w).1 = Ok [VNaN]).
  { unfold encode_pooled, logger_emit, bind, getattr, ret, lift; simpl.
    rewrite Hlog; simpl. rewrite Hlog; simpl. rewrite Htok; simpl.
    unfold ret. rewrite Hlog; simpl. rewrite Hlog; simpl. reflexivity. }
  split; [exact Hp|].
  unfold encode, bind.
  destruct (encode_pooled tokenize [s] w) as [r w']. simpl in Hp. subst r.
  reflexivity.
Qed.

Lemma encode_empty_tokens_witness :
  (encode_pooled sample_tokenize [EmptyString] loaded_w2v).1 = Ok [VNaN]
  /\ (encode sample_tokenize [EmptyString] loaded_w2v).1
     = Raise (AttributeError "astye").
Proof.
  apply (encode_empty_tokens sample_tokenize EmptyString loaded_w2v
           "Word2VecEncoder" (VBool false)).
  - vm_compute. reflexivity.
  - vm_compute. reflexivity.
Defined.

(** *** The pooling strategy *)

Section Ignores.

Variable k : string.

Lemma ignores_ret {A} (a : A) : ignores k (ret a).
Proof. intros w1 w2 H. now split. Qed.

Lemma ignores_throw {A} (e : pyexn) : ignores k (throw (A:=A) e).
Proof. intros w1 w2 H. now split. Qed.

Lemma ignores_lift {A} (r : result A) : ignores k (lift r).
Proof. intros w1 w2 H. now split. Qed.

Lemma ignores_bind {A B} (m : M A) (f : A -> M B) :
  ignores k m -> (forall a, ignores k (f a)) -> ignores k (bind m f).
Proof.
  intros Hm Hf w1 w2 H. unfold bind.
  destruct (Hm w1 w2 H) as [Hr Hw].
  destruct (m w1) as [r1 w1'], (m w2) as [r2 w2']. simpl in *. subst r2.
  destruct r1 as [a|e]; [now apply Hf|now split].
Qed.

Lemma ignores_getattr (j : string) : j <> k -> ignores k (getattr j).
Proof.
  intros Hj w1 w2 H. unfold getattr.
  destruct H as (Hc & Hs & He & Hd). rewrite (Hd j Hj).
  destruct (dict w2 !! j); simpl; repeat split; assumption.
Qed.

Lemma ignores_logger_emit (lv : level) (msg : string) :
  "logger" <> k -> ignores k (logger_emit lv msg).
Proof.
  intros Hk. unfold logger_emit. apply ignores_bind.
  - now apply ignores_getattr.
  - intros l. destruct l; try apply ignores_throw.
    intros w1 w2 (Hc & Hs & He & Hd). simpl. rewrite He.
    repeat split; assumption.
Qed.

Lemma ignores_mapM {A B} (f : A -> M B) (l : list A) :
  (forall a, ignores k (f a)) -> ignores k (mapM f l).
Proof.
  intros Hf. induction l as [|a l IH]; simpl; [apply ignores_ret|].
  apply ignores_bind; [apply Hf|]. intros b.
  apply ignores_bind; [apply IH|]. intros bs. apply ignores_ret.
Qed.

Lemma ignores_lookup_token (token : string) :
  "word2vec_df" <> k -> "empty" <> k -> ignores k (lookup_token token).
Proof.
  intros H1 H2. unfold lookup_token.
  apply ignores_bind; [now apply ignores_getattr|].
  intros df. destruct df; try apply ignores_throw.
  apply ignores_bind; [now apply ignores_getattr|].
  intros e. apply ignores_ret.
Qed.

End Ignores.

Lemma encode_pooled_ignores (tokenize : string -> list string)
    (text : list string) :
  ignores "pooling_strategy" (encode_pooled tokenize text).
Proof.
  unfold encode_pooled.
  repeat first
    [ apply ignores_logger_emit; discriminate
    | apply ignores_mapM; intros ?
    | apply ignores_lookup_token; discriminate
    | apply ignores_lift
    | apply ignores_ret
    | apply ignores_bind; [|intros ?] ].
Qed.

Lemma encode_ignores (tokenize : string -> list string) (text : list string) :
  ignores "pooling_strategy" (encode tokenize text).
Proof.
  unfold encode.
  apply ignores_bind; [apply encode_pooled_ignores|]. intros pooled.
  apply ignores_bind; [apply ignores_lift|]. intros a. apply ignores_throw.
Qed.

Lemma same_but_setattr (k : string) (v : pyval) (w : world) :
  same_but k (with_dict w (<[k := v]> (dict w))) w.
Proof.
  repeat split. intros j Hj. simpl. now apply lookup_insert_ne.
Qed.

Lemma quiet_ret {A} (a : A) : quiet (ret a).
Proof. intros w. discriminate. Qed.

Lemma quiet_lift {A} (r : result A) :
  r <> Raise UnsupportedConfiguration -> quiet (lift r).
Proof. intros Hr w. exact Hr. Qed.

Lemma quiet_bind {A B} (m : M A) (f : A -> M B) :
  quiet m -> (forall a, quiet (f a)) -> quiet (bind m f).
Proof.
  intros Hm Hf w. unfold bind. specialize (Hm w).
  destruct (m w) as [[a|e] w']; [apply Hf|].
  simpl in *. intros [= ->]. now apply Hm.
Qed.

Lemma quiet_getattr (j : string) : quiet (getattr j).
Proof. intros w. unfold getattr. destruct (dict w !! j); discriminate. Qed.

Lemma quiet_logger_emit (lv : level) (msg : string) : quiet (logger_emit lv msg).
Proof.
  unfold logger_emit. apply quiet_bind; [apply quiet_getattr|].
  intros l w. destruct l; discriminate.
Qed.

Lemma quiet_mapM {A B} (f : A -> M B) (l : list A) :
  (forall a, quiet (f a)) -> quiet (mapM f l).
Proof.
  intros Hf. induction l as [|a l IH]; simpl; [apply quiet_ret|].
  apply quiet_bind; [apply Hf|]. intros b.
  apply quiet_bind; [apply IH|]. intros bs. apply quiet_ret.
Qed.

Lemma quiet_lookup_token (token : string) : quiet (lookup_token token).
Proof.
  unfold lookup_token. apply quiet_bind; [apply quiet_getattr|].
  intros df. destruct df; try (intros w; discriminate).
  apply quiet_bind; [apply quiet_getattr|]. intros e. apply quiet_ret.
Qed.

Lemma mapR_quiet {A B} (f : A -> result B) (l : list A) :
  (forall a, f a <> Raise UnsupportedConfiguration) ->
  mapR f l <> Raise UnsupportedConfiguration.
Proof.
  intros Hf. induction l as [|a l IH]; simpl; [discriminate|].
  specialize (Hf a). destruct (f a); simpl; [|intros [= ->]; now apply Hf].
  destruct (mapR f l); simpl; [discriminate|exact IH].
Qed.

Lemma as_rows_quiet (pool : list pyval) :
  as_rows pool <> Raise UnsupportedConfiguration.
Proof.
  induction pool as [|x pool IH]; simpl; [discriminate|].
  destruct x; try discriminate.
  destruct (as_rows pool); simpl; [discriminate|exact IH].
Qed.

Lemma np_mean_axis0_quiet (pool : list pyval) :
  np_mean_axis0 pool <> Raise UnsupportedConfiguration.
Proof.
  unfold np_mean_axis0. pose proof (as_rows_quiet pool) as Hq.
  destruct (as_rows pool) as [[|r rows]|e]; simpl; try discriminate;
    [|intros [= ->]; now apply Hq].
  destruct (forallb _ rows); discriminate.
Qed.

Lemma encode_pooled_quiet (tokenize : string -> list string)
    (text : list string) :
  quiet (encode_pooled tokenize text).
Proof.
  unfold encode_pooled.
  repeat first
    [ apply quiet_logger_emit
    | apply quiet_mapM; intros ?
    | apply quiet_lookup_token
    | apply quiet_lift; apply mapR_quiet; apply np_mean_axis0_quiet
    | apply quiet_ret
    | apply quiet_bind; [|intros ?] ].
Qed.

Lemma encode_quiet (tokenize : string -> list string) (text : list string) :
  quiet (encode tokenize text).
Proof.
  unfold encode.
  apply quiet_bind; [apply encode_pooled_quiet|]. intros pooled.
  apply quiet_bind.
  - apply quiet_lift. unfold np_array.
    destruct pooled as [|x xs]; [discriminate|].
    destruct (forallb _ xs); discriminate.
  - intros a w. discriminate.
Qed.

(** C5, as stated, fails: an encoder configured with [REDUCE_MAX] does not
    raise [UnsupportedConfiguration] when [encode] is invoked. *)
Lemma pooling_strategy_counterexample :
  ~ (forall tokenize text w ps,
       dict w !! "pooling_strategy" = Some (VStr ps) ->
       ps <> "REDUCE_MEAN" ->
       (encode tokenize text w).1 = Raise UnsupportedConfiguration).
Proof.
  intros Hall.
  specialize (Hall sample_tokenize ["a b"]
                (with_pooling loaded_w2v (VStr "REDUCE_MAX")) "REDUCE_MAX").
  assert (Hr : (encode sample_tokenize ["a b"]
                  (with_pooling loaded_w2v (VStr "REDUCE_MAX"))).1
               = Raise (AttributeError "astye")) by (vm_compute; reflexivity).
  rewrite Hr in Hall.
  discriminate Hall; [vm_compute; reflexivity|discriminate].
Qed.

(** C5 (amended): the pooling strategy is accepted by the constructor
    whatever its value and stored; [encode] never consults it: the pooled
    data and the outcome of [encode] are those obtained with any other
    strategy, and [encode] never raises [UnsupportedConfiguration]. *)
Theorem pooling_strategy_ignored (tokenize : string -> list string)
    (text : list string) (w : world) (v : pyval) :
  (exists obj,
     __call__ Word2VecEncoder []
       (<["pooling_strategy" := v]> w2v_kwargs) = Ok obj
     /\ dict obj !! "pooling_strategy" = Some v)
  /\ (encode_pooled tokenize text (with_pooling w v)).1
     = (encode_pooled tokenize text w).1
  /\ (encode tokenize text (with_pooling w v)).1 = (encode tokenize text w).1
  /\ (encode tokenize text (with_pooling w v)).1
     <> Raise UnsupportedConfiguration.
Proof.
  split; [|split; [|split]].
  - eexists. split; vm_compute; reflexivity.
  - apply encode_pooled_ignores, same_but_setattr.
  - apply encode_ignores, same_but_setattr.
  - apply encode_quiet.
Qed.

(** ** A remark on inherited [train]

    [TrainableType.__new__] wraps whatever [getattr(cls, 'train')] returns;
    for a class that does not define [train] itself this is the wrapper
    already installed on its base class, so the wrapper is applied once more
    per level of inheritance and a trained instance of a direct subclass
    warns twice. *)
Example inherited_train_warns_twice :
  map rec_level (emitted (_as_train_func (_as_train_func train) [] ∅ w2v_obj).2)
  = [WARNING; WARNING]
  /\ (_as_train_func (_as_train_func train) [] ∅ w2v_obj).1 = Ok VNone.
Proof. split; vm_compute; reflexivity. Qed.

(** * Further properties of the code *)

(** ** Capture of the constructor arguments, continued *)

Lemma set_args_lookup_index (names : list string) (args : list pyval)
    (tmp : gmap string pyval) (i : nat) (k : string) :
  NoDup names -> names !! i = Some k ->
  set_args names args tmp !! k
  = match args !! i with
    | Some a => Some a
    | None => tmp !! k
    end.
Proof.
  unfold set_args. revert args tmp i.
  induction names as [|n names IH]; intros args tmp i Hnd Hi; [discriminate|].
  apply NoDup_cons in Hnd as [Hn Hnd].
  destruct args as [|a args]; [now destruct i|].
  simpl. destruct i as [|i]; simpl in *.
  - injection Hi as ->.
    change (set_args names args (<[k := a]> tmp) !! k = Some a).
    rewrite set_args_lookup_notin by exact Hn. apply lookup_insert_eq.
  - rewrite (IH args _ i Hnd Hi).
    destruct (args !! i); [reflexivity|].
    apply lookup_insert_ne. intros ->. apply Hn.
    apply list_elem_of_lookup. eauto.
Qed.

Lemma taboo_not_declared (sig : signature) (k : string) :
  k ∈ taboo -> k ∉ (declared sig).*1.
Proof.
  intros Hk Hin. apply list_elem_of_fmap in Hin as ([k' d] & -> & Hin).
  apply list_elem_of_filter in Hin as [Hnot _]. now apply Hnot.
Qed.

Lemma captured_declared (sig : signature) (args : list pyval)
    (kwargs : gmap string pyval) (i : nat) (k : string) (d : pyval) :
  NoDup (declared sig).*1 ->
  declared sig !! i = Some (k, d) ->
  captured false sig args kwargs !! k
  = Some match kwargs !! k with
         | Some v => v
         | None => match args !! i with
                   | Some a => a
                   | None => d
                   end
         end.
Proof.
  intros Hnd Hi. unfold signature in *.
  unfold captured. rewrite set_kwargs_lookup.
  rewrite (set_args_lookup_index _ _ _ i k Hnd)
    by (now rewrite list_lookup_fmap, Hi).
  assert (Hd : (list_to_map (declared sig) : gmap string pyval) !! k = Some d).
  { apply elem_of_list_to_map_1; [exact Hnd|].
    apply list_elem_of_lookup. eauto. }
  rewrite Hd.
  destruct (args !! i), (kwargs !! k); reflexivity.
Qed.

(** X1: the value captured for a declared parameter is the keyword argument
    of that name when there is one, else the positional argument at the
    parameter's position when there is one, else the declared default; and
    nothing but the declared parameters is captured. *)
Theorem captured_lookup (sig : signature) (args : list pyval)
    (kwargs : gmap string pyval) :
  NoDup (declared sig).*1 ->
  (forall i k d, declared sig !! i = Some (k, d) ->
     captured false sig args kwargs !! k
     = Some match kwargs !! k with
            | Some v => v
            | None => match args !! i with
                      | Some a => a
                      | None => d
                      end
            end)
  /\ (forall k, k ∉ (declared sig).*1 ->
        captured false sig args kwargs !! k = None).
Proof.
  intros Hnd. split; [|intros k; apply captured_undeclared].
  intros i k d. now apply captured_declared.
Qed.

Lemma w2v_names_nodup : NoDup (declared Word2VecEncoder_sig).*1.
Proof. apply (bool_decide_unpack _). vm_compute. exact I. Qed.

Lemma w2v_names :
  (declared Word2VecEncoder_sig).*1
  = ["model_dir"; "skiprows"; "batch_size"; "dimension"; "pooling_strategy"].
Proof. vm_compute. reflexivity. Qed.

Lemma captured_lookup_witness :
  captured false Word2VecEncoder_sig [VStr "m"; VInt 3]
    {[ "dimension" := VInt 50 ]} !! "skiprows" = Some (VInt 3).
Proof.
  etransitivity.
  - apply (proj1 (captured_lookup Word2VecEncoder_sig [VStr "m"; VInt 3]
                    {[ "dimension" := VInt 50 ]} w2v_names_nodup)
             1%nat "skiprows" (VInt 1)).
    vm_compute. reflexivity.
  - vm_compute. reflexivity.
Defined.

(** ** Binding of the constructor call *)

Lemma bind_args_lookup (pars : signature) (args : list pyval)
    (kwargs : gmap string pyval)
    (r : gmap string pyval * list pyval * gmap string pyval) :
  NoDup pars.*1 ->
  bind_args pars args kwargs = Ok r ->
  (forall i k d, pars !! i = Some (k, d) ->
     r.1.1 !! k
     = Some match kwargs !! k with
            | Some v => v
            | None => match args !! i with
                      | Some a => a
                      | None => d
                      end
            end)
  /\ (forall k, k ∉ pars.*1 -> r.1.1 !! k = None).
Proof.
  unfold signature in *.
  revert args kwargs r.
  induction pars as [|[k0 d0] pars IH]; intros args kwargs r Hnd Hb.
  - simpl in Hb. injection Hb as <-. simpl. split; [discriminate|].
    intros k _. apply lookup_empty.
  - apply NoDup_cons in Hnd as [Hk0 Hnd]. simpl in Hb.
    assert (Hstep : forall args' kwargs' r' x,
              bind_args pars args' kwargs' = Ok r' ->
              (forall k, k <> k0 -> kwargs' !! k = kwargs !! k) ->
              (forall i, args' !! i = args !! S i) ->
              kwargs !! k0 = None \/ args = [] ->
              x = match kwargs !! k0 with
                  | Some v => v
                  | None => match args !! 0%nat with
                            | Some a => a
                            | None => d0
                            end
                  end ->
              (forall i k d, ((k0, d0) :: pars) !! i = Some (k, d) ->
                 (<[k0 := x]> r'.1.1) !! k
                 = Some match kwargs !! k with
                        | Some v => v
                        | None => match args !! i with
                                  | Some a => a
                                  | None => d
                                  end
                        end)
              /\ (forall k, k ∉ ((k0, d0) :: pars).*1 ->
                    (<[k0 := x]> r'.1.1) !! k = None)).
    { intros args' kwargs' r' x Hr' Hkw Hargs Hfree ->.
      destruct (IH args' kwargs' r' Hnd Hr') as [IH1 IH2]. split.
      - intros [|i] k d Hi; simpl in Hi.
        + injection Hi as <- <-. now rewrite lookup_insert_eq.
        + assert (Hne : k0 <> k).
          { intros <-. apply Hk0. apply list_elem_of_fmap.
            exists (k0, d). split; [reflexivity|].
            apply list_elem_of_lookup. eauto. }
          rewrite lookup_insert_ne by exact Hne.
          rewrite (IH1 i k d Hi), Hkw, Hargs by congruence. reflexivity.
      - intros k Hk. simpl in Hk.
        rewrite lookup_insert_ne
          by (intros <-; apply Hk; now left).
        apply IH2. intros Hin. apply Hk. now right. }
    destruct args as [|a args].
    + destruct (kwargs !! k0) as [v|] eqn:Hkw.
      * destruct (bind_args pars [] (delete k0 kwargs)) as [r'|] eqn:Hr';
          [|discriminate]. simpl in Hb. injection Hb as <-. simpl.
        apply (Hstep [] (delete k0 kwargs) r' v Hr');
          solve [auto | intros k Hk; now apply lookup_delete_ne
                | now rewrite Hkw].
      * destruct d0; try discriminate;
          (destruct (bind_args pars [] kwargs) as [r'|] eqn:Hr';
           [|discriminate]; simpl in Hb; injection Hb as <-; simpl;
           apply (Hstep [] kwargs r' _ Hr');
           solve [auto | now rewrite Hkw]).
    + destruct (kwargs !! k0) as [v|] eqn:Hkw; [discriminate|].
      destruct (bind_args pars args kwargs) as [r'|] eqn:Hr'; [|discriminate].
      simpl in Hb. injection Hb as <-. simpl.
      apply (Hstep args kwargs r' a Hr'); solve [auto | now rewrite Hkw].
Qed.

(** A successful binding binds, for every declared parameter, the value the
    wrapper captured for it. *)
Lemma bind_args_captured (sig : signature) (args : list pyval)
    (kwargs : gmap string pyval)
    (r : gmap string pyval * list pyval * gmap string pyval) :
  NoDup (declared sig).*1 ->
  bind_args (declared sig) args kwargs = Ok r ->
  r.1.1 = captured false sig args kwargs.
Proof.
  intros Hnd Hb. apply map_eq. intros k.
  destruct (bind_args_lookup _ _ _ _ Hnd Hb) as [Hin Hout].
  destruct (decide (k ∈ (declared sig).*1)) as [Hk|Hk].
  - apply list_elem_of_fmap in Hk as ([k' d] & -> & Hk). cbn [fst].
    apply list_elem_of_lookup in Hk as [i Hi].
    now rewrite (Hin i k' d Hi), (captured_declared sig args kwargs i k' d Hnd Hi).
  - now rewrite (Hout k Hk), (captured_undeclared sig args kwargs k Hk).
Qed.

(** Called with no positional argument and a keyword argument for every
    declared parameter, the binding takes every value from the keyword
    arguments and leaves the others for [**kwargs]. *)
Lemma bind_args_keywords (pars : signature) (D : gmap string pyval) :
  NoDup pars.*1 ->
  (forall k, k ∈ pars.*1 -> is_Some (D !! k)) ->
  exists b rkw,
    bind_args pars [] D = Ok (b, [], rkw)
    /\ (forall k, k ∈ pars.*1 -> b !! k = D !! k /\ rkw !! k = None)
    /\ (forall k, k ∉ pars.*1 -> b !! k = None /\ rkw !! k = D !! k).
Proof.
  unfold signature in *. revert D.
  induction pars as [|[k0 d0] pars IH]; intros D Hnd Hall.
  - exists ∅, D. split; [reflexivity|]. split; intros k Hk.
    + now apply elem_of_nil in Hk.
    + split; [apply lookup_empty|reflexivity].
  - apply NoDup_cons in Hnd as [Hk0 Hnd]. cbn [fmap list_fmap fst] in *.
    cbn [bind_args].
    destruct (Hall k0) as [v Hv]; [now left|]. rewrite Hv.
    destruct (IH (delete k0 D) Hnd) as (b & rkw & Hb & Hin & Hout).
    { intros k Hk. rewrite lookup_delete_ne.
      - apply Hall. now right.
      - intros <-. now apply Hk0. }
    rewrite Hb. simpl. exists (<[k0 := v]> b), rkw.
    split; [reflexivity|]. split; intros k Hk.
    + destruct (decide (k0 = k)) as [<-|Hne].
      * rewrite lookup_insert_eq. split; [now rewrite Hv|].
        destruct (Hout k0 Hk0) as [_ ->]. apply lookup_delete_eq.
      * rewrite lookup_insert_ne by exact Hne.
        apply elem_of_cons in Hk as [->|Hk]; [congruence|].
        destruct (Hin k Hk) as [-> ->].
        now rewrite lookup_delete_ne.
    + assert (Hne : k0 <> k) by (intros <-; apply Hk; now left).
      rewrite lookup_insert_ne by exact Hne.
      destruct (Hout k) as [-> ->]; [intros Hin'; apply Hk; now right|].
      now rewrite lookup_delete_ne.
Qed.

Lemma captured_dom (sig : signature) (args : list pyval)
    (kwargs : gmap string pyval) (k : string) :
  NoDup (declared sig).*1 ->
  is_Some (captured false sig args kwargs !! k) <-> k ∈ (declared sig).*1.
Proof.
  intros Hnd. split.
  - intros [x Hx]. destruct (decide (k ∈ (declared sig).*1)) as [|Hk]; [assumption|].
    rewrite (captured_undeclared sig args kwargs k Hk) in Hx. discriminate.
  - intros Hk. apply list_elem_of_fmap in Hk as ([k' d] & -> & Hk). cbn [fst].
    apply list_elem_of_lookup in Hk as [i Hi].
    rewrite (captured_declared sig args kwargs i k' d Hnd Hi). eauto.
Qed.

(** [__call__] as a computation on the newly allocated instance. *)
Lemma call_unfold (cls : pyclass) (args : list pyval) (kwargs : gmap string pyval) :
  __call__ cls args kwargs
  = match (run! init_body cls args kwargs in set_default_property)
            (with_dict (fresh cls)
               {[ "_init_kwargs_dict" :=
                    VDict (captured (cls_store_args_kwargs cls) (all_pars cls)
                             args kwargs) ]}) with
    | (Ok _, w) => Ok w
    | (Raise e, _) => Raise e
    end.
Proof.
  unfold __call__, wrapped_init, _store_init_kwargs, bind, ret, setattr. simpl.
  rewrite lookup_empty. simpl. now rewrite insert_empty.
Qed.

Lemma overrides_absorbed (c : world) (p : gmap string pyval) :
  overrides c = Ok p -> with_dict c (p ∪ dict c) = c.
Proof.
  intros Hp. destruct c as [n st d em]. unfold with_dict. simpl in *. f_equal.
  apply map_eq. intros k. destruct (p !! k) as [x|] eqn:Hx.
  - rewrite (lookup_union_Some_l _ _ _ _ Hx).
    apply (non_default_lookup _ _ _ _ _ Hp) in Hx as [Hd _]. simpl in Hd.
    now rewrite Hd.
  - now rewrite lookup_union_r.
Qed.

(** X2: a component made by a constructor call that passes declared
    parameters only (nothing is left for [*args] or [**kwargs]) comes back
    unchanged from the structured round trip: dump then load returns the
    very component. *)
Theorem fresh_roundtrip (cls : pyclass)
    (body : gmap string pyval -> list pyval -> gmap string pyval -> M unit)
    (args : list pyval) (kwargs b : gmap string pyval) (c : world) :
  cls_store_args_kwargs cls = false ->
  NoDup (declared (all_pars cls)).*1 ->
  keeps_config (init_body cls) ->
  (forall a k, init_body cls a k = python_init (all_pars cls) body a k) ->
  bind_args (declared (all_pars cls)) args kwargs = Ok (b, [], ∅) ->
  __call__ cls args kwargs = Ok c ->
  roundtrip cls c = Ok c.
Proof.
  intros Hst Hnd Hkeep Hinit Hbind Hcall.
  set (D := captured false (all_pars cls) args kwargs).
  assert (HbD : b = D) by apply (bind_args_captured _ _ _ _ Hnd Hbind).
  destruct (call_config cls args kwargs c Hst Hkeep Hcall) as [Hcfg Hhas].
  destruct (non_default_ok (dict c) default_property Hhas) as [p Hp].
  rewrite (roundtrip_unfold cls c D p Hst Hcfg Hp).
  assert (Hself : bind_args (declared (all_pars cls)) [] D = Ok (D, [], ∅)).
  { destruct (bind_args_keywords (declared (all_pars cls)) D Hnd)
      as (b' & rkw' & Hb' & Hin & Hout).
    { intros k Hk. now apply captured_dom. }
    rewrite Hb'. f_equal. f_equal; [f_equal|].
    - apply map_eq. intros k.
      destruct (decide (k ∈ (declared (all_pars cls)).*1)) as [Hk|Hk].
      + now destruct (Hin k Hk).
      + destruct (Hout k Hk) as [-> _]. symmetry.
        now apply captured_undeclared.
    - apply map_eq. intros k. rewrite lookup_empty.
      destruct (decide (k ∈ (declared (all_pars cls)).*1)) as [Hk|Hk].
      + now destruct (Hin k Hk).
      + destruct (Hout k Hk) as [_ ->]. now apply captured_undeclared. }
  assert (Hsame : __call__ cls [] D = __call__ cls args kwargs).
  { rewrite !call_unfold, Hst.
    rewrite (captured_same (all_pars cls) D)
      by (intros k; now apply captured_dom).
    fold D. unfold bind. rewrite !Hinit. unfold python_init.
    rewrite Hself, Hbind. simpl. now rewrite HbD. }
  rewrite Hsame, Hcall. simpl. f_equal. now apply overrides_absorbed.
Qed.

Lemma Word2VecEncoder_python_init (a : list pyval) (k : gmap string pyval) :
  init_body Word2VecEncoder a k
  = python_init (all_pars Word2VecEncoder) Word2VecEncoder_body a k.
Proof.
  simpl. unfold Word2VecEncoder_init, python_init.
  now destruct (bind_args _ a k) as [[[b rest] rest_kw]|e].
Qed.

Lemma fresh_roundtrip_witness :
  roundtrip Word2VecEncoder w2v_obj = Ok w2v_obj.
Proof.
  apply (fresh_roundtrip Word2VecEncoder Word2VecEncoder_body [] w2v_kwargs
           (captured false Word2VecEncoder_sig [] w2v_kwargs)).
  - reflexivity.
  - exact w2v_names_nodup.
  - exact Word2VecEncoder_keeps_config.
  - exact Word2VecEncoder_python_init.
  - vm_compute. reflexivity.
  - exact w2v_call_ok.
Defined.

(** X3: after [Word2VecEncoder(...)], each of the attributes [model_dir],
    [skiprows], [batch_size], [dimension] and [pooling_strategy] holds the
    value captured for the parameter of that name in the configuration. *)
Theorem w2v_attributes_are_config (args : list pyval)
    (kwargs : gmap string pyval) (c : world) :
  __call__ Word2VecEncoder args kwargs = Ok c ->
  config c = Some (VDict (captured false Word2VecEncoder_sig args kwargs))
  /\ forall k, k ∈ (declared Word2VecEncoder_sig).*1 ->
       is_Some (dict c !! k)
       /\ dict c !! k = captured false Word2VecEncoder_sig args kwargs !! k.
Proof.
  intros Hcall.
  destruct (call_config Word2VecEncoder args kwargs c eq_refl
              Word2VecEncoder_keeps_config Hcall) as [Hcfg _].
  split; [exact Hcfg|]. clear Hcfg.
  intros k Hk.
  destruct (proj2 (captured_dom Word2VecEncoder_sig args kwargs k
                     w2v_names_nodup) Hk) as [x Hx].
  apply call_inv in Hcall as (w' & Hb & ->).
  rewrite Word2VecEncoder_python_init in Hb. unfold python_init in Hb.
  destruct (bind_args _ args kwargs) as [r|e] eqn:Hbind; [|discriminate].
  rewrite (bind_args_captured Word2VecEncoder_sig args kwargs r
             w2v_names_nodup Hbind) in Hb.
  remember (captured false Word2VecEncoder_sig args kwargs) as D eqn:HD.
  clear HD Hbind.
  unfold Word2VecEncoder_body in Hb. unfold bind at 1 in Hb.
  destruct (super_init r.1.2 r.2 _) as [[[]|e] w0]; [|discriminate].
  unfold bind, setattr in Hb; simpl in Hb. injection Hb as <-.
  rewrite Hx.
  assert (Hlook : <["dimension" := arg D "dimension"]>
                    (<["is_trained" := VBool true]>
                       (<["pooling_strategy" := arg D "pooling_strategy"]>
                          (<["batch_size" := arg D "batch_size"]>
                             (<["skiprows" := arg D "skiprows"]>
                                (<["model_dir" := arg D "model_dir"]>
                                   (dict w0)))))) !! k
                  = Some x).
  { rewrite w2v_names in Hk.
    repeat match goal with
           | H : _ ∈ _ :: _ |- _ => apply elem_of_cons in H as [->|H]
           | H : _ ∈ [] |- _ => now apply elem_of_nil in H
           end;
      repeat (rewrite lookup_insert_ne by discriminate);
      rewrite lookup_insert_eq; unfold arg; now rewrite Hx. }
  split; [eexists|]; apply set_default_property_keeps; exact Hlook.
Qed.

Lemma w2v_attributes_are_config_witness :
  dict w2v_obj !! "dimension"
  = captured false Word2VecEncoder_sig [] w2v_kwargs !! "dimension".
Proof.
  apply (proj2 (w2v_attributes_are_config [] w2v_kwargs w2v_obj w2v_call_ok)
           "dimension").
  rewrite w2v_names. rewrite !elem_of_cons. tauto.
Defined.

(** ** The wrapper on an instance that already holds a configuration *)

(** The wrapper stores the union of what it captured and what the instance
    held before, then runs the constructor. *)
Lemma store_init_unfold (sig : signature) (func : method unit)
    (args : list pyval) (kwargs : gmap string pyval) (w : world)
    (D0 : gmap string pyval) :
  (dict w !! "_init_kwargs_dict" = None /\ D0 = ∅)
  \/ dict w !! "_init_kwargs_dict" = Some (VDict D0) ->
  _store_init_kwargs sig func args kwargs w
  = func args kwargs
      (with_dict w
         (<["_init_kwargs_dict" :=
              VDict (captured (store_args_kwargs w) sig args kwargs ∪ D0)]>
            (dict w))).
Proof.
  intros Hold. unfold _store_init_kwargs, bind, ret, setattr.
  destruct Hold as [[Hnone ->]|Hsome].
  - rewrite Hnone. simpl. now rewrite (right_id_L ∅ (∪)).
  - rewrite Hsome. simpl.
    destruct (bool_decide (D0 = ∅)) eqn:E; simpl; [|reflexivity].
    apply bool_decide_eq_true in E. subst D0.
    now rewrite (right_id_L ∅ (∪)).
Qed.

(** X4: wrapping a constructor that is already wrapped changes nothing: a
    class that inherits its [__init__] has the wrapper applied twice, and the
    instance ends up exactly as with one application. *)
Theorem store_init_twice (sig : signature) (func : method unit)
    (args : list pyval) (kwargs : gmap string pyval) (w : world)
    (D0 : gmap string pyval) :
  (dict w !! "_init_kwargs_dict" = None /\ D0 = ∅)
  \/ dict w !! "_init_kwargs_dict" = Some (VDict D0) ->
  _store_init_kwargs sig (_store_init_kwargs sig func) args kwargs w
  = _store_init_kwargs sig func args kwargs w.
Proof.
  intros Hold.
  rewrite (store_init_unfold sig (_store_init_kwargs sig func) args kwargs w D0 Hold).
  rewrite (store_init_unfold sig func args kwargs w D0 Hold).
  set (C := captured (store_args_kwargs w) sig args kwargs).
  rewrite (store_init_unfold sig func args kwargs _ (C ∪ D0))
    by (right; apply lookup_insert_eq).
  simpl. fold C. f_equal. unfold with_dict. simpl. f_equal.
  rewrite insert_insert_eq. f_equal. f_equal.
  now rewrite (assoc_L (∪)), (idemp_L (∪) C).
Qed.

Lemma store_init_twice_witness :
  _store_init_kwargs TrainableBase_sig
    (_store_init_kwargs TrainableBase_sig TrainableBase_init)
    [VInt 1] ∅ (fresh RawStored)
  = _store_init_kwargs TrainableBase_sig TrainableBase_init
      [VInt 1] ∅ (fresh RawStored).
Proof.
  apply (store_init_twice TrainableBase_sig TrainableBase_init [VInt 1] ∅
           (fresh RawStored) ∅).
  left. split; reflexivity.
Defined.

(** ** Structured round trip with [store_args_kwargs] *)

Lemma captured_true (sig : signature) (args : list pyval)
    (kwargs : gmap string pyval) :
  captured true sig args kwargs
  = let tmp := captured false sig args kwargs in
    let tmp := if truthy (VTuple args) then <["args" := VTuple args]> tmp else tmp in
    if truthy (VDict kwargs) then <["kwargs" := VDict kwargs]> tmp else tmp.
Proof. reflexivity. Qed.

Lemma captured_no_raw (sig : signature) (args : list pyval)
    (kwargs : gmap string pyval) :
  captured false sig args kwargs !! "args" = None
  /\ captured false sig args kwargs !! "kwargs" = None.
Proof.
  split; apply captured_undeclared, taboo_not_declared;
    unfold taboo; rewrite !elem_of_cons; tauto.
Qed.

(** What the load reads back from a configuration captured with
    [store_args_kwargs]. *)
Lemma captured_true_parts (sig : signature) (args : list pyval)
    (kwargs : gmap string pyval) :
  let P := captured true sig args kwargs in
  match P !! "args" with
  | None => Ok []
  | Some (VTuple l) => Ok l
  | Some _ => Raise (TypeError "argument after * must be an iterable")
  end = Ok args
  /\ get_mapping "kwargs" P = Ok kwargs
  /\ delete "kwargs" (delete "args" P) = captured false sig args kwargs.
Proof.
  destruct (captured_no_raw sig args kwargs) as [Ha Hk].
  rewrite captured_true. cbv zeta.
  set (C := captured false sig args kwargs) in *.
  assert (HD : forall P : gmap string pyval,
            (forall k, k <> "args" -> k <> "kwargs" -> P !! k = C !! k) ->
            delete "kwargs" (delete "args" P) = C).
  { intros P HP. apply map_eq. intros k.
    destruct (decide (k = "kwargs")) as [->|Hk1];
      [now rewrite lookup_delete_eq|].
    rewrite lookup_delete_ne by congruence.
    destruct (decide (k = "args")) as [->|Hk2];
      [now rewrite lookup_delete_eq|].
    rewrite lookup_delete_ne by congruence. now apply HP. }
  unfold get_mapping.
  destruct args as [|a args]; simpl;
    (destruct (bool_decide (kwargs = ∅)) eqn:E; simpl;
     [apply bool_decide_eq_true in E; subst kwargs|]);
    rewrite ?lookup_insert_eq, ?lookup_insert_ne by discriminate;
    rewrite ?lookup_insert_eq, ?Ha, ?Hk;
    (split; [reflexivity|split; [reflexivity|]]);
    apply HD; intros k H1 H2;
    now rewrite ?lookup_insert_ne by congruence.
Qed.

(** With [store_args_kwargs], one dump followed by one load calls the
    constructor on the stored positional arguments and on the stored keyword
    arguments overridden by the captured named parameters. *)
Lemma roundtrip_unfold_stored (cls : pyclass) (c : world)
    (args : list pyval) (kwargs p : gmap string pyval) :
  cls_store_args_kwargs cls = true ->
  config c = Some (VDict (captured true (all_pars cls) args kwargs)) ->
  overrides c = Ok p ->
  roundtrip cls c
  = let? obj := __call__ cls args
                  (captured false (all_pars cls) args kwargs ∪ kwargs) in
    Ok (with_dict obj (p ∪ dict obj)).
Proof.
  intros Hst HD Hp.
  destruct (dump_get c _ p HD Hp) as (doc & Hdoc & Hpar & Hprop & _).
  unfold roundtrip. rewrite Hdoc. cbn [rbind].
  unfold load_structured, _get_instance_from_yaml. rewrite Hpar, Hst.
  cbn [rbind].
  destruct (captured_true_parts (all_pars cls) args kwargs) as (Ha & Hk & Hdel).
  cbv zeta in Ha, Hk, Hdel. rewrite Ha. cbn [rbind]. rewrite Hk. cbn [rbind].
  rewrite Hdel.
  destruct (__call__ cls args _); cbn [rbind]; [|reflexivity]. now rewrite Hprop.
Qed.

(** X5: for a class that keeps the raw arguments and declares no parameter
    of its own, a newly constructed component comes back unchanged from the
    structured round trip: the load calls the constructor on the very
    positional and keyword arguments of the original call. *)
Theorem raw_roundtrip (cls : pyclass) (args : list pyval)
    (kwargs : gmap string pyval) (c : world) :
  cls_store_args_kwargs cls = true ->
  declared (all_pars cls) = [] ->
  __call__ cls args kwargs = Ok c ->
  config c = Some (VDict (captured true (all_pars cls) args kwargs)) ->
  roundtrip cls c = Ok c.
Proof.
  intros Hst Hdecl Hcall Hcfg.
  assert (Hhas : forall kv, kv ∈ default_property -> is_Some (dict c !! kv.1)).
  { pose proof Hcall as Hc. apply call_inv in Hc as (w' & _ & ->).
    intros [k v] Hin. now apply (set_default_property_has w' k v). }
  destruct (non_default_ok (dict c) default_property Hhas) as [p Hp].
  rewrite (roundtrip_unfold_stored cls c args kwargs p Hst Hcfg Hp).
  assert (Hnone : captured false (all_pars cls) args kwargs = ∅).
  { apply map_eq. intros k. rewrite lookup_empty.
    apply captured_undeclared. rewrite Hdecl. apply not_elem_of_nil. }
  rewrite Hnone, (left_id_L ∅ (∪)), Hcall. simpl. f_equal.
  now apply overrides_absorbed.
Qed.

Lemma raw_roundtrip_witness : roundtrip RawStored raw_obj = Ok raw_obj.
Proof.
  apply (raw_roundtrip RawStored [VInt 1; VStr "x"] {[ "verbose" := VBool true ]}).
  - reflexivity.
  - vm_compute. reflexivity.
  - vm_compute. reflexivity.
  - vm_compute. reflexivity.
Defined.

(** X6: for a class that keeps the raw arguments, a component whose stored
    configuration holds at least one positional argument together with a
    value for the first declared parameter cannot be loaded back: the load
    passes that parameter both positionally and by keyword, and the
    constructor call raises [TypeError]. *)
Theorem stored_positional_raises (cls : pyclass)
    (body : gmap string pyval -> list pyval -> gmap string pyval -> M unit)
    (c : world) (P K : gmap string pyval) (a : pyval) (rest : list pyval)
    (k0 : string) (d0 : pyval) (pars : signature) :
  cls_store_args_kwargs cls = true ->
  (forall a k, init_body cls a k = python_init (all_pars cls) body a k) ->
  declared (all_pars cls) = (k0, d0) :: pars ->
  config c = Some (VDict P) ->
  P !! "args" = Some (VTuple (a :: rest)) ->
  is_Some (P !! k0) ->
  get_mapping "kwargs" P = Ok K ->
  (forall kv, kv ∈ default_property -> is_Some (dict c !! kv.1)) ->
  roundtrip cls c = Raise (TypeError "got multiple values for argument").
Proof.
  intros Hst Hinit Hdecl Hcfg Hargs [x Hx] HK Hhas.
  destruct (non_default_ok (dict c) default_property Hhas) as [p Hp].
  destruct (dump_get c P p Hcfg Hp) as (doc & Hdoc & Hpar & _ & _).
  assert (Hk0 : k0 <> "args" /\ k0 <> "kwargs").
  { assert (Hin : k0 ∈ (declared (all_pars cls)).*1)
      by (rewrite Hdecl; now left).
    split; intros ->;
      apply (taboo_not_declared (all_pars cls) _) in Hin; try exact Hin;
      unfold taboo; rewrite !elem_of_cons; tauto. }
  destruct Hk0 as [Hk1 Hk2].
  unfold roundtrip. rewrite Hdoc. cbn [rbind].
  unfold load_structured, _get_instance_from_yaml. rewrite Hpar, Hst.
  cbn [rbind]. rewrite Hargs. cbn [rbind]. rewrite HK. cbn [rbind].
  rewrite call_unfold. unfold bind. rewrite Hinit. unfold python_init.
  rewrite Hdecl. cbn [bind_args].
  rewrite (lookup_union_Some_l _ _ k0 x)
    by (now rewrite !lookup_delete_ne by congruence).
  reflexivity.
Qed.

Lemma Stored_python_init (a : list pyval) (k : gmap string pyval) :
  init_body Stored a k
  = python_init (all_pars Stored)
      (fun b rest rest_kw => run! super_init rest rest_kw in setattr "a" (arg b "a"))
      a k.
Proof.
  simpl. unfold Stored_init, python_init.
  now destruct (bind_args _ a k) as [[[b rest] rest_kw]|e].
Qed.

Lemma stored_positional_raises_witness :
  roundtrip Stored (force (__call__ Stored [VInt 1; VInt 2] ∅))
  = Raise (TypeError "got multiple values for argument").
Proof.
  apply (stored_positional_raises Stored _ _
           (<["args" := VTuple [VInt 2]]> {[ "a" := VInt 1 ]}) ∅
           (VInt 2) [] "a" VEmpty [] eq_refl Stored_python_init).
  - vm_compute. reflexivity.
  - vm_compute. reflexivity.
  - vm_compute. reflexivity.
  - vm_compute. eauto.
  - vm_compute. reflexivity.
  - intros kv Hkv. unfold default_property in Hkv.
    apply elem_of_cons in Hkv as [->|Hkv]; [vm_compute; eauto|].
    apply elem_of_cons in Hkv as [->|Hkv]; [vm_compute; eauto|].
    now apply elem_of_nil in Hkv.
Defined.

(** ** What the structured dump holds *)

(** X7: the structured dump of a component holds at most the two keys
    [parameter] and [property]; [parameter] is there exactly when the
    captured configuration is not empty, and is that configuration;
    [property] is there exactly when some whitelist property is not at its
    default, and holds those properties with their current values and
    nothing else.  No other attribute of the component is dumped. *)
Theorem dump_shape (c : world) (doc D : gmap string pyval) :
  config c = Some (VDict D) ->
  dump_structured c = Ok doc ->
  (forall k, is_Some (doc !! k) -> k = "parameter" \/ k = "property")
  /\ doc !! "parameter" = (if bool_decide (D = ∅) then None else Some (VDict D))
  /\ exists p,
       doc !! "property" = (if bool_decide (p = ∅) then None else Some (VDict p))
       /\ forall k x, p !! k = Some x
          <-> dict c !! k = Some x
              /\ exists v, (k, v) ∈ default_property /\ py_ne x v = true.
Proof.
  unfold config, dump_structured, _dump_instance_to_yaml. intros HD.
  destruct (non_default (dict c) default_property) as [p|e] eqn:Hp;
    [|discriminate].
  cbn [rbind]. rewrite HD. unfold truthy. intros [= <-].
  assert (Hp' : forall k x, p !! k = Some x
            <-> dict c !! k = Some x
                /\ exists v, (k, v) ∈ default_property /\ py_ne x v = true)
    by (intros k x; now apply non_default_lookup).
  destruct (bool_decide (D = ∅)) eqn:ED; destruct (bool_decide (p = ∅)) eqn:Ep;
    cbn [negb];
    (split; [intros k [x Hx];
             destruct (decide (k = "parameter")) as [->|H1]; [now left|];
             destruct (decide (k = "property")) as [->|H2]; [now right|];
             rewrite ?lookup_insert_ne, lookup_empty in Hx by congruence;
             discriminate|]);
    (split; [rewrite ?lookup_insert_ne by discriminate;
             rewrite ?lookup_insert_eq, ?lookup_empty; reflexivity|]);
    exists p; rewrite Ep;
    (split; [rewrite ?lookup_insert_eq, ?lookup_insert_ne by discriminate;
             rewrite ?lookup_empty; reflexivity|exact Hp']).
Qed.

Lemma dump_shape_witness :
  match dump_structured w2v_obj with
  | Ok doc => forall k, is_Some (doc !! k) -> k = "parameter" \/ k = "property"
  | Raise _ => False
  end.
Proof.
  destruct (dump_structured w2v_obj) as [doc|e] eqn:Hdoc.
  - apply (dump_shape w2v_obj doc w2v_config); [vm_compute; reflexivity|exact Hdoc].
  - vm_compute in Hdoc. discriminate Hdoc.
Defined.

(** ** Default properties *)

(** X8: [__call__] gives every component it returns the attributes
    [is_trained] and [batch_size]; a default is assigned only where the
    constructor left the attribute unset, every attribute the constructor
    set keeps its value, and no other attribute is added. *)
Theorem defaults_fill_gaps (cls : pyclass) (args : list pyval)
    (kwargs : gmap string pyval) (c : world) :
  __call__ cls args kwargs = Ok c ->
  exists w',
    wrapped_init cls args kwargs (fresh cls) = (Ok tt, w')
    /\ class_name c = class_name w' /\ emitted c = emitted w'
    /\ forall k,
         dict c !! k
         = match dict w' !! k with
           | Some x => Some x
           | None => (list_to_map default_property : gmap string pyval) !! k
           end.
Proof.
  unfold __call__, bind.
  destruct (wrapped_init cls args kwargs (fresh cls)) as [[[]|e] w'] eqn:Hw;
    [|discriminate].
  intros [= <-]. exists w'. split; [reflexivity|].
  split; [reflexivity|]. split; [reflexivity|]. intros k.
  destruct (dict w' !! k) as [x|] eqn:Hk.
  - now apply set_default_property_keeps.
  - unfold set_default_property, default_property. simpl.
    destruct (dict w' !! "is_trained") eqn:E1;
      match goal with
      | |- context [match ?d !! "batch_size" with _ => _ end] =>
          destruct (d !! "batch_size") eqn:E2
      end;
      destruct (decide (k = "is_trained")); destruct (decide (k = "batch_size"));
      simplify_map_eq; done.
Qed.

Lemma defaults_fill_gaps_witness :
  exists w',
    wrapped_init TrainableBase [] ∅ (fresh TrainableBase) = (Ok tt, w')
    /\ class_name base_obj = class_name w' /\ emitted base_obj = emitted w'
    /\ forall k,
         dict base_obj !! k
         = match dict w' !! k with
           | Some x => Some x
           | None => (list_to_map default_property : gmap string pyval) !! k
           end.
Proof.
  apply (defaults_fill_gaps TrainableBase [] ∅ base_obj).
  vm_compute. reflexivity.
Defined.

(** The base constructor leaves a batch size of [None], the encoder's the
    batch size it was given. *)
Example batch_size_after_construction :
  dict base_obj !! "batch_size" = Some VNone
  /\ dict w2v_obj !! "batch_size" = Some (VInt 64).
Proof. split; vm_compute; reflexivity. Qed.

(** ** Pickling round trip *)

(** X9: a component whose two handles are the ones its constructor built
    (the logger of its class for its [verbose] attribute, the cache on
    [.nes_cache]) comes back unchanged from pickling: [__setstate__] on the
    state [__getstate__] returned rebuilds the very component; this holds in
    particular for every component the base constructor returns. *)
Theorem pickle_roundtrip :
  (forall (w : world) (v : pyval),
     dict w !! "verbose" = Some v ->
     dict w !! "logger" = Some (set_logger (class_name w) v) ->
     dict w !! "memcached" = Some (MemoryCache ".nes_cache") ->
     exists d, Base.__getstate__ w = Ok d
               /\ __setstate__ d (blank w) = (Ok tt, w))
  /\ (forall args kwargs w,
        __call__ TrainableBase args kwargs = Ok w ->
        exists d, Base.__getstate__ w = Ok d
                  /\ __setstate__ d (blank w) = (Ok tt, w)).
Proof.
  assert (Hgen : forall (w : world) (v : pyval),
     dict w !! "verbose" = Some v ->
     dict w !! "logger" = Some (set_logger (class_name w) v) ->
     dict w !! "memcached" = Some (MemoryCache ".nes_cache") ->
     exists d, Base.__getstate__ w = Ok d
               /\ __setstate__ d (blank w) = (Ok tt, w)).
  { intros w v Hv Hl Hm.
    exists (delete "memcached" (delete "logger" (dict w))).
    split; [apply base_getstate_ok; eauto|].
    unfold __setstate__, blank, bind, getattr, setattr; simpl.
    rewrite (right_id_L ∅ (∪)).
    rewrite !lookup_delete_ne by discriminate. rewrite Hv. simpl.
    f_equal. destruct w as [n st d em]; unfold with_dict; simpl in *. f_equal.
    apply map_eq. intros k.
    destruct (decide (k = "memcached")) as [->|H1];
      [now rewrite lookup_insert_eq|].
    rewrite lookup_insert_ne by congruence.
    destruct (decide (k = "logger")) as [->|H2];
      [now rewrite lookup_insert_eq|].
    rewrite lookup_insert_ne by congruence.
    now rewrite !lookup_delete_ne by congruence. }
  split; [exact Hgen|].
  intros args kwargs w Hcall.
  destruct (base_call_ok args kwargs) as (w0 & Hw0 & _ & Hl & Hm & Hcls & _).
  assert (w0 = w) by congruence. subst w0.
  apply (Hgen w (default (VBool false) (kwargs !! "verbose")));
    [|now rewrite Hcls|exact Hm].
  clear -Hcall. apply call_inv in Hcall as (w' & Hb & ->).
  apply set_default_property_keeps.
  simpl in Hb. unfold TrainableBase_init, bind, setattr, getattr in Hb.
  simpl in Hb. rewrite lookup_insert_eq in Hb. simpl in Hb.
  injection Hb as <-. simpl.
  rewrite !lookup_insert_ne by discriminate. rewrite lookup_insert_eq.
  now destruct (kwargs !! "verbose").
Qed.

Lemma pickle_roundtrip_witness :
  exists d, Base.__getstate__ verbose_obj = Ok d
            /\ __setstate__ d (blank verbose_obj) = (Ok tt, verbose_obj).
Proof.
  apply (proj1 pickle_roundtrip verbose_obj (VBool true));
    vm_compute; reflexivity.
Defined.

(** ** The guard along the life of a component *)

(** X10: an operation behind the requires-trained guard is refused on every
    component the base constructor returns, runs on every component the
    constructor of [Word2VecEncoder] returns, and runs on every component
    that a completed call of [train] has left. *)
Theorem guard_lifecycle {A B} (fname : string) (g : method A) (func : method B)
    (args a : list pyval) (kwargs k : gmap string pyval) :
  (forall w, __call__ TrainableBase args kwargs = Ok w ->
     _train_required fname g a k w = (Raise (guard_error fname), w))
  /\ (forall w, __call__ Word2VecEncoder args kwargs = Ok w ->
        _train_required fname g a k w = g a k w)
  /\ (forall w r w1, _as_train_func func args kwargs w = (Ok r, w1) ->
        _train_required fname g a k w1 = g a k w1).
Proof.
  split; [|split].
  - intros w Hcall.
    destruct (base_call_ok args kwargs) as (w0 & Hw0 & Ht & _).
    assert (w0 = w) by congruence. subst w0.
    run_monad. now rewrite Ht.
  - intros w Hcall. run_monad. now rewrite (w2v_call_trained _ _ _ Hcall).
  - intros w r w1 Htrain.
    destruct (as_train_func_completed func args kwargs w w1 r Htrain) as [Ht _].
    run_monad. now rewrite Ht.
Qed.

Lemma guard_lifecycle_witness :
  _train_required "encode" train [] ∅ w2v_obj = train [] ∅ w2v_obj.
Proof.
  apply (proj1 (proj2 (guard_lifecycle (B:=pyval) "encode" train train
                         [] [] w2v_kwargs ∅))).
  exact w2v_call_ok.
Defined.

(** ** The train wrapper applied twice *)

(** X11: on a class that inherits [train], the metaclass wraps the inherited
    wrapper once more.  A call on a trained component then emits the warning
    twice before it runs the body once; a call on an untrained component
    emits none; in both cases the component is trained when the body
    completes. *)
Theorem train_wrapped_twice {A} (func : method A) (args : list pyval)
    (kwargs : gmap string pyval) (w w2 : world) (t : pyval) (r : A) :
  dict w !! "is_trained" = Some t ->
  (truthy t = false ->
     func args kwargs w = (Ok r, w2) ->
     _as_train_func (_as_train_func func) args kwargs w = (Ok r, trained w2))
  /\ (forall n v,
        truthy t = true ->
        dict w !! "logger" = Some (VLogger n v) ->
        func args kwargs (warned (warned w n) n) = (Ok r, w2) ->
        _as_train_func (_as_train_func func) args kwargs w = (Ok r, trained w2)
        /\ emitted (warned (warned w n) n)
           = (emitted w ++ [LogRecord WARNING n (train_warning (class_name w));
                            LogRecord WARNING n (train_warning (class_name w))])%list).
Proof.
  intros Ht.
  assert (Htt : forall w', trained (trained w') = trained w').
  { intros w'. unfold trained, with_dict. simpl. now rewrite insert_insert_eq. }
  split.
  - intros Hf Hr. run_monad. rewrite Ht; simpl. rewrite Hf; simpl.
    rewrite Ht; simpl. rewrite Hf; simpl. rewrite Hr. simpl.
    f_equal. apply Htt.
  - intros n v Hf Hlog Hr. split.
    + run_monad. rewrite Ht; simpl. rewrite Hf; simpl. rewrite Hlog; simpl.
      rewrite Ht; simpl. rewrite Hf; simpl. rewrite Hlog; simpl.
      unfold warned in Hr. simpl in Hr. rewrite Hr. simpl.
      f_equal. apply Htt.
    + unfold warned. simpl. now rewrite <- app_assoc.
Qed.

Lemma train_wrapped_twice_witness :
  _as_train_func (_as_train_func train) [] ∅ w2v_obj
  = (Ok VNone, trained (warned (warned w2v_obj "Word2VecEncoder") "Word2VecEncoder"))
  /\ emitted (warned (warned w2v_obj "Word2VecEncoder") "Word2VecEncoder")
     = (emitted w2v_obj
        ++ [LogRecord WARNING "Word2VecEncoder" (train_warning (class_name w2v_obj));
            LogRecord WARNING "Word2VecEncoder" (train_warning (class_name w2v_obj))])%list.
Proof.
  apply (proj2 (train_wrapped_twice train [] ∅ w2v_obj
                  (warned (warned w2v_obj "Word2VecEncoder") "Word2VecEncoder")
                  (VBool true) VNone ltac:(vm_compute; reflexivity))
           "Word2VecEncoder" (VBool false));
    vm_compute; reflexivity.
Defined.

(** ** Loading the vector table, continued *)

Lemma load_lines_raise (py_float : string -> option Q) (lines : list string)
    (c s D : Z) (w : world) (T : gmap string pyval) (e : pyexn) :
  dict w !! "skiprows" = Some (VInt s) ->
  dict w !! "dimension" = Some (VInt D) ->
  dict w !! "word2vec_df" = Some (VDict T) ->
  build py_float D (body_rows (s - c) lines) T = Raise e ->
  (load_lines py_float lines c w).1 = Raise e.
Proof.
  revert c w T. induction lines as [|l lines IH]; intros c w T Hs HD HT.
  - unfold body_rows. rewrite drop_nil. discriminate.
  - intros Hb. cbn [load_lines].
    unfold bind at 1. unfold bind at 1. unfold getattr at 1. rewrite Hs.
    unfold lift at 1. cbn [as_int].
    destruct (c <? s) eqn:Hc.
    + apply Z.ltb_lt in Hc. apply (IH (c + 1) w T Hs HD HT).
      unfold body_rows in *.
      replace (Z.to_nat (s - c)) with (S (Z.to_nat (s - (c + 1)))) in Hb by lia.
      exact Hb.
    + apply Z.ltb_ge in Hc. unfold body_rows in Hb.
      replace (Z.to_nat (s - c)) with 0%nat in Hb by lia.
      rewrite drop_0 in Hb. cbn [map build] in Hb.
      unfold bind at 1. unfold bind at 1. unfold getattr at 1. rewrite HD.
      unfold lift at 1. cbn [as_int].
      destruct (Z.of_nat (length (fields l)) >? D) eqn:Hlen.
      * destruct (floats py_float (tail (fields l))) as [a|e'] eqn:Hfl.
        -- cbn [rbind] in Hb.
           unfold bind at 1. unfold bind at 1. unfold lift at 1.
           unfold table_set, bind, getattr. rewrite HT. unfold setattr.
           set (w1 := with_dict w _).
           apply (IH c w1 (<[hd EmptyString (fields l) := VArray a]> T)).
           ++ unfold w1; simpl. now rewrite lookup_insert_ne.
           ++ unfold w1; simpl. now rewrite lookup_insert_ne.
           ++ unfold w1; simpl. apply lookup_insert_eq.
           ++ unfold body_rows. replace (Z.to_nat (s - c)) with 0%nat by lia.
              now rewrite drop_0.
        -- cbn [rbind] in Hb. injection Hb as ->.
           unfold bind at 1. unfold bind at 1. unfold lift at 1. reflexivity.
      * unfold bind at 1. unfold ret at 1.
        apply (IH c w T Hs HD HT).
        unfold body_rows. replace (Z.to_nat (s - c)) with 0%nat by lia.
        now rewrite drop_0.
Qed.

Lemma floats_raise (py_float : string -> option Q) (l : list string) (f : string) :
  f ∈ l -> py_float f = None -> floats py_float l = Raise bad_number.
Proof.
  induction l as [|i l IH]; intros Hin Hf; [now apply elem_of_nil in Hin|].
  simpl. destruct (py_float i) as [x|] eqn:Hi; [|reflexivity].
  apply elem_of_cons in Hin as [->|Hin]; [congruence|].
  now rewrite (IH Hin Hf).
Qed.

Lemma floats_raise_only (py_float : string -> option Q) (l : list string)
    (e : pyexn) :
  floats py_float l = Raise e -> e = bad_number.
Proof.
  induction l as [|i l IH]; simpl; [discriminate|].
  destruct (py_float i); [|now intros [= <-]].
  destruct (floats py_float l); simpl; [discriminate|].
  intros [= <-]. now apply IH.
Qed.

Lemma build_raise (py_float : string -> option Q) (D : Z)
    (rows : list (list string)) (T : gmap string pyval)
    (row : list string) (f : string) :
  row ∈ retained D rows -> f ∈ tail row -> py_float f = None ->
  build py_float D rows T = Raise bad_number.
Proof.
  revert T. induction rows as [|r rows IH]; intros T Hrow Hf Hbad.
  - now apply elem_of_nil in Hrow.
  - rewrite retained_cons in Hrow. cbn [build].
    destruct (Z.of_nat (length r) >? D); [|now apply IH].
    destruct (floats py_float (tail r)) as [a|e] eqn:Hfl; cbn [rbind].
    + apply IH; try assumption.
      apply elem_of_cons in Hrow as [->|Hrow]; [|assumption].
      rewrite (floats_raise py_float _ f Hf Hbad) in Hfl. discriminate.
    + now rewrite (floats_raise_only py_float _ e Hfl).
Qed.

Lemma post_init_build (readlines : string -> option (list string))
    (py_float : string -> option Q) (w : world) (path : string)
    (lines : list string) (s D : Z) (T : gmap string pyval) :
  dict w !! "model_dir" = Some (VStr path) ->
  readlines path = Some lines ->
  dict w !! "skiprows" = Some (VInt s) ->
  dict w !! "dimension" = Some (VInt D) ->
  0 <= D ->
  build py_float D (body_rows s lines) ∅ = Ok T ->
  _post_init readlines py_float w = (Ok tt, loaded w T D).
Proof.
  intros Hpath Hread Hs HD HD0 HT.
  set (w1 := with_dict w (<["word2vec_df" := VDict ∅]> (dict w))).
  assert (Hload : load_lines py_float lines 0 w1 = (Ok tt, set_table w1 T)).
  { apply (load_lines_build py_float lines 0 s D w1 ∅ T); unfold w1; simpl.
    - now rewrite lookup_insert_ne.
    - now rewrite lookup_insert_ne.
    - apply lookup_insert_eq.
    - now rewrite Z.sub_0_r. }
  unfold _post_init. unfold bind at 1. unfold setattr at 1. fold w1.
  unfold bind at 1. unfold getattr at 1.
  replace (dict w1 !! "model_dir") with (Some (VStr path))
    by (unfold w1; simpl; now rewrite lookup_insert_ne).
  unfold bind at 1. rewrite Hread. unfold ret at 1.
  unfold bind at 1. rewrite Hload.
  unfold bind at 1. unfold getattr at 1.
  replace (dict (set_table w1 T) !! "dimension") with (Some (VInt D))
    by (unfold w1; simpl; now rewrite !lookup_insert_ne).
  unfold bind, lift, np_zeros, setattr.
  replace (D <? 0) with false by (symmetry; apply Z.ltb_ge; lia).
  f_equal. unfold loaded, set_table, w1, with_dict. simpl.
  now rewrite insert_insert_eq.
Qed.

(** X12: when the model file cannot be read, [_post_init] raises [IOError]
    and leaves the encoder with an empty table (a table loaded before is
    gone).  When a row that is kept has a field, after the first, that is not
    a number, [_post_init] raises [ValueError]: such a row is not skipped. *)
Theorem post_init_failures (readlines : string -> option (list string))
    (py_float : string -> option Q) (w : world) (path : string) :
  dict w !! "model_dir" = Some (VStr path) ->
  (readlines path = None ->
     _post_init readlines py_float w = (Raise (IOError path), set_table w ∅))
  /\ (forall lines s D row f,
        readlines path = Some lines ->
        dict w !! "skiprows" = Some (VInt s) ->
        dict w !! "dimension" = Some (VInt D) ->
        row ∈ retained D (body_rows s lines) ->
        f ∈ tail row -> py_float f = None ->
        (_post_init readlines py_float w).1 = Raise bad_number).
Proof.
  intros Hpath. split.
  - intros Hnone. unfold _post_init, bind, setattr, getattr. simpl.
    rewrite lookup_insert_ne by discriminate. rewrite Hpath, Hnone. reflexivity.
  - intros lines s D row f Hread Hs HD Hrow Hf Hbad.
    set (w1 := with_dict w (<["word2vec_df" := VDict ∅]> (dict w))).
    assert (Hload : (load_lines py_float lines 0 w1).1 = Raise bad_number).
    { apply (load_lines_raise py_float lines 0 s D w1 ∅); unfold w1; simpl.
      - now rewrite lookup_insert_ne.
      - now rewrite lookup_insert_ne.
      - apply lookup_insert_eq.
      - rewrite Z.sub_0_r. now apply (build_raise py_float D _ ∅ row f). }
    unfold _post_init. unfold bind at 1. unfold setattr at 1. fold w1.
    unfold bind at 1. unfold getattr at 1.
    replace (dict w1 !! "model_dir") with (Some (VStr path))
      by (unfold w1; simpl; now rewrite lookup_insert_ne).
    unfold bind at 1. rewrite Hread. unfold ret at 1.
    unfold bind at 1.
    destruct (load_lines py_float lines 0 w1) as [r w2]. simpl in Hload.
    now subst r.
Qed.

Lemma post_init_failures_witness :
  _post_init sample_readlines sample_float (w2v_at "missing.txt")
  = (Raise (IOError "missing.txt"), set_table (w2v_at "missing.txt") ∅).
Proof.
  apply (proj1 (post_init_failures sample_readlines sample_float
                  (w2v_at "missing.txt") "missing.txt"
                  ltac:(vm_compute; reflexivity))).
  vm_compute. reflexivity.
Defined.

(** Two spaces in a row make an empty field, which is not a number: with a
    [float] that refuses the empty string, the row makes the load fail. *)
Example double_space_raises :
  (_post_init (fun _ => Some ["1 2" ++ nl; "a 1  0" ++ nl]) sample_float
     (w2v_at "vectors.txt")).1
  = Raise bad_number.
Proof. vm_compute. reflexivity. Qed.

Lemma build_app (py_float : string -> option Q) (D : Z)
    (l1 l2 : list (list string)) (T : gmap string pyval) :
  build py_float D (l1 ++ l2) T
  = let? T1 := build py_float D l1 T in build py_float D l2 T1.
Proof.
  revert T. induction l1 as [|r l1 IH]; intros T; [reflexivity|].
  cbn [app build]. destruct (Z.of_nat (length r) >? D); [|apply IH].
  destruct (floats py_float (tail r)); cbn [rbind]; [apply IH|reflexivity].
Qed.

Lemma build_keeps (py_float : string -> option Q) (D : Z)
    (rows : list (list string)) (T T' : gmap string pyval) (tok : string) :
  build py_float D rows T = Ok T' ->
  (forall r, r ∈ retained D rows -> hd EmptyString r <> tok) ->
  T' !! tok = T !! tok.
Proof.
  revert T. induction rows as [|r rows IH]; intros T; cbn [build].
  - now intros [= <-].
  - rewrite retained_cons. destruct (Z.of_nat (length r) >? D).
    + destruct (floats py_float (tail r)) as [a|]; [|discriminate].
      cbn [rbind]. intros Hb Hne. rewrite (IH _ Hb).
      * apply lookup_insert_ne. apply Hne. now left.
      * intros r' Hr'. apply Hne. now right.
    + intros Hb Hne. now apply IH.
Qed.

Lemma table_of_loaded (w : world) (T : gmap string pyval) (D : Z) :
  table_of (loaded w T D) = T.
Proof.
  unfold table_of, loaded. simpl.
  now rewrite lookup_insert_ne, lookup_insert_eq.
Qed.

(** X13: when several kept rows start with the same token, the table holds
    the numbers of the last of them: a later row overwrites the entry of an
    earlier one. *)
Theorem table_last_wins (readlines : string -> option (list string))
    (py_float : string -> option Q) (w : world) (path : string)
    (lines : list string) (s D : Z) (pre post : list (list string))
    (row : list string) :
  dict w !! "model_dir" = Some (VStr path) ->
  readlines path = Some lines ->
  dict w !! "skiprows" = Some (VInt s) ->
  dict w !! "dimension" = Some (VInt D) ->
  0 <= D ->
  (forall r, r ∈ retained D (body_rows s lines) ->
     forall f, f ∈ tail r -> is_Some (py_float f)) ->
  body_rows s lines = (pre ++ row :: post)%list ->
  D < Z.of_nat (length row) ->
  (forall r, r ∈ retained D post -> hd EmptyString r <> hd EmptyString row) ->
  exists w' a,
    _post_init readlines py_float w = (Ok tt, w')
    /\ floats py_float (tail row) = Ok a
    /\ table_of w' !! hd EmptyString row = Some (VArray a).
Proof.
  intros Hpath Hread Hs HD HD0 Hparse Hsplit Hlen Hlast.
  destruct (build_ok py_float D (body_rows s lines) ∅ Hparse) as [T HT].
  exists (loaded w T D).
  pose proof (post_init_build readlines py_float w path lines s D T
                Hpath Hread Hs HD HD0 HT) as Hpost.
  rewrite Hsplit, build_app in HT.
  destruct (build py_float D pre ∅) as [T1|] eqn:Hpre; [|discriminate].
  cbn [rbind build] in HT.
  replace (Z.of_nat (length row) >? D) with true in HT
    by (symmetry; apply Z.gtb_lt; lia).
  destruct (floats py_float (tail row)) as [a|] eqn:Hfl; [|discriminate].
  cbn [rbind] in HT. exists a. split; [exact Hpost|]. split; [reflexivity|].
  rewrite table_of_loaded, (build_keeps py_float D post _ T _ HT Hlast).
  apply lookup_insert_eq.
Qed.

Lemma table_last_wins_witness :
  exists w' a,
    _post_init sample_readlines sample_float (w2v_at "ragged.txt") = (Ok tt, w')
    /\ floats sample_float (tail ["a"; "4"; "5"; "6"]) = Ok a
    /\ table_of w' !! hd EmptyString ["a"; "4"; "5"; "6"] = Some (VArray a).
Proof.
  apply (table_last_wins sample_readlines sample_float (w2v_at "ragged.txt")
           "ragged.txt" ragged_lines 1 2 [["a"; "1"; "2"; "3"]] []
           ["a"; "4"; "5"; "6"]).
  - vm_compute. reflexivity.
  - vm_compute. reflexivity.
  - vm_compute. reflexivity.
  - vm_compute. reflexivity.
  - lia.
  - replace (retained 2 (body_rows 1 ragged_lines))
      with [["a"; "1"; "2"; "3"]; ["a"; "4"; "5"; "6"]]
      by (vm_compute; reflexivity).
    intros r Hr f Hf.
    repeat match goal with
           | H : _ ∈ _ :: _ |- _ => apply elem_of_cons in H as [->|H]; simpl in *
           | H : _ ∈ [] |- _ => now apply elem_of_nil in H
           end; vm_compute; eauto.
  - vm_compute. reflexivity.
  - simpl. lia.
  - intros r Hr. now apply elem_of_nil in Hr.
Defined.

(** ** What the loader and the encoder leave alone *)

Section Touches.

Variable ks : list string.

Lemma touches_ret {A} (a : A) : touches ks (ret a).
Proof. intros w. now repeat split. Qed.

Lemma touches_throw {A} (e : pyexn) : touches ks (throw (A:=A) e).
Proof. intros w. now repeat split. Qed.

Lemma touches_lift {A} (r : result A) : touches ks (lift r).
Proof. intros w. now repeat split. Qed.

Lemma touches_getattr (k : string) : touches ks (getattr k).
Proof. intros w. unfold getattr. destruct (dict w !! k); now repeat split. Qed.

Lemma touches_setattr (k : string) (v : pyval) :
  k ∈ ks -> touches ks (setattr k v).
Proof.
  intros Hk w. unfold setattr. simpl. repeat split.
  intros j Hj. apply lookup_insert_ne. intros ->. now apply Hj.
Qed.

Lemma touches_bind {A B} (m : M A) (f : A -> M B) :
  touches ks m -> (forall a, touches ks (f a)) -> touches ks (bind m f).
Proof.
  intros Hm Hf w. unfold bind. destruct (Hm w) as (H1 & H2 & H3 & H4).
  destruct (m w) as [[a|e] w1]; simpl in *; [|now repeat split].
  destruct (Hf a w1) as (G1 & G2 & G3 & G4).
  repeat split; try congruence.
  intros k Hk. now rewrite (G4 k Hk), (H4 k Hk).
Qed.

End Touches.

Lemma load_lines_touches (py_float : string -> option Q) (ks : list string)
    (lines : list string) (c : Z) :
  "word2vec_df" ∈ ks -> touches ks (load_lines py_float lines c).
Proof.
  intros Hks. revert c. induction lines as [|l lines IH]; intros c.
  - apply touches_ret.
  - cbn [load_lines].
    apply touches_bind.
    { apply touches_bind; [apply touches_getattr|]. intros v. apply touches_lift. }
    intros s. destruct (c <? s); [apply IH|].
    apply touches_bind.
    { apply touches_bind; [apply touches_getattr|]. intros v. apply touches_lift. }
    intros D. apply touches_bind; [|intros _; apply IH].
    destruct (_ >? D); [|apply touches_ret].
    apply touches_bind; [apply touches_lift|]. intros a.
    unfold table_set. apply touches_bind; [apply touches_getattr|].
    intros df. destruct df; try apply touches_throw.
    now apply touches_setattr.
Qed.

Lemma post_init_touches (readlines : string -> option (list string))
    (py_float : string -> option Q) :
  touches ["word2vec_df"; "empty"] (_post_init readlines py_float).
Proof.
  unfold _post_init.
  apply touches_bind; [apply touches_setattr; now left|]. intros _.
  apply touches_bind; [apply touches_getattr|]. intros path.
  apply touches_bind.
  { destruct path; try apply touches_throw.
    destruct (readlines s); [apply touches_ret|apply touches_throw]. }
  intros lines.
  apply touches_bind; [apply load_lines_touches; now left|]. intros _.
  apply touches_bind; [apply touches_getattr|]. intros d.
  apply touches_bind; [apply touches_lift|]. intros z.
  apply touches_setattr. right. now left.
Qed.

(** X14: whether it completes or raises, [_post_init] changes no attribute
    of the encoder other than [word2vec_df] and [empty], and emits no log
    record. *)
Theorem post_init_frame (readlines : string -> option (list string))
    (py_float : string -> option Q) (w : world) :
  class_name (_post_init readlines py_float w).2 = class_name w
  /\ emitted (_post_init readlines py_float w).2 = emitted w
  /\ forall k, k <> "word2vec_df" -> k <> "empty" ->
       dict (_post_init readlines py_float w).2 !! k = dict w !! k.
Proof.
  destruct (post_init_touches readlines py_float w) as (H1 & _ & H3 & H4).
  split; [exact H1|]. split; [exact H3|].
  intros k Hk1 Hk2. apply H4. rewrite !elem_of_cons, elem_of_nil. tauto.
Qed.

Lemma reads_only_pure {A} (m : M A) :
  (forall w, (m w).2 = w) -> reads_only m.
Proof.
  intros Hm w. rewrite Hm. repeat split. exists []. split; [|constructor].
  now rewrite app_nil_r.
Qed.

Lemma reads_only_bind {A B} (m : M A) (f : A -> M B) :
  reads_only m -> (forall a, reads_only (f a)) -> reads_only (bind m f).
Proof.
  intros Hm Hf w. unfold bind. destruct (Hm w) as (H1 & H2 & H3 & l1 & H4 & H5).
  destruct (m w) as [[a|e] w1]; simpl in *; [|repeat split; eauto].
  destruct (Hf a w1) as (G1 & G2 & G3 & l2 & G4 & G5).
  repeat split; try congruence.
  exists (l1 ++ l2)%list. split; [|now apply Forall_app].
  now rewrite G4, H4, app_assoc.
Qed.

Lemma reads_only_getattr (k : string) : reads_only (getattr k).
Proof.
  apply reads_only_pure. intros w. unfold getattr. now destruct (dict w !! k).
Qed.

Lemma reads_only_info (msg : string) : reads_only (logger_emit INFO msg).
Proof.
  unfold logger_emit. apply reads_only_bind; [apply reads_only_getattr|].
  intros l. destruct l; try (apply reads_only_pure; reflexivity).
  intros w. simpl. repeat split. eexists. split; [reflexivity|].
  repeat constructor.
Qed.

Lemma reads_only_mapM {A B} (f : A -> M B) (l : list A) :
  (forall a, reads_only (f a)) -> reads_only (mapM f l).
Proof.
  intros Hf. induction l as [|a l IH]; simpl.
  - apply reads_only_pure. reflexivity.
  - apply reads_only_bind; [apply Hf|]. intros b.
    apply reads_only_bind; [apply IH|]. intros bs.
    apply reads_only_pure. reflexivity.
Qed.

Lemma reads_only_lookup_token (token : string) : reads_only (lookup_token token).
Proof.
  unfold lookup_token. apply reads_only_bind; [apply reads_only_getattr|].
  intros df. destruct df; try (apply reads_only_pure; reflexivity).
  apply reads_only_bind; [apply reads_only_getattr|]. intros e.
  apply reads_only_pure. reflexivity.
Qed.

(** X15: whatever its outcome, [encode] changes no attribute of the encoder,
    and the log records it emits are all of level [INFO]. *)
Theorem encode_frame (tokenize : string -> list string) (text : list string)
    (w : world) :
  dict (encode tokenize text w).2 = dict w
  /\ class_name (encode tokenize text w).2 = class_name w
  /\ exists l, emitted (encode tokenize text w).2 = (emitted w ++ l)%list
               /\ Forall (fun r => rec_level r = INFO) l.
Proof.
  assert (Hr : reads_only (encode tokenize text)).
  { unfold encode, encode_pooled.
    repeat first
      [ apply reads_only_info
      | apply reads_only_mapM; intros ?
      | apply reads_only_lookup_token
      | apply reads_only_pure; reflexivity
      | apply reads_only_bind; [|intros ?] ]. }
  destruct (Hr w) as (H1 & _ & H3 & H4). auto.
Qed.

(** ** [encode] before the table is loaded *)

Lemma lookup_batch_unloaded (batch : list (list string)) (w : world)
    (tokens : list string) :
  dict w !! "word2vec_df" = None ->
  tokens ∈ batch -> tokens <> [] ->
  mapM (fun tokens => mapM lookup_token tokens) batch w
  = (Raise (AttributeError "word2vec_df"), w).
Proof.
  intros Hdf. induction batch as [|ts batch IH]; intros Hin Hne.
  - now apply elem_of_nil in Hin.
  - cbn [mapM]. unfold bind at 1. destruct ts as [|t ts].
    + cbn [mapM]. unfold ret at 1. unfold bind at 1.
      apply elem_of_cons in Hin as [->|Hin]; [congruence|].
      now rewrite (IH Hin Hne).
    + cbn [mapM]. unfold bind at 1. unfold lookup_token at 1.
      unfold bind at 1. unfold getattr at 1. now rewrite Hdf.
Qed.

(** X16: on an encoder whose table is not loaded (newly constructed, or
    restored from a pickle), [encode] raises [AttributeError] for
    [word2vec_df] as soon as one input string has a token. *)
Theorem encode_unloaded_raises (tokenize : string -> list string)
    (text : list string) (w : world) (n : string) (v : pyval) (s : string) :
  dict w !! "logger" = Some (VLogger n v) ->
  dict w !! "word2vec_df" = None ->
  s ∈ text -> tokenize s <> [] ->
  (encode_pooled tokenize text w).1 = Raise (AttributeError "word2vec_df")
  /\ (encode tokenize text w).1 = Raise (AttributeError "word2vec_df").
Proof.
  intros Hlog Hdf Hs Htok.
  assert (Hp : (encode_pooled tokenize text w).1
               = Raise (AttributeError "word2vec_df")).
  { unfold encode_pooled.
    unfold bind at 1. rewrite (logger_emit_ok _ _ _ n v Hlog).
    unfold bind at 1. rewrite (logger_emit_ok _ _ _ n v) by exact Hlog.
    unfold bind at 1.
    rewrite (lookup_batch_unloaded _ _ (tokenize s)); try assumption;
      [reflexivity|].
    apply list_elem_of_fmap. eauto. }
  split; [exact Hp|].
  unfold encode, bind.
  destruct (encode_pooled tokenize text w) as [r w']. simpl in Hp. now subst r.
Qed.

Lemma encode_unloaded_raises_witness :
  (encode_pooled sample_tokenize ["a b"] w2v_obj).1
  = Raise (AttributeError "word2vec_df")
  /\ (encode sample_tokenize ["a b"] w2v_obj).1
     = Raise (AttributeError "word2vec_df").
Proof.
  apply (encode_unloaded_raises sample_tokenize ["a b"] w2v_obj
           "Word2VecEncoder" (VBool false) "a b").
  - vm_compute. reflexivity.
  - vm_compute. reflexivity.
  - now left.
  - vm_compute. discriminate.
Defined.

(** ** The pooled data at work *)

Lemma loaded_w2v_table :
  dict loaded_w2v !! "word2vec_df"
  = Some (VDict (<["a" := VArray [1%Q; 0%Q]]>
                   (<["b" := VArray [3%Q; 0%Q]]> ∅))).
Proof. vm_compute. reflexivity. Qed.

Lemma encode_pooled_is_mean_witness :
  (encode_pooled sample_tokenize ["a b"; "b zzz"] loaded_w2v).1
  = Ok (map (fun s => VArray (elementwise_mean 2
                       (map (row_of (<["a" := VArray [1%Q; 0%Q]]>
                                       (<["b" := VArray [3%Q; 0%Q]]> ∅))
                                    [0%Q; 0%Q])
                            (sample_tokenize s))))
            ["a b"; "b zzz"]).
Proof.
  apply (encode_pooled_is_mean sample_tokenize ["a b"; "b zzz"] loaded_w2v
           _ [0%Q; 0%Q] "Word2VecEncoder" (VBool false) 2).
  - vm_compute. reflexivity.
  - exact loaded_w2v_table.
  - vm_compute. reflexivity.
  - reflexivity.
  - intros token x Hx.
    destruct (decide (token = "a")) as [->|Ha].
    + rewrite lookup_insert_eq in Hx. injection Hx as <-. eauto.
    + rewrite lookup_insert_ne in Hx by congruence.
      destruct (decide (token = "b")) as [->|Hb].
      * rewrite lookup_insert_eq in Hx. injection Hx as <-. eauto.
      * rewrite lookup_insert_ne, lookup_empty in Hx by congruence.
        discriminate.
  - intros s Hs.
    apply elem_of_cons in Hs as [->|Hs]; [vm_compute; discriminate|].
    apply elem_of_cons in Hs as [->|Hs]; [vm_compute; discriminate|].
    now apply elem_of_nil in Hs.
Defined.

(** The means of the witness, computed. *)
Example pooled_means :
  (encode_pooled sample_tokenize ["a b"; "b zzz"] loaded_w2v).1
  = Ok [VArray [2%Q; 0%Q]; VArray [(3 # 2)%Q; 0%Q]].
Proof. vm_compute. reflexivity. Qed.

(** ** Pickling the encoder *)

Lemma set_default_property_other (w : world) (k : string) :
  k <> "is_trained" -> k <> "batch_size" ->
  dict (set_default_property w).2 !! k = dict w !! k.
Proof.
  intros H1 H2. unfold set_default_property, default_property. simpl.
  destruct (dict w !! "is_trained") eqn:E1;
    match goal with
    | |- context [match ?d !! "batch_size" with _ => _ end] =>
        destruct (d !! "batch_size") eqn:E2
    end;
    now rewrite ?lookup_insert_ne by congruence.
Qed.

(** The attributes of an encoder as its constructor leaves it: the two
    handles are there, the table and the zero vector are not. *)
Lemma w2v_fresh_attrs (args : list pyval) (kwargs : gmap string pyval)
    (w : world) :
  __call__ Word2VecEncoder args kwargs = Ok w ->
  is_Some (dict w !! "logger") /\ is_Some (dict w !! "memcached")
  /\ dict w !! "word2vec_df" = None /\ dict w !! "empty" = None.
Proof.
  intros Hcall. apply call_inv in Hcall as (w' & Hb & ->).
  rewrite Word2VecEncoder_python_init in Hb. unfold python_init in Hb.
  destruct (bind_args _ args kwargs) as [r|e]; [|discriminate].
  remember (captured (cls_store_args_kwargs Word2VecEncoder)
              (all_pars Word2VecEncoder) args kwargs) as D eqn:HD.
  clear HD. unfold Word2VecEncoder_body in Hb. unfold bind at 1 in Hb.
  unfold super_init, wrapped_init in Hb.
  rewrite (store_init_unfold _ _ _ _ _ D) in Hb
    by (right; apply lookup_insert_eq).
  cbn [all_pars init_body TrainableBase] in Hb.
  unfold TrainableBase_init, bind, setattr, getattr in Hb. simpl in Hb.
  rewrite lookup_insert_eq in Hb. simpl in Hb. injection Hb as <-.
  rewrite !set_default_property_other by discriminate.
  cbn [dict with_dict].
  split; [|split; [|split]].
  - eexists. rewrite !lookup_insert_ne by discriminate. apply lookup_insert_eq.
  - eexists. rewrite !lookup_insert_ne by discriminate. apply lookup_insert_eq.
  - rewrite !lookup_insert_ne by discriminate. now apply lookup_singleton_ne.
  - rewrite !lookup_insert_ne by discriminate. now apply lookup_singleton_ne.
Qed.

Lemma keeps_attrs_pure {A} (m : M A) :
  (forall w, (m w).2 = w) -> keeps_attrs m.
Proof. intros Hm w k Hk. now rewrite Hm. Qed.

Lemma keeps_attrs_setattr (j : string) (v : pyval) : keeps_attrs (setattr j v).
Proof.
  intros w k Hk. unfold setattr. simpl.
  destruct (decide (j = k)) as [->|Hne];
    [rewrite lookup_insert_eq; eauto|now rewrite lookup_insert_ne].
Qed.

Lemma keeps_attrs_getattr (j : string) : keeps_attrs (getattr j).
Proof.
  apply keeps_attrs_pure. intros w. unfold getattr. now destruct (dict w !! j).
Qed.

Lemma keeps_attrs_bind {A B} (m : M A) (f : A -> M B) :
  keeps_attrs m -> (forall a, keeps_attrs (f a)) -> keeps_attrs (bind m f).
Proof.
  intros Hm Hf w k Hk. unfold bind. specialize (Hm w k Hk).
  destruct (m w) as [[a|e] w1]; simpl in *; [now apply Hf|exact Hm].
Qed.

Lemma load_lines_keeps_attrs (py_float : string -> option Q)
    (lines : list string) (c : Z) :
  keeps_attrs (load_lines py_float lines c).
Proof.
  revert c. induction lines as [|l lines IH]; intros c.
  - apply keeps_attrs_pure. reflexivity.
  - cbn [load_lines].
    apply keeps_attrs_bind.
    { apply keeps_attrs_bind; [apply keeps_attrs_getattr|]. intros v.
      apply keeps_attrs_pure. reflexivity. }
    intros s. destruct (c <? s); [apply IH|].
    apply keeps_attrs_bind.
    { apply keeps_attrs_bind; [apply keeps_attrs_getattr|]. intros v.
      apply keeps_attrs_pure. reflexivity. }
    intros D. apply keeps_attrs_bind; [|intros _; apply IH].
    destruct (_ >? D); [|apply keeps_attrs_pure; reflexivity].
    apply keeps_attrs_bind; [apply keeps_attrs_pure; reflexivity|]. intros a.
    unfold table_set. apply keeps_attrs_bind; [apply keeps_attrs_getattr|].
    intros df. destruct df; try (apply keeps_attrs_pure; reflexivity).
    apply keeps_attrs_setattr.
Qed.

(** A completed [_post_init] leaves both the table and the zero vector. *)
Lemma post_init_sets (readlines : string -> option (list string))
    (py_float : string -> option Q) (w w' : world) :
  _post_init readlines py_float w = (Ok tt, w') ->
  is_Some (dict w' !! "word2vec_df") /\ is_Some (dict w' !! "empty").
Proof.
  unfold _post_init. unfold bind at 1. unfold setattr at 1.
  set (w1 := with_dict w _).
  assert (H1 : is_Some (dict w1 !! "word2vec_df"))
    by (unfold w1; simpl; rewrite lookup_insert_eq; eauto).
  unfold bind at 1. unfold getattr at 1.
  destruct (dict w1 !! "model_dir") as [path|]; [|discriminate].
  unfold bind at 1.
  destruct (match path with
            | VStr p => match readlines p with
                        | Some ls => ret ls
                        | None => throw (IOError p)
                        end
            | _ => throw (TypeError "expected str, bytes or os.PathLike object")
            end w1) as [[lines|e] w2] eqn:Hopen; [|discriminate].
  assert (w2 = w1).
  { destruct path; try discriminate.
    destruct (readlines s); [now injection Hopen|discriminate]. }
  subst w2. unfold bind at 1.
  pose proof (load_lines_keeps_attrs py_float lines 0 w1 _ H1) as H3.
  destruct (load_lines py_float lines 0 w1) as [[[]|e] w3]; [|discriminate].
  simpl in H3. unfold bind at 1. unfold getattr at 1.
  destruct (dict w3 !! "dimension") as [d|]; [|discriminate].
  unfold bind, lift, setattr. destruct (np_zeros d) as [z|e]; [|discriminate].
  intros [= <-]. simpl. split.
  - now rewrite lookup_insert_ne.
  - rewrite lookup_insert_eq. eauto.
Qed.

(** X17: an encoder cannot be pickled as its constructor leaves it:
    [__getstate__] raises [KeyError] for [word2vec_df].  Once [_post_init]
    has completed it can, and the pickled state is then the attributes the
    constructor set, without the two handles: nothing of the table is in
    it. *)
Theorem encoder_pickle (readlines : string -> option (list string))
    (py_float : string -> option Q) (args : list pyval)
    (kwargs : gmap string pyval) (w : world) :
  __call__ Word2VecEncoder args kwargs = Ok w ->
  W2V.__getstate__ w = Raise (KeyError "word2vec_df")
  /\ forall w', _post_init readlines py_float w = (Ok tt, w') ->
       exists d, W2V.__getstate__ w' = Ok d
         /\ forall k, d !! k = if bool_decide (k ∈ handles) then None
                               else dict w !! k.
Proof.
  intros Hcall.
  destruct (w2v_fresh_attrs args kwargs w Hcall) as (Hl & Hm & Hdf & He).
  split.
  - unfold W2V.__getstate__. rewrite (base_getstate_ok w Hl Hm). cbn [rbind].
    unfold del. now rewrite !lookup_delete_ne, Hdf by discriminate.
  - intros w' Hpost.
    destruct (post_init_sets readlines py_float w w' Hpost) as [Hdf' He'].
    destruct (post_init_touches readlines py_float w) as (_ & _ & _ & Hsame).
    rewrite Hpost in Hsame. simpl in Hsame.
    assert (Hother : forall k, k <> "word2vec_df" -> k <> "empty" ->
              dict w' !! k = dict w !! k).
    { intros k H1 H2. apply Hsame. rewrite !elem_of_cons, elem_of_nil. tauto. }
    assert (Hl' : is_Some (dict w' !! "logger")) by (now rewrite Hother).
    assert (Hm' : is_Some (dict w' !! "memcached")) by (now rewrite Hother).
    unfold W2V.__getstate__. rewrite (base_getstate_ok w' Hl' Hm'). cbn [rbind].
    rewrite del_ok by (now rewrite !lookup_delete_ne). cbn [rbind].
    rewrite del_ok by (now rewrite !lookup_delete_ne).
    eexists. split; [reflexivity|]. intros k.
    change (foldr delete (dict w')
              ["empty"; "word2vec_df"; "memcached"; "logger"] !! k
            = if bool_decide (k ∈ handles) then None else dict w !! k).
    rewrite lookup_delete_list. unfold handles.
    destruct (decide (k = "empty")) as [->|H1].
    { rewrite bool_decide_eq_true_2 by (now left).
      rewrite bool_decide_eq_false_2; [now rewrite He|].
      rewrite !elem_of_cons, elem_of_nil. intros [|[|[]]]; discriminate. }
    destruct (decide (k = "word2vec_df")) as [->|H2].
    { rewrite bool_decide_eq_true_2 by (right; now left).
      rewrite bool_decide_eq_false_2; [now rewrite Hdf|].
      rewrite !elem_of_cons, elem_of_nil. intros [|[|[]]]; discriminate. }
    rewrite <- (Hother k H2 H1).
    apply (f_equal (fun c : bool => if c then None else dict w' !! k)).
    apply bool_decide_ext. rewrite !elem_of_cons, !elem_of_nil. tauto.
Qed.

Lemma encoder_pickle_witness :
  W2V.__getstate__ (w2v_at "vectors.txt") = Raise (KeyError "word2vec_df")
  /\ forall w',
       _post_init sample_readlines sample_float (w2v_at "vectors.txt")
       = (Ok tt, w') ->
       exists d, W2V.__getstate__ w' = Ok d
         /\ forall k, d !! k = if bool_decide (k ∈ handles) then None
                               else dict (w2v_at "vectors.txt") !! k.
Proof.
  apply (encoder_pickle sample_readlines sample_float []
           (<["dimension" := VInt 2]> {[ "model_dir" := VStr "vectors.txt" ]})).
  vm_compute. reflexivity.
Defined.

(** ** Loading a document that lacks a required parameter *)

Lemma bind_args_missing (pars : signature) (kwargs : gmap string pyval)
    (k : string) :
  (k, VEmpty) ∈ pars -> kwargs !! k = None ->
  bind_args pars [] kwargs
  = Raise (TypeError "missing required positional argument").
Proof.
  revert kwargs. induction pars as [|[k0 d0] pars IH]; intros kwargs Hin Hk.
  - now apply elem_of_nil in Hin.
  - cbn [bind_args]. destruct (kwargs !! k0) as [v|] eqn:Hk0.
    + apply elem_of_cons in Hin as [Heq|Hin].
      { injection Heq as -> _. congruence. }
      rewrite (IH (delete k0 kwargs) Hin); [reflexivity|].
      destruct (decide (k0 = k)) as [->|Hne]; [apply lookup_delete_eq|].
      now rewrite lookup_delete_ne.
    + apply elem_of_cons in Hin as [Heq|Hin].
      { injection Heq as _ <-. reflexivity. }
      destruct d0; try reflexivity; now rewrite (IH kwargs Hin Hk).
Qed.

(** X18: a constructor call without positional arguments that gives no
    value to a parameter declared without a default raises [TypeError], and
    so does the structured load of a document whose [parameter] mapping
    lacks that parameter (or that has no [parameter] mapping at all), for a
    class that does not keep the raw arguments: no component is returned,
    whatever the rest of the document holds. *)
Theorem load_missing_required (cls : pyclass)
    (body : gmap string pyval -> list pyval -> gmap string pyval -> M unit)
    (doc p : gmap string pyval) (k : string) :
  (forall a kw, init_body cls a kw = python_init (all_pars cls) body a kw) ->
  cls_store_args_kwargs cls = false ->
  (k, VEmpty) ∈ declared (all_pars cls) ->
  get_mapping "parameter" doc = Ok p ->
  p !! k = None ->
  __call__ cls [] p = Raise (TypeError "missing required positional argument")
  /\ load_structured cls doc
     = Raise (TypeError "missing required positional argument").
Proof.
  intros Hinit Hstore Hin Hdoc Hk.
  assert (Hcall : __call__ cls [] p
                  = Raise (TypeError "missing required positional argument")).
  { rewrite call_unfold, Hinit. unfold python_init, bind.
    now rewrite (bind_args_missing _ p k Hin Hk). }
  split; [exact Hcall|].
  unfold load_structured, _get_instance_from_yaml.
  rewrite Hdoc. cbn [rbind]. now rewrite Hstore, Hcall.
Qed.

Lemma load_missing_required_witness :
  __call__ Word2VecEncoder [] {[ "dimension" := VInt 2 ]}
  = Raise (TypeError "missing required positional argument")
  /\ load_structured Word2VecEncoder
       {[ "parameter" := VDict {[ "dimension" := VInt 2 ]} ]}
     = Raise (TypeError "missing required positional argument").
Proof.
  apply (load_missing_required Word2VecEncoder Word2VecEncoder_body
           {[ "parameter" := VDict {[ "dimension" := VInt 2 ]} ]}
           {[ "dimension" := VInt 2 ]} "model_dir").
  - intros a kw. apply Word2VecEncoder_python_init.
  - reflexivity.
  - apply list_elem_of_filter. split.
    + cbn [fst]. unfold taboo. rewrite !elem_of_cons, elem_of_nil.
      intros [|[|[|[]]]]; discriminate.
    + change (all_pars Word2VecEncoder) with Word2VecEncoder_sig.
      unfold Word2VecEncoder_sig. rewrite !elem_of_cons. right. now left.
  - reflexivity.
  - reflexivity.
Defined.
